(** * Interop service layer of the NEO node (package [core], interops)

    A shallow embedding of the interop handlers that bridge the NEO VM to the
    ledger: the traceability oracle, the ledger lookups, storage contexts and
    storage writes, cross-contract calls and notifications.  Handlers are
    functions of the machine state ([World]) that return either a value or
    the error with which the VM faults, together with the state they leave
    behind. *)

From Stdlib Require Import ZArith Lia Strings.Byte Ascii String.
From stdpp Require Import gmap list strings.

Local Open Scope Z_scope.

#[local] Set Warnings "-register-all".

(** ** Machine integers *)

(** Go's fixed-width integers are integers of [Z] reduced on every
    operation: [wrap_unsigned w] is the conversion to [uintw], [wrap_signed w]
    the conversion to [intw] (two's complement). *)
Definition wrap_unsigned (w z : Z) : Z := z mod 2 ^ w.

Definition wrap_signed (w z : Z) : Z := (z + 2 ^ (w - 1)) mod 2 ^ w - 2 ^ (w - 1).

Definition MaxUint32 : Z := 4294967295.

(** [uint32] addition. *)
Definition uint32_add (a b : Z) : Z := wrap_unsigned 32 (a + b).

(** [int64] multiplication and addition, [int] (64-bit) increment. *)
Definition int64_mul (a b : Z) : Z := wrap_signed 64 (a * b).

Definition int64_add (a b : Z) : Z := wrap_signed 64 (a + b).

(** [Int64] of [math/big]: the low 64 bits of the magnitude, read as an [int64],
    negated for a negative number.  It is the number itself whenever that
    fits an [int64]. *)
Definition big_Int64 (z : Z) : Z :=
  let v := wrap_signed 64 (Z.abs z) in
  if z <? 0 then wrap_signed 64 (- v) else v.

(** ** Bytes and hashes *)

Abbreviation Bytes := (list byte) (only parsing).

#[global] Instance byte_eq_dec : EqDecision byte := Byte.byte_eq_dec.

#[global] Instance byte_countable : Countable byte :=
  inj_countable Byte.to_N Byte.of_N Byte.of_to_N.

(** [len] is Go's [len] on a byte slice. *)
Definition len (b : Bytes) : Z := Z.of_nat (length b).

Definition byte_of_Z (z : Z) : byte :=
  match Byte.of_N (Z.to_N (z mod 256)) with
  | Some b => b
  | None => x00
  end.

Definition Z_of_byte (b : byte) : Z := Z.of_N (Byte.to_N b).

(** Big-endian bytes of a number on [n] bytes, and back. *)
Fixpoint be_bytes (n : nat) (z : Z) : Bytes :=
  match n with
  | O => []
  | S k => be_bytes k (z / 256) ++ [byte_of_Z z]
  end.

Definition be_value (b : Bytes) : Z :=
  fold_left (fun acc x => acc * 256 + Z_of_byte x) b 0.

(** [util.Uint160] and [util.Uint256] are fixed arrays of 20 and 32 bytes;
    a value is represented by the number its big-endian bytes spell. *)
Abbreviation Uint160 := Z (only parsing).

Abbreviation Uint256 := Z (only parsing).

Definition Uint160_BytesBE (u : Uint160) : Bytes := be_bytes 20 u.

Definition Uint256_BytesBE (u : Uint256) : Bytes := be_bytes 32 u.

(** Modelled from the spec: [util.Uint160DecodeBytesBE] and
    [util.Uint256DecodeBytesBE] are not among the sources; they decode a
    big-endian hash of 20 or 32 bytes, and a slice of another size is an
    error. *)
Definition Uint160DecodeBytesBE (b : Bytes) : option Uint160 :=
  if len b =? 20 then Some (be_value b) else None.

Definition Uint256DecodeBytesBE (b : Bytes) : option Uint256 :=
  if len b =? 32 then Some (be_value b) else None.

(** ** Stack items *)

(** What an interop item wraps: a pointer to a [StorageContext] record of
    the heap, or some other Go value. *)
Inductive GoValue : Type :=
| VStorageContext (p : nat)
| VOther (tag : nat).

(** Modelled from the spec: the typed items of the evaluation stack
    (package [stackitem], not among the sources): null, byte string, integer
    of arbitrary precision, boolean, array, map and interop wrapper. *)
Inductive Item : Type :=
| Null
| ByteArray (b : Bytes)
| BigInteger (z : Z)
| Bool (b : bool)
| Array (l : list Item)
| Map (kv : list (Item * Item))
| Interop (v : GoValue).

(** ** Ledger records *)

(** Modelled from the spec: the record types of the packages [transaction],
    [block], [manifest] and [state] are not among the sources; each has the
    fields that the handlers read, and the hash of a transaction or a block
    is a field of it. *)
Record Transaction : Type := {
  tx_Hash : Uint256;
  tx_Version : Z;
  tx_Nonce : Z;
  tx_Sender : Uint160;
  tx_SystemFee : Z;
  tx_NetworkFee : Z;
  tx_ValidUntilBlock : Z;
  tx_Script : Bytes
}.

Record Block : Type := {
  b_Hash : Uint256;
  b_Version : Z;
  b_PrevHash : Uint256;
  b_MerkleRoot : Uint256;
  b_Timestamp : Z;
  b_Index : Z;
  b_NextConsensus : Uint160;
  b_Transactions : list Transaction
}.

(** A manifest permission: the contract it names ([None] is the wildcard)
    and the methods it allows ([None] is the wildcard). *)
Record Permission : Type := {
  p_Contract : option Uint160;
  p_Methods : option (list Bytes)
}.

Record Manifest : Type := {
  m_ABIHash : Uint160;
  m_Features : Z;
  m_Permissions : list Permission
}.

Record Contract : Type := {
  c_ID : Z;
  c_Script : Bytes;
  c_Manifest : Manifest
}.

(** Modelled from the spec: [HasStorage] of a contract state tells whether
    its manifest has the feature bit [HasStorage], the lowest one. *)
Definition HasStorage (c : Contract) : bool := Z.testbit (m_Features (c_Manifest c)) 0.

Record StorageItem : Type := {
  si_Value : Bytes;
  si_IsConst : bool
}.

(** [StorageContext] contains storing id and read/write flag. *)
Record StorageContext : Type := {
  sc_ID : Z;
  sc_ReadOnly : bool
}.

Record NotificationEvent : Type := {
  ne_ScriptHash : Uint160;
  ne_Item : Item
}.

(** ** Machine state *)

(** Modelled from the spec: the [blockchainer.Blockchainer] interface is
    not among the sources; it is the blockchain view of section 6, with the
    methods the handlers call.  Heights and indexes are [uint32]. *)
Record Blockchainer : Type := {
  BlockHeight : Z;
  GetHeaderHash : Z -> Uint256;
  chain_GetBlock : Uint256 -> option Block
}.

(** Modelled from the spec: [dao.Cached] is not among the sources; it is the
    transactional view of section 6 (blocks and transactions by hash,
    contract records keyed by script hash, storage items keyed by contract
    id and key), held in memory, so that a lookup of a missing record is the
    only error and a store never fails. *)
Record Cached : Type := {
  dao_blocks : gmap Uint256 Block;
  dao_transactions : gmap Uint256 (Transaction * Z);
  dao_contracts : gmap Uint160 Contract;
  dao_storage : gmap (Z * Bytes) StorageItem
}.

(** Modelled from the spec: [interop.Context] is not among the sources; it
    is the execution context of section 3, with the fields the handlers
    below touch. *)
Record InteropContext : Type := {
  Chain : Blockchainer;
  DAO : Cached;
  Notifications : list NotificationEvent;
  Invocations : gmap Uint160 Z
}.

(** An invocation-stack frame ([vm.Context]). *)
Record Frame : Type := {
  f_script : Bytes;
  f_scriptHash : Uint160;
  f_callFlag : Z
}.

(** Modelled from the spec: [vm.VM] is not among the sources.  One
    evaluation stack (its head is the top) shared by the frames, the
    invocation stack as the running frame and its callers, and the gas
    meter. *)
Record VM : Type := {
  estack : list Item;
  current : Frame;
  callers : list Frame;
  gasConsumed : Z;
  GasLimit : Z
}.

(** The state a handler runs in: its two arguments and the records that
    interop items point to. *)
Record World : Type := {
  ic : InteropContext;
  v : VM;
  heap : list StorageContext
}.

Definition with_estack (s : list Item) (m : VM) : VM :=
  {| estack := s; current := current m; callers := callers m;
     gasConsumed := gasConsumed m; GasLimit := GasLimit m |}.

Definition with_gasConsumed (g : Z) (m : VM) : VM :=
  {| estack := estack m; current := current m; callers := callers m;
     gasConsumed := g; GasLimit := GasLimit m |}.

Definition with_frame (f : Frame) (m : VM) : VM :=
  {| estack := estack m; current := f; callers := current m :: callers m;
     gasConsumed := gasConsumed m; GasLimit := GasLimit m |}.

Definition with_storage (st : gmap (Z * Bytes) StorageItem) (d : Cached) : Cached :=
  {| dao_blocks := dao_blocks d; dao_transactions := dao_transactions d;
     dao_contracts := dao_contracts d; dao_storage := st |}.

Definition with_DAO (d : Cached) (c : InteropContext) : InteropContext :=
  {| Chain := Chain c; DAO := d; Notifications := Notifications c;
     Invocations := Invocations c |}.

Definition with_Notifications (n : list NotificationEvent) (c : InteropContext) : InteropContext :=
  {| Chain := Chain c; DAO := DAO c; Notifications := n;
     Invocations := Invocations c |}.

Definition with_Invocations (n : gmap Uint160 Z) (c : InteropContext) : InteropContext :=
  {| Chain := Chain c; DAO := DAO c; Notifications := Notifications c;
     Invocations := n |}.

Definition with_v (m : VM) (w : World) : World :=
  {| ic := ic w; v := m; heap := heap w |}.

Definition with_ic (c : InteropContext) (w : World) : World :=
  {| ic := c; v := v w; heap := heap w |}.

Definition with_heap (h : list StorageContext) (w : World) : World :=
  {| ic := ic w; v := v w; heap := h |}.

(** ** Errors and the handler monad *)

Inductive error : Type :=
| errors_New (msg : string)
| errGasLimitExceeded
| errNotStorageContext
| errBadHash
| errTryBytes
| errKeyNotFound
| panic_nil
| panic_conversion.

Inductive outcome (A : Type) : Type :=
| Ret (a : A)
| Err (e : error).

Arguments Ret {A} a.
Arguments Err {A} e.

(** A handler step: the value or the error, and the state left behind (a
    failing handler keeps what it did before it failed). *)
Definition M (A : Type) : Type := World -> outcome A * World.

Definition ret {A : Type} (a : A) : M A := fun w => (Ret a, w).

Definition throw {A : Type} (e : error) : M A := fun w => (Err e, w).

Definition bind {A B : Type} (c : M A) (k : A -> M B) : M B :=
  fun w =>
    match c w with
    | (Ret a, w') => k a w'
    | (Err e, w') => (Err e, w')
    end.

Notation "x <- c ;; k" := (bind c (fun x => k))
  (at level 100, c at next level, right associativity).

Notation "c ;;; k" := (bind c (fun _ => k))
  (at level 100, right associativity).

(** A step that only computes. *)
Definition lift {A : Type} (r : outcome A) : M A := fun w => (r, w).

Definition get : M World := fun w => (Ret w, w).

Definition put (w : World) : M unit := fun _ => (Ret tt, w).

(** [nil] of an [error] result. *)
Definition succeeded {A : Type} (r : outcome A * World) : bool :=
  match fst r with
  | Ret _ => true
  | Err _ => false
  end.

(** ** The packages the handlers import *)

(** The constants and helpers of other packages that the handlers use and
    that are not part of this development are parameters of it: the two
    protocol constants, the integer codec of [bigint], the canonical
    stack-item serializer (its error text on the left) and the manifest's
    call permission check. *)
Class Externals : Type := {
  MaxTraceableBlocks : Z;
  StoragePrice : Z;
  bigint_ToBytes : Z -> Bytes;
  bigint_FromBytes : Bytes -> option Z;
  SerializeItem : Item -> string + Bytes;
  CanCall : Manifest -> Manifest -> Bytes -> bool
}.

(** [MaxStorageKeyLen] is the maximum length of a key for storage items. *)
Definition MaxStorageKeyLen : Z := 1024.

(** Modelled from the spec: [smartcontract.All] is the set of all four call
    flags (read state, write state, allow calls, allow notifications). *)
Definition smartcontract_All : Z := 15.

Section Interops.

Context {ext : Externals}.

(** *** VM primitives *)

(** Modelled from the spec: the conversions of [stackitem.Item] are not
    among the sources.  Byte strings, integers and booleans convert to bytes
    and to integers; null, compound and interop items do not. *)
Definition TryBytes (i : Item) : option Bytes :=
  match i with
  | ByteArray b => Some b
  | BigInteger z => Some (bigint_ToBytes z)
  | Bool b => Some [if b then x01 else x00]
  | _ => None
  end.

Definition TryInteger (i : Item) : option Z :=
  match i with
  | BigInteger z => Some z
  | ByteArray b => bigint_FromBytes b
  | Bool b => Some (if b then 1 else 0)
  | _ => None
  end.

(** Modelled from the spec: [Estack().Pop()] takes the top item; popping
    an empty stack gives a nil element, and every use the handlers make of it
    panics. *)
Definition Pop : M Item :=
  fun w =>
    match estack (v w) with
    | x :: s => (Ret x, with_v (with_estack s (v w)) w)
    | [] => (Err panic_nil, w)
    end.

(** Modelled from the spec: [Estack().PushVal] puts an item on top. *)
Definition PushVal (x : Item) : M unit :=
  fun w => (Ret tt, with_v (with_estack (x :: estack (v w)) (v w)) w).

(** Modelled from the spec: [Element.Bytes] and [Element.BigInt] are the
    conversions above, with a panic where they fail. *)
Definition Element_Bytes (e : Item) : outcome Bytes :=
  match TryBytes e with
  | Some b => Ret b
  | None => Err panic_conversion
  end.

Definition Element_BigInt (e : Item) : outcome Z :=
  match TryInteger e with
  | Some z => Ret z
  | None => Err panic_conversion
  end.

(** The type assertion of [Value()] to a pointer to a [StorageContext]. *)
Definition asStorageContext (e : Item) : option nat :=
  match e with
  | Interop (VStorageContext p) => Some p
  | _ => None
  end.

(** Reading a field through such a pointer. *)
Definition deref (p : nat) : M StorageContext :=
  fun w =>
    match heap w !! p with
    | Some sc => (Ret sc, w)
    | None => (Err panic_nil, w)
    end.

(** [&StorageContext{...}]: a new record. *)
Definition alloc (sc : StorageContext) : M nat :=
  fun w => (Ret (length (heap w)), with_heap (heap w ++ [sc]) w).

(** Modelled from the spec: the current-script-hash getter of the VM. *)
Definition GetCurrentScriptHash : M Uint160 :=
  fun w => (Ret (f_scriptHash (current (v w))), w).

(** Modelled from the spec: [AddGas] consumes the gas and tells whether the
    budget still holds; a negative limit is no limit (the tests set
    [GasLimit = -1] to lift it and [GasLimit = 0] to exhaust it). *)
Definition gasFits (m : VM) (gas : Z) : bool :=
  (GasLimit m <? 0) || (int64_add (gasConsumed m) gas <=? GasLimit m).

Definition AddGas (gas : Z) : M bool :=
  fun w =>
    (Ret (gasFits (v w) gas),
     with_v (with_gasConsumed (int64_add (gasConsumed (v w)) gas) (v w)) w).

(** Modelled from the spec: [LoadScriptWithHash] mounts the callee as the
    running frame; the evaluation stack is shared with the caller. *)
Definition LoadScriptWithHash (script : Bytes) (hash : Uint160) (f : Z) : M unit :=
  fun w =>
    (Ret tt,
     with_v (with_frame {| f_script := script; f_scriptHash := hash; f_callFlag := f |} (v w)) w).

(** *** DAO access *)

(** Modelled from the spec: the lookups and the store of [dao.Cached] that
    the handlers call; [None] is the error of a lookup that finds nothing. *)
Definition DAO_GetBlock (hash : Uint256) : M (option Block) :=
  fun w => (Ret (dao_blocks (DAO (ic w)) !! hash), w).

Definition DAO_GetTransaction (hash : Uint256) : M (option (Transaction * Z)) :=
  fun w => (Ret (dao_transactions (DAO (ic w)) !! hash), w).

Definition DAO_GetContractState (hash : Uint160) : M (option Contract) :=
  fun w => (Ret (dao_contracts (DAO (ic w)) !! hash), w).

Definition DAO_GetStorageItem (id : Z) (key : Bytes) : M (option StorageItem) :=
  fun w => (Ret (dao_storage (DAO (ic w)) !! (id, key)), w).

Definition DAO_PutStorageItem (id : Z) (key : Bytes) (si : StorageItem) : M unit :=
  fun w =>
    (Ret tt,
     with_ic (with_DAO (with_storage (<[(id, key) := si]> (dao_storage (DAO (ic w)))) (DAO (ic w))) (ic w)) w).

(** *** Ledger lookups *)

(** [getBlockHashFromElement] converts the given element to a block hash
    using the given [Blockchainer] if needed: interop functions accept both
    block numbers and block hashes. *)
Definition getBlockHashFromElement (bc : Blockchainer) (element : Item) : outcome Uint256 :=
  match Element_Bytes element with
  | Err e => Err e
  | Ret hashbytes =>
      if len hashbytes <=? 5 then
        match Element_BigInt element with
        | Err e => Err e
        | Ret z =>
            let hashint := big_Int64 z in
            if (hashint <? 0) || (hashint >? MaxUint32)
            then Err (errors_New "bad block index")
            else Ret (GetHeaderHash bc hashint)
        end
      else
        match Uint256DecodeBytesBE hashbytes with
        | Some hash => Ret hash
        | None => Err errBadHash
        end
  end.

(** [blockToStackItem] converts a block to a stack item. *)
Definition blockToStackItem (b : Block) : Item :=
  Array [ ByteArray (Uint256_BytesBE (b_Hash b));
          BigInteger (b_Version b);
          ByteArray (Uint256_BytesBE (b_PrevHash b));
          ByteArray (Uint256_BytesBE (b_MerkleRoot b));
          BigInteger (wrap_signed 64 (b_Timestamp b));
          BigInteger (b_Index b);
          ByteArray (Uint160_BytesBE (b_NextConsensus b));
          BigInteger (Z.of_nat (length (b_Transactions b))) ].

(** [isTraceableBlock] defines whether we're able to give information about
    the block with index specified.  Both operands are [uint32]. *)
Definition isTraceableBlock (c : InteropContext) (index : Z) : bool :=
  let height := BlockHeight (Chain c) in
  (index <=? height) && (uint32_add index MaxTraceableBlocks >? height).

(** [bcGetBlock] returns current block. *)
Definition bcGetBlock : M unit :=
  e <- Pop ;;
  w <- get ;;
  hash <- lift (getBlockHashFromElement (Chain (ic w)) e) ;;
  match chain_GetBlock (Chain (ic w)) hash with
  | None => PushVal Null
  | Some block =>
      if negb (isTraceableBlock (ic w) (b_Index block))
      then PushVal Null
      else PushVal (blockToStackItem block)
  end.

(** [getTransactionAndHeight] gets parameter from the vm evaluation stack
    and returns transaction and its height if it's present in the
    blockchain; [None] stands for the error it returns otherwise. *)
Definition getTransactionAndHeight : M (option (Transaction * Z)) :=
  e <- Pop ;;
  hashbytes <- lift (Element_Bytes e) ;;
  match Uint256DecodeBytesBE hashbytes with
  | None => ret None
  | Some hash => DAO_GetTransaction hash
  end.

(** [transactionToStackItem] converts a transaction to a stack item. *)
Definition transactionToStackItem (t : Transaction) : Item :=
  Array [ ByteArray (Uint256_BytesBE (tx_Hash t));
          BigInteger (tx_Version t);
          BigInteger (tx_Nonce t);
          ByteArray (Uint160_BytesBE (tx_Sender t));
          BigInteger (tx_SystemFee t);
          BigInteger (tx_NetworkFee t);
          BigInteger (tx_ValidUntilBlock t);
          ByteArray (tx_Script t) ].

(** [bcGetTransaction] returns transaction. *)
Definition bcGetTransaction : M unit :=
  r <- getTransactionAndHeight ;;
  w <- get ;;
  match r with
  | None => PushVal Null
  | Some (tx, h) =>
      if negb (isTraceableBlock (ic w) h)
      then PushVal Null
      else PushVal (transactionToStackItem tx)
  end.

(** [bcGetTransactionFromBlock] returns transaction with the given index
    from the block with height or hash specified. *)
Definition bcGetTransactionFromBlock : M unit :=
  e <- Pop ;;
  w <- get ;;
  hash <- lift (getBlockHashFromElement (Chain (ic w)) e) ;;
  r <- DAO_GetBlock hash ;;
  match r with
  | None => PushVal Null
  | Some block =>
      if negb (isTraceableBlock (ic w) (b_Index block))
      then PushVal Null
      else
        ie <- Pop ;;
        z <- lift (Element_BigInt ie) ;;
        let index := big_Int64 z in
        if (index <? 0) || (index >=? Z.of_nat (length (b_Transactions block)))
        then throw (errors_New "wrong transaction index")
        else
          match b_Transactions block !! Z.to_nat index with
          | Some tx => PushVal (ByteArray (Uint256_BytesBE (tx_Hash tx)))
          | None => throw panic_nil
          end
  end.

(** [bcGetTransactionHeight] returns transaction height. *)
Definition bcGetTransactionHeight : M unit :=
  r <- getTransactionAndHeight ;;
  w <- get ;;
  match r with
  | None => PushVal (BigInteger (-1))
  | Some (_, h) =>
      if negb (isTraceableBlock (ic w) h)
      then PushVal (BigInteger (-1))
      else PushVal (BigInteger h)
  end.

(** *** Runtime *)

(** [runtimeNotify]: the item can be just about anything, but it has to be
    serializable; an item that is not is replaced with an error message. *)
Definition runtimeNotify : M unit :=
  e <- Pop ;;
  let item :=
    match SerializeItem e with
    | inr _ => e
    | inl err => ByteArray (list_byte_of_string ("bad notification: " ++ err))
    end in
  hash <- GetCurrentScriptHash ;;
  w <- get ;;
  let ne := {| ne_ScriptHash := hash; ne_Item := item |} in
  put (with_ic (with_Notifications (Notifications (ic w) ++ [ne]) (ic w)) w).

(** *** Storage contexts *)

(** [storageGetContext] returns storage context (scripthash). *)
Definition storageGetContext : M unit :=
  hash <- GetCurrentScriptHash ;;
  r <- DAO_GetContractState hash ;;
  match r with
  | None => throw errKeyNotFound
  | Some contract =>
      if negb (HasStorage contract)
      then throw (errors_New "contract is not allowed to use storage")
      else
        sc <- alloc {| sc_ID := c_ID contract; sc_ReadOnly := false |} ;;
        PushVal (Interop (VStorageContext sc))
  end.

(** [storageGetReadOnlyContext] returns read-only context (scripthash).
    Without the storage feature it returns [err], which is nil there. *)
Definition storageGetReadOnlyContext : M unit :=
  hash <- GetCurrentScriptHash ;;
  r <- DAO_GetContractState hash ;;
  match r with
  | None => throw errKeyNotFound
  | Some contract =>
      if negb (HasStorage contract)
      then ret tt
      else
        sc <- alloc {| sc_ID := c_ID contract; sc_ReadOnly := true |} ;;
        PushVal (Interop (VStorageContext sc))
  end.

(** [storageContextAsReadOnly] sets given context to read-only mode. *)
Definition storageContextAsReadOnly : M unit :=
  e <- Pop ;;
  match asStorageContext e with
  | None => throw errNotStorageContext
  | Some stc =>
      sc <- deref stc ;;
      if negb (sc_ReadOnly sc)
      then
        stx <- alloc {| sc_ID := sc_ID sc; sc_ReadOnly := true |} ;;
        PushVal (Interop (VStorageContext stx))
      else PushVal (Interop (VStorageContext stc))
  end.

(** *** Storage writes *)

Definition putWithContextAndFlags (stc : nat) (key value : Bytes) (isConst : bool) : M unit :=
  if len key >? MaxStorageKeyLen then throw (errors_New "key is too big")
  else
    sc <- deref stc ;;
    if sc_ReadOnly sc then throw (errors_New "StorageContext is read only")
    else
      r <- DAO_GetStorageItem (sc_ID sc) key ;;
      let si := default {| si_Value := []; si_IsConst := false |} r in
      if si_IsConst si then throw (errors_New "storage item exists and is read-only")
      else
        let sizeInc :=
          if len value >? len (si_Value si)
          then len value - len (si_Value si)
          else 1 in
        ok <- AddGas (int64_mul sizeInc StoragePrice) ;;
        if negb ok then throw errGasLimitExceeded
        else DAO_PutStorageItem (sc_ID sc) key {| si_Value := value; si_IsConst := isConst |}.

(** [storagePutInternal] is a unified implementation of [storagePut] and
    [storagePutEx]. *)
Definition storagePutInternal (getFlag : bool) : M unit :=
  e <- Pop ;;
  match asStorageContext e with
  | None => throw errNotStorageContext
  | Some stc =>
      ke <- Pop ;;
      key <- lift (Element_Bytes ke) ;;
      ve <- Pop ;;
      value <- lift (Element_Bytes ve) ;;
      flag <- (if getFlag
               then fe <- Pop ;; z <- lift (Element_BigInt fe) ;; ret (big_Int64 z)
               else ret 0) ;;
      putWithContextAndFlags stc key value (flag =? 1)
  end.

(** [storagePut] puts key-value pair into the storage. *)
Definition storagePut : M unit := storagePutInternal false.

(** [storagePutEx] puts key-value pair with given flags into the storage. *)
Definition storagePutEx : M unit := storagePutInternal true.

(** *** Contract calls *)

Definition contractCallExInternal (h : Bytes) (method args : Item) (f : Z) : M unit :=
  match Uint160DecodeBytesBE h with
  | None => throw (errors_New "invalid contract hash")
  | Some u =>
      r <- DAO_GetContractState u ;;
      match r with
      | None => throw (errors_New "contract not found")
      | Some cs =>
          match TryBytes method with
          | None => throw errTryBytes
          | Some bs =>
              hash <- GetCurrentScriptHash ;;
              c <- DAO_GetContractState hash ;;
              let allowed :=
                match c with
                | Some curr => CanCall (c_Manifest curr) (c_Manifest cs) bs
                | None => true
                end in
              if negb allowed then throw (errors_New "disallowed method call")
              else
                w <- get ;;
                let n := default 0 (Invocations (ic w) !! u) in
                put (with_ic (with_Invocations (<[u := int64_add n 1]> (Invocations (ic w))) (ic w)) w) ;;;
                w' <- get ;;
                LoadScriptWithHash (c_Script cs) u (Z.land (f_callFlag (current (v w'))) f) ;;;
                PushVal args ;;;
                PushVal method
          end
      end
  end.

(** [contractCall] calls a contract. *)
Definition contractCall : M unit :=
  he <- Pop ;;
  h <- lift (Element_Bytes he) ;;
  method <- Pop ;;
  args <- Pop ;;
  contractCallExInternal h method args smartcontract_All.

(** [contractCallEx] calls a contract with flags; the flags are the popped
    integer cut to an [int32] and then to the byte a [CallFlag] is. *)
Definition contractCallEx : M unit :=
  he <- Pop ;;
  h <- lift (Element_Bytes he) ;;
  method <- Pop ;;
  args <- Pop ;;
  fe <- Pop ;;
  z <- lift (Element_BigInt fe) ;;
  let flags := wrap_unsigned 8 (wrap_signed 32 (big_Int64 z)) in
  contractCallExInternal h method args flags.

End Interops.

(** ** A reference instantiation *)

(** Modelled from the spec: the integer codec is the VM's little-endian
    two's-complement encoding on the fewest bytes (zero is the empty
    string), of at most 32 bytes when read back. *)
Fixpoint le_bytes (n : nat) (z : Z) : Bytes :=
  match n with
  | O => []
  | S k => byte_of_Z z :: le_bytes k (z / 256)
  end.

Definition le_value (b : Bytes) : Z :=
  fold_right (fun x acc => Z_of_byte x + 256 * acc) 0 b.

Definition ref_ToBytes (z : Z) : Bytes :=
  if z =? 0 then []
  else le_bytes (Z.to_nat ((Z.log2 (if z <? 0 then - z - 1 else z) + 9) / 8)) z.

Definition ref_FromBytes (b : Bytes) : option Z :=
  if len b >? 32 then None
  else
    let u := le_value b in
    Some (if (0 <? len b) && (2 ^ (8 * len b - 1) <=? u) then u - 2 ^ (8 * len b) else u).

(** Modelled from the spec: the canonical serialization is type-tagged,
    length-prefixed and deterministic, and rejects interop items (a cycle
    cannot be built from the items of this development). *)
Fixpoint ref_SerializeItem (i : Item) : string + Bytes :=
  match i with
  | Null => inr [x00]
  | Bool b => inr [x20; if b then x01 else x00]
  | BigInteger z =>
      let b := ref_ToBytes z in inr (x21 :: be_bytes 4 (len b) ++ b)
  | ByteArray b => inr (x28 :: be_bytes 4 (len b) ++ b)
  | Array l =>
      let body :=
        (fix items (l : list Item) : string + Bytes :=
           match l with
           | [] => inr []
           | x :: r =>
               match ref_SerializeItem x, items r with
               | inr a, inr b => inr (a ++ b)
               | inl e, _ => inl e
               | _, inl e => inl e
               end
           end) l in
      match body with
      | inr b => inr (x40 :: be_bytes 4 (Z.of_nat (length l)) ++ b)
      | inl e => inl e
      end
  | Map kv =>
      let body :=
        (fix pairs (l : list (Item * Item)) : string + Bytes :=
           match l with
           | [] => inr []
           | (k, x) :: r =>
               match ref_SerializeItem k, ref_SerializeItem x, pairs r with
               | inr a, inr b, inr c => inr (a ++ b ++ c)
               | inl e, _, _ => inl e
               | _, inl e, _ => inl e
               | _, _, inl e => inl e
               end
           end) kv in
      match body with
      | inr b => inr (x48 :: be_bytes 4 (Z.of_nat (length kv)) ++ b)
      | inl e => inl e
      end
  | Interop _ => inl "not supported"%string
  end.

(** Modelled from the spec: a call is allowed when some permission of the
    caller's manifest names the callee (or any contract) and lists the
    method (or any method). *)
Definition ref_CanCall (caller callee : Manifest) (method : Bytes) : bool :=
  existsb
    (fun p =>
       match p_Contract p with
       | None => true
       | Some h => h =? m_ABIHash callee
       end
       &&
       match p_Methods p with
       | None => true
       | Some ms => bool_decide (method ∈ ms)
       end)
    (m_Permissions caller).

(** Modelled from the spec: the protocol constants, [MaxTraceableBlocks] at
    its default of 200 000 and a storage price of 100 000 for a byte, with
    the helpers above. *)
Definition reference : Externals :=
  {| MaxTraceableBlocks := 200000;
     StoragePrice := 100000;
     bigint_ToBytes := ref_ToBytes;
     bigint_FromBytes := ref_FromBytes;
     SerializeItem := ref_SerializeItem;
     CanCall := ref_CanCall |}.

(** ** Sample states *)

Definition sampleTx : Transaction :=
  {| tx_Hash := 7; tx_Version := 0; tx_Nonce := 1; tx_Sender := 5;
     tx_SystemFee := 0; tx_NetworkFee := 0; tx_ValidUntilBlock := 100;
     tx_Script := [x01; x02; x03] |}.

Definition sampleBlock (index : Z) : Block :=
  {| b_Hash := 9; b_Version := 0; b_PrevHash := 8; b_MerkleRoot := 3;
     b_Timestamp := 1600000000; b_Index := index; b_NextConsensus := 4;
     b_Transactions := [sampleTx] |}.

(** A chain view of the given height that knows the given blocks. *)
Definition sampleChain (height : Z) (blocks : gmap Uint256 Block) : Blockchainer :=
  {| BlockHeight := height;
     GetHeaderHash := fun i => if i =? 1 then 9 else 0;
     chain_GetBlock := fun hash => blocks !! hash |}.

Definition sampleManifest (features : Z) (perms : list Permission) : Manifest :=
  {| m_ABIHash := 20; m_Features := features; m_Permissions := perms |}.

(** The callee of the call tests: [DROP UNPACK DROP ADD], id 123, stored
    under script hash 21. *)
Definition calleeContract : Contract :=
  {| c_ID := 123; c_Script := [x45; xc1; x45; x9e];
     c_Manifest := {| m_ABIHash := 21; m_Features := 0; m_Permissions := [] |} |}.

(** The running contract, stored under script hash 20. *)
Definition callerContract (features : Z) (perms : list Permission) : Contract :=
  {| c_ID := 42; c_Script := [x21]; c_Manifest := sampleManifest features perms |}.

Definition sampleDAO (contracts : gmap Uint160 Contract)
    (storage : gmap (Z * Bytes) StorageItem) : Cached :=
  {| dao_blocks := {[ 9 := sampleBlock 1 ]};
     dao_transactions := {[ 7 := (sampleTx, 1) ]};
     dao_contracts := contracts;
     dao_storage := storage |}.

Definition sampleVM (stack : list Item) (limit : Z) : VM :=
  {| estack := stack;
     current := {| f_script := [x21]; f_scriptHash := 20; f_callFlag := 4 |};
     callers := [];
     gasConsumed := 0;
     GasLimit := limit |}.

Definition sampleWorld (height : Z) (d : Cached) (m : VM) (h : list StorageContext) : World :=
  {| ic := {| Chain := sampleChain height {[ 9 := sampleBlock 1 ]};
              DAO := d; Notifications := []; Invocations := ∅ |};
     v := m;
     heap := h |}.

(** The element that names the sample transaction, and the one that names
    the sample block. *)
Definition txElement : Item := ByteArray (Uint256_BytesBE 7).

Definition blockElement : Item := ByteArray (Uint256_BytesBE 9).

(** Tip 0: the sample transaction and block, of height 1, are ahead of it. *)
Definition worldBehind (stack : list Item) : World :=
  sampleWorld 0 (sampleDAO ∅ ∅) (sampleVM stack (-1)) [].

(** Tip 1: the sample block is the tip. *)
Definition worldAtTip (stack : list Item) : World :=
  sampleWorld 1 (sampleDAO ∅ ∅) (sampleVM stack (-1)) [].

(** A chain whose tip is the last [uint32]. *)
Definition worldAtTop : World :=
  sampleWorld MaxUint32 (sampleDAO ∅ ∅) (sampleVM [] (-1)) [].

(** The running contract has storage and holds a writable handle (record 0
    of the heap) and a read-only one (record 1). *)
Definition storageWorld (stack : list Item) (limit : Z)
    (storage : gmap (Z * Bytes) StorageItem) : World :=
  sampleWorld 1
    (sampleDAO {[ 20 := callerContract 1 [] ]} storage)
    (sampleVM stack limit)
    [ {| sc_ID := 42; sc_ReadOnly := false |};
      {| sc_ID := 42; sc_ReadOnly := true |} ].

Definition keyK : Bytes := [x6b].

Definition valueV1 : Bytes := [x76; x31].

(** The running contract (hash 20) and the callee (hash 21) are stored; the
    caller's manifest lists the methods it may call on the callee. *)
Definition callWorld (stack : list Item) (methods : list Bytes) : World :=
  sampleWorld 1
    (sampleDAO
       {[ 20 := callerContract 0 [ {| p_Contract := Some 21; p_Methods := Some methods |} ];
          21 := calleeContract ]}
       ∅)
    (sampleVM stack (-1))
    [].

(** Only the callee is stored: the running script is no contract. *)
Definition entryCallWorld (stack : list Item) : World :=
  sampleWorld 1 (sampleDAO {[ 21 := calleeContract ]} ∅) (sampleVM stack (-1)) [].

Definition methodAdd : Bytes := [x61; x64; x64].

Definition methodSecret : Bytes := [x73; x65; x63; x72; x65; x74].

(** ** The statements of the specification *)

Section Statements.

Context {ext : Externals}.

(** The traceability window in the specification's words, over the
    integers: [index <= tip] and [index + MaxTraceableBlocks > tip]. *)
Definition traceable (index tip : Z) : Prop :=
  index <= tip /\ index + MaxTraceableBlocks > tip.

(** The four ledger lookups. *)
Inductive lookup : Type :=
| getBlock
| getTransaction
| getTransactionFromBlock
| getTransactionHeight.

Definition run_lookup (l : lookup) : M unit :=
  match l with
  | getBlock => bcGetBlock
  | getTransaction => bcGetTransaction
  | getTransactionFromBlock => bcGetTransactionFromBlock
  | getTransactionHeight => bcGetTransactionHeight
  end.

(** The height of the target of a lookup: the index of the block, or the
    height of the transaction, that the popped element names, when the
    lookup finds one. *)
Definition target_height (l : lookup) (w : World) (e : Item) : option Z :=
  match l with
  | getBlock =>
      match getBlockHashFromElement (Chain (ic w)) e with
      | Ret hash => b_Index <$> chain_GetBlock (Chain (ic w)) hash
      | Err _ => None
      end
  | getTransactionFromBlock =>
      match getBlockHashFromElement (Chain (ic w)) e with
      | Ret hash => b_Index <$> dao_blocks (DAO (ic w)) !! hash
      | Err _ => None
      end
  | getTransaction | getTransactionHeight =>
      match Element_Bytes e with
      | Ret hashbytes =>
          match Uint256DecodeBytesBE hashbytes with
          | Some hash => snd <$> dao_transactions (DAO (ic w)) !! hash
          | None => None
          end
      | Err _ => None
      end
  end.

(** What a lookup reports for a target out of the window. *)
Definition untraceable_result (l : lookup) : Item :=
  match l with
  | getTransactionHeight => BigInteger (-1)
  | _ => Null
  end.

(** The state with the evaluation stack replaced. *)
Definition on_stack (s : list Item) (w : World) : World :=
  with_v (with_estack s (v w)) w.

(** The contract state stored under the running script hash, if any. *)
Definition caller_state (w : World) : option Contract :=
  dao_contracts (DAO (ic w)) !! f_scriptHash (current (v w)).

(** [Put] and [PutEx] by the flag that tells them apart. *)
Definition put_handler (ex : bool) : M unit :=
  if ex then storagePutEx else storagePut.

(** The stack a put finds: the handle, the key, the value and, for
    [PutEx], the flag. *)
Definition put_stack (ex : bool) (p : nat) (ke ve fe : Item) (rest : list Item) : list Item :=
  Interop (VStorageContext p) :: ke :: ve :: (if ex then fe :: rest else rest).

Definition stored (w : World) (id : Z) (key : Bytes) : option StorageItem :=
  dao_storage (DAO (ic w)) !! (id, key).

(** The gas a put is billed: [max(1, new_len - old_len) * StoragePrice], an
    [int64] product; a missing item has length zero. *)
Definition put_price (old : option StorageItem) (value : Bytes) : Z :=
  int64_mul
    (Z.max 1 (len value - match old with Some si => len (si_Value si) | None => 0 end))
    StoragePrice.

(** The four reasons for which a put is refused: a read-only handle, a key
    of more than 1024 bytes, a constant item under the key, a bill the gas
    budget does not cover. *)
Definition put_refused (w : World) (sc : StorageContext) (key value : Bytes) : bool :=
  sc_ReadOnly sc
  || (1024 <? len key)
  || match stored w (sc_ID sc) key with Some si => si_IsConst si | None => false end
  || negb (gasFits (v w) (put_price (stored w (sc_ID sc) key) value)).

End Statements.

(** ** The other handlers of the file *)

Definition with_contracts (cs : gmap Uint160 Contract) (d : Cached) : Cached :=
  {| dao_blocks := dao_blocks d; dao_transactions := dao_transactions d;
     dao_contracts := cs; dao_storage := dao_storage d |}.

(** The storage items of one contract, by key: the map that
    [GetStorageItems] hands out. *)
Definition storageItemsOf (id : Z) (st : gmap (Z * Bytes) StorageItem) : gmap Bytes StorageItem :=
  map_fold
    (fun ik si acc => if decide (ik.1 = id) then <[ik.2 := si]> acc else acc)
    ∅ st.

Section OtherInterops.

Context {ext : Externals}.

(** Modelled from the spec: the deletions of [dao.Cached] and its listing of
    the storage items of a contract; on the in-memory view none of them
    fails, and deleting what is not there changes nothing. *)
Definition DAO_DeleteStorageItem (id : Z) (key : Bytes) : M unit :=
  fun w =>
    (Ret tt,
     with_ic (with_DAO (with_storage (delete (id, key) (dao_storage (DAO (ic w)))) (DAO (ic w))) (ic w)) w).

Definition DAO_DeleteContractState (hash : Uint160) : M unit :=
  fun w =>
    (Ret tt,
     with_ic (with_DAO (with_contracts (delete hash (dao_contracts (DAO (ic w)))) (DAO (ic w))) (ic w)) w).

Definition DAO_GetStorageItems (id : Z) : M (gmap Bytes StorageItem) :=
  fun w => (Ret (storageItemsOf id (dao_storage (DAO (ic w)))), w).

(** A [for ... range] loop whose body returns nothing. *)
Fixpoint for_each {A : Type} (l : list A) (body : A -> M unit) : M unit :=
  match l with
  | [] => ret tt
  | x :: r => body x ;;; for_each r body
  end.

(** [storageDelete] deletes stored key-value pair. *)
Definition storageDelete : M unit :=
  e <- Pop ;;
  match asStorageContext e with
  | None => throw errNotStorageContext
  | Some stc =>
      sc <- deref stc ;;
      if sc_ReadOnly sc then throw (errors_New "StorageContext is read only")
      else
        ke <- Pop ;;
        key <- lift (Element_Bytes ke) ;;
        si <- DAO_GetStorageItem (sc_ID sc) key ;;
        if match si with Some i => si_IsConst i | None => false end
        then throw (errors_New "storage item is constant")
        else DAO_DeleteStorageItem (sc_ID sc) key
  end.

(** [storageGet] returns stored key-value pair.  An item read from the DAO
    carries a byte string (an empty one at the least), so that the test of
    its value against nil passes for every item found. *)
Definition storageGet : M unit :=
  e <- Pop ;;
  match asStorageContext e with
  | None => throw errNotStorageContext
  | Some stc =>
      ke <- Pop ;;
      key <- lift (Element_Bytes ke) ;;
      sc <- deref stc ;;
      si <- DAO_GetStorageItem (sc_ID sc) key ;;
      match si with
      | Some i => PushVal (ByteArray (si_Value i))
      | None => PushVal Null
      end
  end.

(** [contractDestroy] destroys a contract. *)
Definition contractDestroy : M unit :=
  hash <- GetCurrentScriptHash ;;
  r <- DAO_GetContractState hash ;;
  match r with
  | None => ret tt
  | Some cs =>
      DAO_DeleteContractState hash ;;;
      if HasStorage cs
      then
        siMap <- DAO_GetStorageItems (c_ID cs) ;;
        for_each (map_to_list siMap).*1
          (fun k => DAO_DeleteStorageItem (c_ID cs) k)
      else ret tt
  end.

(** Modelled from the spec: [PushContextScriptHash n] pushes the script hash
    of frame [n] of the invocation stack (frame 0 is the running one), as
    big-endian bytes; a frame that is not there is a nil dereference. *)
Definition PushContextScriptHash (n : nat) : M unit :=
  w <- get ;;
  match (current (v w) :: callers (v w)) !! n with
  | Some f => PushVal (ByteArray (Uint160_BytesBE (f_scriptHash f)))
  | None => throw panic_nil
  end.

(** [engineGetExecutingScriptHash] returns executing script hash. *)
Definition engineGetExecutingScriptHash : M unit := PushContextScriptHash 0.

(** [engineGetCallingScriptHash] returns calling script hash. *)
Definition engineGetCallingScriptHash : M unit := PushContextScriptHash 1.

(** [engineGetEntryScriptHash] returns entry script hash: the frame at
    [Istack().Len() - 1]. *)
Definition engineGetEntryScriptHash : M unit :=
  w <- get ;;
  PushContextScriptHash (length (current (v w) :: callers (v w)) - 1).

Section Standard.

(** [vm.IsStandardContract], the test of a script against the signature and
    multisignature templates, is not among the sources. *)
Variable IsStandardContract : Bytes -> bool.

(** [contractIsStandard] checks if contract is standard (sig or multisig)
    contract. *)
Definition contractIsStandard : M unit :=
  he <- Pop ;;
  h <- lift (Element_Bytes he) ;;
  match Uint160DecodeBytesBE h with
  | None => throw errBadHash
  | Some u =>
      cs <- DAO_GetContractState u ;;
      PushVal (Bool match cs with
                    | None => true
                    | Some c => IsStandardContract (c_Script c)
                    end)
  end.

End Standard.

(** The storage handlers that write: [Put], [PutEx] and [Delete]. *)
Inductive storage_write : Type :=
| WritePut
| WritePutEx
| WriteDelete.

Definition run_write (op : storage_write) : M unit :=
  match op with
  | WritePut => storagePut
  | WritePutEx => storagePutEx
  | WriteDelete => storageDelete
  end.

(** Whether the element of a lookup resolves to a hash to look up: a block
    element through [getBlockHashFromElement], a transaction element by its
    conversion to bytes. *)
Definition element_resolves (l : lookup) (w : World) (e : Item) : bool :=
  match l with
  | getBlock | getTransactionFromBlock =>
      match getBlockHashFromElement (Chain (ic w)) e with
      | Ret _ => true
      | Err _ => false
      end
  | getTransaction | getTransactionHeight =>
      match Element_Bytes e with
      | Ret _ => true
      | Err _ => false
      end
  end.

(** The outermost frame of the invocation stack. *)
Definition entry_frame (m : VM) : Frame :=
  List.last (callers m) (current m).

(** A script that makes the given calls one inside the other: each request
    is a target hash, a method, the arguments and the requested flags. *)
Definition call_chain (l : list (Bytes * Item * Item * Z)) : M unit :=
  for_each l (fun c => contractCallExInternal c.1.1.1 c.1.1.2 c.1.2 c.2).

(** [n] notifications in a row, each of the item then at the top of the
    stack. *)
Definition notify_times (n : nat) : M unit :=
  for_each (replicate n tt) (fun _ => runtimeNotify).

End OtherInterops.

(** ** The RPC layer: block headers and request parameters *)

Module result.

(** Modelled from the spec: [transaction.Witness] and [block.Header] are not
    among the sources; a header has the fields that [NewHeader] reads, and
    its hash is a field of it. *)
Record Witness : Type := {
  InvocationScript : Bytes;
  VerificationScript : Bytes
}.

Record BlockHeader : Type := {
  h_Hash : Uint256;
  h_Version : Z;
  h_PrevHash : Uint256;
  h_MerkleRoot : Uint256;
  h_Timestamp : Z;
  h_Index : Z;
  h_ConsensusData : Z;
  h_NextConsensus : Uint160;
  h_Script : Witness
}.

(** [Header] wrapper used for the representation of block header on the RPC
    Server. *)
Record Header : Type := {
  Hash : Uint256;
  Size : Z;
  Version : Z;
  PrevBlockHash : Uint256;
  MerkleRoot : Uint256;
  Timestamp : Z;
  Index : Z;
  Nonce : string;
  NextConsensus : Uint160;
  Script : Witness;
  Confirmations : Z;
  NextBlockHash : option Uint256
}.

Definition hex_digit (d : Z) : ascii :=
  match d with
  | 0 => "0" | 1 => "1" | 2 => "2" | 3 => "3" | 4 => "4" | 5 => "5" | 6 => "6"
  | 7 => "7" | 8 => "8" | 9 => "9" | 10 => "a" | 11 => "b" | 12 => "c"
  | 13 => "d" | 14 => "e" | _ => "f"
  end%char.

(** [strconv.FormatUint(n, 16)] of a [uint64]: lower-case digits, the most
    significant first, no leading zero; 16 digits are enough. *)
Fixpoint hex_digits (fuel : nat) (n : Z) (acc : string) : string :=
  match fuel with
  | O => acc
  | S k =>
      let acc' := String (hex_digit (n mod 16)) acc in
      if n / 16 =? 0 then acc' else hex_digits k (n / 16) acc'
  end.

Definition FormatUint16 (n : Z) : string := hex_digits 16 n "".

Section NewHeader.

(** [io.GetVarSize], the size of the serialized header, is not among the
    sources. *)
Variable GetVarSize : BlockHeader -> Z.

(** [NewHeader] creates a new [Header] wrapper.  The confirmations are a
    [uint32] difference; the index of the next header is an [int] sum. *)
Definition NewHeader (h : BlockHeader) (chain : Blockchainer) : Header :=
  let hash := GetHeaderHash chain (h_Index h + 1) in
  {| Hash := h_Hash h;
     Size := GetVarSize h;
     Version := h_Version h;
     PrevBlockHash := h_PrevHash h;
     MerkleRoot := h_MerkleRoot h;
     Timestamp := h_Timestamp h;
     Index := h_Index h;
     Nonce := FormatUint16 (h_ConsensusData h);
     NextConsensus := h_NextConsensus h;
     Script := h_Script h;
     Confirmations :=
       wrap_unsigned 32 (wrap_unsigned 32 (BlockHeight chain - h_Index h) + 1);
     NextBlockHash := if hash =? 0 then None else Some hash |}.

End NewHeader.

End result.

Module request.

(** The value of a parameter: what [UnmarshalJSON] stores (an [int], a
    string, a function parameter, one of the four filters, a slice of
    parameters), or a value of some other type. *)
Inductive Param : Type :=
| mkParam (type : Z) (value : ParamValue)
with ParamValue : Type :=
| VInt (i : Z)
| VString (s : string)
| VFuncParam (type : Z) (value : Param)
| VBlockFilter (primary : Z)
| VTxFilter (sender cosigner : option Uint160)
| VNotificationFilter (contract : Uint160)
| VExecutionFilter (state : string)
| VArray (a : list Param)
| VOtherType (tag : nat).

Definition Value (p : Param) : ParamValue :=
  match p with mkParam _ x => x end.

Definition Uint160Size : nat := 20.

Section Getters.

(** [strconv.Atoi], [hex.DecodeString], [util.Uint256DecodeStringLE],
    [util.Uint160DecodeStringLE] and [address.StringToUint160] are not among
    the sources. *)
Variable Atoi : string -> outcome Z.
Variable hex_DecodeString : string -> outcome Bytes.
Variable Uint256DecodeStringLE : string -> outcome Uint256.
Variable Uint160DecodeStringLE : string -> outcome Uint160.
Variable StringToUint160 : string -> outcome Uint160.

(** [GetString] returns string value of the parameter. *)
Definition GetString (p : Param) : outcome string :=
  match Value p with
  | VString str => Ret str
  | _ => Err (errors_New "not a string")
  end.

(** [GetInt] returns int value of the parameter. *)
Definition GetInt (p : Param) : outcome Z :=
  match Value p with
  | VInt i => Ret i
  | VString s => Atoi s
  | _ => Err (errors_New "not an integer")
  end.

(** [GetArray] returns a slice of Params stored in the parameter. *)
Definition GetArray (p : Param) : outcome (list Param) :=
  match Value p with
  | VArray a => Ret a
  | _ => Err (errors_New "not an array")
  end.

(** [GetUint256] returns Uint256 value of the parameter. *)
Definition GetUint256 (p : Param) : outcome Uint256 :=
  match GetString p with
  | Err e => Err e
  | Ret s => Uint256DecodeStringLE s
  end.

(** [GetUint160FromHex] returns Uint160 value of the parameter encoded in
    hex. *)
Definition GetUint160FromHex (p : Param) : outcome Uint160 :=
  match GetString p with
  | Err e => Err e
  | Ret s =>
      let s' :=
        match s with
        | String "0" (String "x" r) =>
            if Nat.eqb (String.length s) (2 * Uint160Size + 2) then r else s
        | _ => s
        end in
      Uint160DecodeStringLE s'
  end.

(** [GetUint160FromAddress] returns Uint160 value of the parameter that was
    supplied as an address. *)
Definition GetUint160FromAddress (p : Param) : outcome Uint160 :=
  match GetString p with
  | Err e => Err e
  | Ret s => StringToUint160 s
  end.

(** [GetFuncParam] returns current parameter as a function call
    parameter. *)
Definition GetFuncParam (p : Param) : outcome (Z * Param) :=
  match Value p with
  | VFuncParam t x => Ret (t, x)
  | _ => Err (errors_New "not a function parameter")
  end.

(** [GetBytesHex] returns []byte value of the parameter if it is a
    hex-encoded string. *)
Definition GetBytesHex (p : Param) : outcome Bytes :=
  match GetString p with
  | Err e => Err e
  | Ret s => hex_DecodeString s
  end.

(** The loop of [GetUint160Slice]: it stops at the first element that does
    not decode. *)
Fixpoint uint160s (array : list Param) : outcome (list Uint160) :=
  match array with
  | [] => Ret []
  | u :: r =>
      match GetUint160FromHex u with
      | Err e => Err e
      | Ret x =>
          match uint160s r with
          | Err e => Err e
          | Ret xs => Ret (x :: xs)
          end
      end
  end.

(** [GetUint160Slice] returns a slice of Uint160 stored in the parameter. *)
Definition GetUint160Slice (p : Param) : outcome (list Uint160) :=
  match GetArray p with
  | Err e => Err e
  | Ret array => uint160s array
  end.

End Getters.

End request.

(** ** More sample states *)

(** A handle and a key on the stack, and a value stored under the key. *)
Definition storedItem : StorageItem := {| si_Value := valueV1; si_IsConst := false |}.

Definition constItem : StorageItem := {| si_Value := valueV1; si_IsConst := true |}.

Definition readWorld (handle : nat) (item : StorageItem) : World :=
  storageWorld [Interop (VStorageContext handle); ByteArray keyK] (-1)
    {[ (42, keyK) := item ]}.

(** A put of [valueV1] under [keyK] through the writable handle, above a get
    of the same key through the read-only one. *)
Definition putGetWorld : World :=
  storageWorld
    (put_stack false 0 (ByteArray keyK) (ByteArray valueV1) (BigInteger 0)
       [Interop (VStorageContext 1); ByteArray keyK])
    (-1) ∅.

(** The running contract has storage; a key and a value are on the stack. *)
Definition contextWorld : World :=
  storageWorld [ByteArray keyK; ByteArray valueV1] (-1) ∅.

(** The running contract (id 42) has storage and owns a constant item;
    another contract's id has an item under the same key. *)
Definition destroyWorld : World :=
  storageWorld [] (-1) {[ (42, keyK) := constItem; (7, keyK) := storedItem ]}.

(** Contracts that may call anything: the running one (hash 20) and the
    callee (hash 21). *)
Definition openContract (id : Z) (hash : Uint160) : Contract :=
  {| c_ID := id; c_Script := [x21];
     c_Manifest := {| m_ABIHash := hash; m_Features := 0;
                      m_Permissions := [ {| p_Contract := None; p_Methods := None |} ] |} |}.

Definition chainWorld : World :=
  sampleWorld 1
    (sampleDAO {[ 20 := openContract 1 20; 21 := openContract 2 21 ]} ∅)
    (sampleVM [] (-1))
    [].

(** A call to hash 21 with call and notify flags, then one to hash 20 with
    all the flags. *)
Definition twoCalls : list (Bytes * Item * Item * Z) :=
  [ (Uint160_BytesBE 21, ByteArray methodAdd, Array [], 12);
    (Uint160_BytesBE 20, ByteArray methodAdd, Array [], 15) ].

Definition sampleHeader (index : Z) : result.BlockHeader :=
  {| result.h_Hash := 9; result.h_Version := 0; result.h_PrevHash := 8;
     result.h_MerkleRoot := 3; result.h_Timestamp := 1600000000;
     result.h_Index := index; result.h_ConsensusData := 255;
     result.h_NextConsensus := 4;
     result.h_Script := {| result.InvocationScript := [];
                           result.VerificationScript := [x51] |} |}.

Definition sampleHex : string := "0102030405060708090a0b0c0d0e0f1011121314".

(** A stand-in for the hex decoder: it tells the strings of 40 characters
    from the others. *)
Definition sampleDecode (s : string) : outcome Uint160 :=
  if Nat.eqb (String.length s) 40 then Ret 1 else Err errBadHash.

(** ** Properties *)

(** Unfolding of the monad's plumbing. *)
Ltac run := unfold bind, ret, throw, get, put, lift, Pop, PushVal.

Section Arithmetic.

Lemma wrap_signed_small (z : Z) :
  - 2 ^ 63 <= z < 2 ^ 63 -> wrap_signed 64 z = z.
Proof.
  intros Hz. unfold wrap_signed.
  replace (64 - 1) with 63 by lia.
  rewrite Z.mod_small; lia.
Qed.

Lemma big_Int64_small (z : Z) :
  - 2 ^ 63 <= z < 2 ^ 63 -> big_Int64 z = z.
Proof.
  intros Hz. unfold big_Int64.
  destruct (Z.ltb_spec z 0) as [Hneg | Hpos].
  - destruct (Z.eq_dec z (- 2 ^ 63)) as [-> | Hne].
    + reflexivity.
    + rewrite (wrap_signed_small (Z.abs z)) by lia.
      rewrite wrap_signed_small by lia. lia.
  - rewrite wrap_signed_small by lia. lia.
Qed.

Lemma wrap_signed_period (z k : Z) :
  wrap_signed 64 (z + k * 2 ^ 64) = wrap_signed 64 z.
Proof.
  unfold wrap_signed.
  replace (z + k * 2 ^ 64 + 2 ^ (64 - 1)) with (z + 2 ^ (64 - 1) + k * 2 ^ 64) by ring.
  rewrite Z_mod_plus_full. reflexivity.
Qed.

(** [Int64] keeps the low 64 bits only: a multiple of [2 ^ 64] added to a
    number below [2 ^ 63] is lost. *)
Lemma big_Int64_period (i k : Z) :
  0 <= i < 2 ^ 63 -> big_Int64 (i + k * 2 ^ 64) = i.
Proof.
  intros Hi. unfold big_Int64.
  destruct (Z.ltb_spec (i + k * 2 ^ 64) 0) as [Hneg | Hpos].
  - rewrite Z.abs_neq by lia.
    replace (- (i + k * 2 ^ 64)) with (- i + (- k) * 2 ^ 64) by ring.
    rewrite wrap_signed_period.
    rewrite (wrap_signed_small (- i)) by lia.
    rewrite wrap_signed_small by lia. lia.
  - rewrite Z.abs_eq by lia.
    rewrite wrap_signed_period.
    apply wrap_signed_small. lia.
Qed.

Lemma int64_add_small (a b : Z) :
  - 2 ^ 63 <= a + b < 2 ^ 63 -> int64_add a b = a + b.
Proof. apply wrap_signed_small. Qed.

Lemma int64_mul_small (a b : Z) :
  - 2 ^ 63 <= a * b < 2 ^ 63 -> int64_mul a b = a * b.
Proof. apply wrap_signed_small. Qed.

Lemma uint32_add_small (a b : Z) :
  0 <= a + b < 2 ^ 32 -> uint32_add a b = a + b.
Proof.
  intros Hab. unfold uint32_add, wrap_unsigned. apply Z.mod_small. lia.
Qed.

Lemma uint32_add_top (b : Z) :
  0 < b < 2 ^ 32 -> uint32_add MaxUint32 b = b - 1.
Proof.
  intros Hb. unfold uint32_add, wrap_unsigned, MaxUint32.
  replace (4294967295 + b) with (b - 1 + 1 * 2 ^ 32) by lia.
  rewrite Z_mod_plus_full. apply Z.mod_small. lia.
Qed.

Lemma length_be_bytes (n : nat) (z : Z) : length (be_bytes n z) = n.
Proof.
  revert z. induction n as [| n IH]; intros z; simpl.
  - reflexivity.
  - rewrite length_app, IH. simpl. lia.
Qed.

Lemma Z_of_byte_of_Z (z : Z) : Z_of_byte (byte_of_Z z) = z mod 256.
Proof.
  unfold Z_of_byte, byte_of_Z.
  assert (Hr : 0 <= z mod 256 < 256) by (apply Z.mod_pos_bound; lia).
  destruct (Byte.of_N (Z.to_N (z mod 256))) as [b |] eqn:Hb.
  - apply Byte.to_of_N in Hb. rewrite Hb. lia.
  - apply Byte.of_N_None_iff in Hb. lia.
Qed.

Lemma be_value_snoc (b : Bytes) (x : byte) :
  be_value (b ++ [x]) = be_value b * 256 + Z_of_byte x.
Proof. unfold be_value. rewrite fold_left_app. reflexivity. Qed.

(** [be_bytes] spells the number, most significant byte first. *)
Lemma be_value_be_bytes (n : nat) (z : Z) :
  be_value (be_bytes n z) = z mod 256 ^ Z.of_nat n.
Proof.
  revert z. induction n as [| n IH]; intros z.
  - simpl. rewrite Z.mod_1_r. reflexivity.
  - cbn [be_bytes]. rewrite be_value_snoc, IH, Z_of_byte_of_Z.
    rewrite Nat2Z.inj_succ, Z.pow_succ_r by lia.
    rewrite Z.rem_mul_r; [ring | lia | apply Z.pow_pos_nonneg; lia].
Qed.

End Arithmetic.

Section Traceability.

Context {ext : Externals}.

(** Where the sum [index + MaxTraceableBlocks] fits a [uint32], the
    predicate is the window of the specification. *)
Lemma isTraceableBlock_exact (c : InteropContext) (index : Z) :
  0 <= index ->
  0 <= MaxTraceableBlocks ->
  index + MaxTraceableBlocks < 2 ^ 32 ->
  isTraceableBlock c index = true <-> traceable index (BlockHeight (Chain c)).
Proof.
  intros Hi Hm Hsum. unfold isTraceableBlock, traceable.
  rewrite uint32_add_small by lia.
  rewrite andb_true_iff, Z.leb_le, Z.gtb_gt. lia.
Qed.

(** Where the sum does not fit, an index within the window of the
    specification is refused. *)
Lemma isTraceableBlock_wraps (c : InteropContext) (index : Z) :
  0 < MaxTraceableBlocks < 2 ^ 32 ->
  0 <= index <= BlockHeight (Chain c) ->
  BlockHeight (Chain c) < 2 ^ 32 ->
  2 ^ 32 <= index + MaxTraceableBlocks ->
  isTraceableBlock c index = false /\ traceable index (BlockHeight (Chain c)).
Proof.
  intros Hm Hi Htip Hsum. unfold isTraceableBlock, traceable. split; [| lia].
  apply andb_false_iff. right. rewrite Z.gtb_ltb. apply Z.ltb_ge.
  unfold uint32_add, wrap_unsigned.
  replace (index + MaxTraceableBlocks)
    with (index + MaxTraceableBlocks - 2 ^ 32 + 1 * 2 ^ 32) by lia.
  rewrite Z_mod_plus_full, Z.mod_small; lia.
Qed.

(** C1: at the top of the [uint32] range the sum of the predicate wraps
    around: with the tip and the index both at [MaxUint32] the index is within
    the window of the specification (it is the tip itself), and the predicate
    answers false. *)
Theorem isTraceableBlock_wraps_at_top (c : InteropContext) :
  0 < MaxTraceableBlocks < 2 ^ 32 ->
  BlockHeight (Chain c) = MaxUint32 ->
  isTraceableBlock c MaxUint32 = false
  /\ traceable MaxUint32 (BlockHeight (Chain c)).
Proof.
  intros Hm Htip. unfold isTraceableBlock, traceable. rewrite Htip.
  rewrite uint32_add_top by exact Hm. split.
  - apply andb_false_iff. right. rewrite Z.gtb_ltb. apply Z.ltb_ge.
    unfold MaxUint32. lia.
  - unfold MaxUint32. lia.
Qed.

End Traceability.

Section Lookups.

Context {ext : Externals}.

(** C2: a lookup whose target is found but lies outside the window the
    predicate accepts succeeds; [getBlock], [getTransaction] and
    [getTransactionFromBlock] then push a null item on the stack the popped
    element leaves, and [getTransactionHeight] pushes the integer [-1]. *)
Theorem untraceable_lookup_result
    (l : lookup) (w : World) (e : Item) (rest : list Item) (h : Z) :
  estack (v w) = e :: rest ->
  target_height l w e = Some h ->
  isTraceableBlock (ic w) h = false ->
  run_lookup l w = (Ret tt, on_stack (untraceable_result l :: rest) w).
Proof.
  intros Hs Ht Hn. destruct l; simpl in Ht |- *.
  - unfold bcGetBlock. run. rewrite Hs. simpl.
    destruct (getBlockHashFromElement _ e) as [hash |]; [| discriminate].
    destruct (chain_GetBlock _ hash) as [block |]; simpl in Ht; [| discriminate].
    injection Ht as ->. rewrite Hn. reflexivity.
  - unfold bcGetTransaction, getTransactionAndHeight, DAO_GetTransaction. run.
    rewrite Hs. simpl.
    destruct (Element_Bytes e) as [hashbytes |]; [| discriminate].
    destruct (Uint256DecodeBytesBE hashbytes) as [hash |]; [| discriminate].
    simpl.
    destruct (dao_transactions _ !! hash) as [[tx h'] |]; simpl in Ht; [| discriminate].
    injection Ht as ->. rewrite Hn. reflexivity.
  - unfold bcGetTransactionFromBlock, DAO_GetBlock. run. rewrite Hs. simpl.
    destruct (getBlockHashFromElement _ e) as [hash |]; [| discriminate].
    destruct (dao_blocks _ !! hash) as [block |]; simpl in Ht; [| discriminate].
    injection Ht as ->. rewrite Hn. reflexivity.
  - unfold bcGetTransactionHeight, getTransactionAndHeight, DAO_GetTransaction. run.
    rewrite Hs. simpl.
    destruct (Element_Bytes e) as [hashbytes |]; [| discriminate].
    destruct (Uint256DecodeBytesBE hashbytes) as [hash |]; [| discriminate].
    simpl.
    destruct (dao_transactions _ !! hash) as [[tx h'] |]; simpl in Ht; [| discriminate].
    injection Ht as ->. rewrite Hn. reflexivity.
Qed.

End Lookups.

Section Storage.

Context {ext : Externals}.

(** C5: [asReadOnly] succeeds and pushes, in place of the handle it pops, a
    handle to a read-only record with the same id; the record the popped
    handle points to is the same after the call, and a writable one gets a
    record of its own. *)
Theorem asReadOnly_derives_handle
    (w : World) (p : nat) (h : StorageContext) (rest : list Item) :
  estack (v w) = Interop (VStorageContext p) :: rest ->
  heap w !! p = Some h ->
  exists p' h',
    fst (storageContextAsReadOnly w) = Ret tt
    /\ estack (v (snd (storageContextAsReadOnly w))) = Interop (VStorageContext p') :: rest
    /\ heap (snd (storageContextAsReadOnly w)) !! p' = Some h'
    /\ sc_ReadOnly h' = true
    /\ sc_ID h' = sc_ID h
    /\ heap (snd (storageContextAsReadOnly w)) !! p = Some h
    /\ (sc_ReadOnly h = false -> p' <> p).
Proof.
  intros Hs Hp. unfold storageContextAsReadOnly, deref, alloc. run.
  rewrite Hs. simpl. rewrite Hp.
  destruct (sc_ReadOnly h) eqn:Hro; simpl.
  - exists p, h. repeat split; try assumption. discriminate.
  - exists (length (heap w)), {| sc_ID := sc_ID h; sc_ReadOnly := true |}.
    repeat split.
    + rewrite lookup_app_r by lia. rewrite Nat.sub_diag. reflexivity.
    + apply lookup_app_l_Some. exact Hp.
    + intros _ Heq. apply lookup_lt_Some in Hp. lia.
Qed.

(** C9: under a running contract whose manifest lacks the storage feature,
    [getReadOnlyContext] returns without an error and without a handle: it
    pushes nothing and leaves the state as it found it; [getContext] fails
    there. *)
Theorem readOnlyContext_without_storage (w : World) (c : Contract) :
  dao_contracts (DAO (ic w)) !! f_scriptHash (current (v w)) = Some c ->
  HasStorage c = false ->
  storageGetReadOnlyContext w = (Ret tt, w)
  /\ storageGetContext w
     = (Err (errors_New "contract is not allowed to use storage"), w).
Proof.
  intros Hc Hf.
  unfold storageGetReadOnlyContext, storageGetContext,
    GetCurrentScriptHash, DAO_GetContractState.
  run. rewrite Hc, Hf. simpl. split; reflexivity.
Qed.

End Storage.

Section StorageWrites.

Context {ext : Externals}.

(** The bill is the exact product as long as it fits an [int64]. *)
Lemma put_price_exact (old : option StorageItem) (value : Bytes) :
  0 <= StoragePrice ->
  Z.max 1 (len value - match old with Some si => len (si_Value si) | None => 0 end)
    * StoragePrice < 2 ^ 63 ->
  put_price old value
  = Z.max 1 (len value - match old with Some si => len (si_Value si) | None => 0 end)
    * StoragePrice.
Proof.
  intros Hp Hfit. unfold put_price. apply int64_mul_small. nia.
Qed.

(** The steps of a put up to the call of [putWithContextAndFlags]. *)
Lemma storagePutInternal_args
    (ex : bool) (w : World) (p : nat) (ke ve fe : Item) (rest : list Item)
    (key value : Bytes) (z : Z) :
  estack (v w) = put_stack ex p ke ve fe rest ->
  TryBytes ke = Some key ->
  TryBytes ve = Some value ->
  TryInteger fe = Some z ->
  storagePutInternal ex w
  = putWithContextAndFlags p key value (ex && (big_Int64 z =? 1)) (on_stack rest w).
Proof.
  intros Hs Hk Hv Hf. unfold storagePutInternal, put_stack in *. run.
  rewrite Hs. simpl. unfold Element_Bytes. rewrite Hk. simpl. rewrite Hv.
  destruct ex; simpl.
  - unfold Element_BigInt. rewrite Hf. reflexivity.
  - reflexivity.
Qed.

(** What [putWithContextAndFlags] does with a handle it can read. *)
Lemma putWithContextAndFlags_cases
    (w : World) (p : nat) (sc : StorageContext) (key value : Bytes) (isConst : bool) :
  heap w !! p = Some sc ->
  let r := putWithContextAndFlags p key value isConst w in
  if put_refused w sc key value
  then succeeded r = false /\ DAO (ic (snd r)) = DAO (ic w)
  else fst r = Ret tt
       /\ dao_storage (DAO (ic (snd r)))
          = <[(sc_ID sc, key) := {| si_Value := value; si_IsConst := isConst |}]>
              (dao_storage (DAO (ic w))).
Proof.
  intros Hp. unfold put_refused, put_price, stored.
  unfold putWithContextAndFlags, deref, DAO_GetStorageItem, AddGas,
    DAO_PutStorageItem, MaxStorageKeyLen.
  run. rewrite Z.gtb_ltb.
  destruct (sc_ReadOnly sc) eqn:Hro; simpl.
  - destruct (1024 <? len key); simpl; [split; reflexivity |].
    rewrite Hp, Hro. split; reflexivity.
  - destruct (1024 <? len key) eqn:Hlen; simpl; [split; reflexivity |].
    rewrite Hp, Hro.
    destruct (dao_storage (DAO (ic w)) !! (sc_ID sc, key)) as [old |] eqn:Hold; simpl.
    + destruct (si_IsConst old) eqn:Hconst; simpl; [split; reflexivity |].
      replace (if len value >? len (si_Value old)
               then len value - len (si_Value old) else 1)
        with (Z.max 1 (len value - len (si_Value old)))
        by (destruct (Z.gtb_spec (len value) (len (si_Value old))); lia).
      destruct (gasFits _ _); simpl; split; reflexivity.
    + change (len []) with 0.
      replace (if len value >? 0 then len value - 0 else 1)
        with (Z.max 1 (len value - 0))
        by (destruct (Z.gtb_spec (len value) 0); lia).
      destruct (gasFits _ _); simpl; split; reflexivity.
Qed.

(** C3: [Put] and [PutEx], run on a handle, a key and a value (and a flag),
    fail and leave the stored items as they are when the handle is read-only,
    the key is longer than 1024 bytes, the item under the key is constant, or
    the gas budget does not cover [max(1, new_len - old_len) * StoragePrice];
    otherwise they succeed and the value is written under the key. *)
Theorem put_refused_or_written
    (ex : bool) (w : World) (p : nat) (sc : StorageContext) (ke ve fe : Item)
    (rest : list Item) (key value : Bytes) (z : Z) :
  estack (v w) = put_stack ex p ke ve fe rest ->
  heap w !! p = Some sc ->
  TryBytes ke = Some key ->
  TryBytes ve = Some value ->
  TryInteger fe = Some z ->
  if put_refused w sc key value
  then succeeded (put_handler ex w) = false
       /\ DAO (ic (snd (put_handler ex w))) = DAO (ic w)
  else fst (put_handler ex w) = Ret tt
       /\ dao_storage (DAO (ic (snd (put_handler ex w))))
          = <[(sc_ID sc, key) :=
                {| si_Value := value; si_IsConst := ex && (big_Int64 z =? 1) |}]>
              (dao_storage (DAO (ic w))).
Proof.
  intros Hs Hp Hk Hv Hf.
  replace (put_handler ex w) with (storagePutInternal ex w)
    by (destruct ex; reflexivity).
  rewrite (storagePutInternal_args ex w p ke ve fe rest key value z Hs Hk Hv Hf).
  exact (putWithContextAndFlags_cases (on_stack rest w) p sc key value _ Hp).
Qed.

(** C4: the item a successful [PutEx] writes is marked constant exactly when
    the popped flag, read as an [int64], equals 1; for a flag within the
    [int64] range, exactly when the flag is 1. *)
Theorem putEx_marks_const_iff_flag_is_one
    (w : World) (p : nat) (sc : StorageContext) (ke ve fe : Item)
    (rest : list Item) (key value : Bytes) (z : Z) :
  estack (v w) = put_stack true p ke ve fe rest ->
  heap w !! p = Some sc ->
  TryBytes ke = Some key ->
  TryBytes ve = Some value ->
  TryInteger fe = Some z ->
  fst (storagePutEx w) = Ret tt ->
  exists si,
    stored (snd (storagePutEx w)) (sc_ID sc) key = Some si
    /\ si_Value si = value
    /\ si_IsConst si = (big_Int64 z =? 1)
    /\ (- 2 ^ 63 <= z < 2 ^ 63 -> (si_IsConst si = true <-> z = 1)).
Proof.
  intros Hs Hp Hk Hv Hf. unfold storagePutEx.
  rewrite (storagePutInternal_args true w p ke ve fe rest key value z Hs Hk Hv Hf).
  change (true && (big_Int64 z =? 1)) with (big_Int64 z =? 1).
  pose proof (putWithContextAndFlags_cases
    (on_stack rest w) p sc key value (big_Int64 z =? 1) Hp) as Hcases.
  cbv zeta in Hcases. intros Hok.
  destruct (put_refused (on_stack rest w) sc key value).
  - destruct Hcases as [Hfail _].
    unfold succeeded in Hfail. rewrite Hok in Hfail. discriminate.
  - destruct Hcases as [_ Hst].
    exists {| si_Value := value; si_IsConst := big_Int64 z =? 1 |}.
    unfold stored. rewrite Hst, lookup_insert_eq. simpl.
    repeat split; try reflexivity.
    + intros Hc. apply Z.eqb_eq in Hc. rewrite big_Int64_small in Hc; assumption.
    + intros ->. reflexivity.
Qed.

End StorageWrites.

Section Calls.

Context {ext : Externals}.

(** A call that returns without an error has found the target and may call
    it. *)
Lemma contractCall_success_inv
    (w : World) (h : Bytes) (method args : Item) (f : Z) :
  fst (contractCallExInternal h method args f w) = Ret tt ->
  exists u cs bs,
    Uint160DecodeBytesBE h = Some u
    /\ dao_contracts (DAO (ic w)) !! u = Some cs
    /\ TryBytes method = Some bs
    /\ match caller_state w with
       | Some curr => CanCall (c_Manifest curr) (c_Manifest cs) bs = true
       | None => True
       end
    /\ snd (contractCallExInternal h method args f w)
       = {| ic := with_Invocations
                   (<[u := int64_add (default 0 (Invocations (ic w) !! u)) 1]>
                      (Invocations (ic w)))
                   (ic w);
            v := {| estack := method :: args :: estack (v w);
                    current := {| f_script := c_Script cs;
                                  f_scriptHash := u;
                                  f_callFlag := Z.land (f_callFlag (current (v w))) f |};
                    callers := current (v w) :: callers (v w);
                    gasConsumed := gasConsumed (v w);
                    GasLimit := GasLimit (v w) |};
            heap := heap w |}.
Proof.
  unfold contractCallExInternal, caller_state, DAO_GetContractState,
    GetCurrentScriptHash, LoadScriptWithHash.
  run.
  destruct (Uint160DecodeBytesBE h) as [u |] eqn:Hu; simpl; [| discriminate].
  destruct (dao_contracts (DAO (ic w)) !! u) as [cs |] eqn:Hcs; simpl;
    [| discriminate].
  destruct (TryBytes method) as [bs |] eqn:Hbs; simpl; [| discriminate].
  destruct (dao_contracts (DAO (ic w)) !! f_scriptHash (current (v w)))
    as [curr |] eqn:Hcurr; simpl.
  - destruct (CanCall (c_Manifest curr) (c_Manifest cs) bs) eqn:Hcan; simpl;
      [| discriminate].
    intros _. exists u, cs, bs. repeat split; assumption || reflexivity.
  - intros _. exists u, cs, bs. repeat split; assumption || reflexivity.
Qed.

(** [contractCall] and [contractCallEx] pop their operands and end in
    [contractCallExInternal], the first with all the flags, the second with
    the popped ones. *)
Lemma contractCall_unfold
    (w : World) (he method args : Item) (rest : list Item) (h : Bytes) :
  estack (v w) = he :: method :: args :: rest ->
  TryBytes he = Some h ->
  contractCall w
  = contractCallExInternal h method args smartcontract_All (on_stack rest w).
Proof.
  intros Hs Hh. unfold contractCall, Element_Bytes. run.
  rewrite Hs. simpl. rewrite Hh. reflexivity.
Qed.

Lemma contractCallEx_unfold
    (w : World) (he method args fe : Item) (rest : list Item) (h : Bytes) (z : Z) :
  estack (v w) = he :: method :: args :: fe :: rest ->
  TryBytes he = Some h ->
  TryInteger fe = Some z ->
  contractCallEx w
  = contractCallExInternal h method args
      (wrap_unsigned 8 (wrap_signed 32 (big_Int64 z))) (on_stack rest w).
Proof.
  intros Hs Hh Hz. unfold contractCallEx, Element_Bytes, Element_BigInt. run.
  rewrite Hs. simpl. rewrite Hh. simpl. rewrite Hz. reflexivity.
Qed.

(** C6: with a contract state stored under the running script hash, a call
    that succeeds has passed [CanCall] of that caller's manifest on the
    target's manifest and the method, and a call that does not pass it fails
    and changes nothing; a call to a script hash with no contract state
    fails; with no contract state under the running script hash the check is
    skipped and the call to a stored target proceeds. *)
Theorem contractCall_permission_check
    (w : World) (h : Bytes) (method args : Item) (f : Z) :
  (forall curr, caller_state w = Some curr ->
     fst (contractCallExInternal h method args f w) = Ret tt ->
     exists u cs bs,
       Uint160DecodeBytesBE h = Some u
       /\ dao_contracts (DAO (ic w)) !! u = Some cs
       /\ TryBytes method = Some bs
       /\ CanCall (c_Manifest curr) (c_Manifest cs) bs = true)
  /\ (forall curr u cs bs, caller_state w = Some curr ->
        Uint160DecodeBytesBE h = Some u ->
        dao_contracts (DAO (ic w)) !! u = Some cs ->
        TryBytes method = Some bs ->
        CanCall (c_Manifest curr) (c_Manifest cs) bs = false ->
        contractCallExInternal h method args f w
        = (Err (errors_New "disallowed method call"), w))
  /\ (forall u, Uint160DecodeBytesBE h = Some u ->
        dao_contracts (DAO (ic w)) !! u = None ->
        contractCallExInternal h method args f w
        = (Err (errors_New "contract not found"), w))
  /\ (forall u cs bs, caller_state w = None ->
        Uint160DecodeBytesBE h = Some u ->
        dao_contracts (DAO (ic w)) !! u = Some cs ->
        TryBytes method = Some bs ->
        fst (contractCallExInternal h method args f w) = Ret tt).
Proof.
  repeat split.
  - intros curr Hcurr Hok.
    destruct (contractCall_success_inv w h method args f Hok)
      as (u & cs & bs & Hu & Hcs & Hbs & Hcan & _).
    rewrite Hcurr in Hcan. exists u, cs, bs. repeat split; assumption.
  - intros curr u cs bs Hcurr Hu Hcs Hbs Hcan.
    unfold caller_state in Hcurr.
    unfold contractCallExInternal, DAO_GetContractState, GetCurrentScriptHash.
    run. rewrite Hu. simpl. rewrite Hcs, Hbs. simpl. rewrite Hcurr, Hcan.
    reflexivity.
  - intros u Hu Hnone.
    unfold contractCallExInternal, DAO_GetContractState. run.
    rewrite Hu. simpl. rewrite Hnone. reflexivity.
  - intros u cs bs Hnone Hu Hcs Hbs.
    unfold caller_state in Hnone.
    unfold contractCallExInternal, DAO_GetContractState, GetCurrentScriptHash,
      LoadScriptWithHash.
    run. rewrite Hu. simpl. rewrite Hcs, Hbs. simpl. rewrite Hnone.
    reflexivity.
Qed.

(** C7: a call that succeeds mounts the target's script as the running
    frame, under the target's hash and with the call flags of the calling
    frame intersected with the requested ones, above the calling frame; adds
    one to the invocation counter of the target (an [int] addition, from zero
    for a first call); and pushes the arguments item and then the method item
    on the evaluation stack, and nothing else. *)
Theorem contractCall_effects
    (w : World) (h : Bytes) (method args : Item) (f : Z) :
  fst (contractCallExInternal h method args f w) = Ret tt ->
  exists u cs,
    Uint160DecodeBytesBE h = Some u
    /\ dao_contracts (DAO (ic w)) !! u = Some cs
    /\ current (v (snd (contractCallExInternal h method args f w)))
       = {| f_script := c_Script cs;
            f_scriptHash := u;
            f_callFlag := Z.land (f_callFlag (current (v w))) f |}
    /\ callers (v (snd (contractCallExInternal h method args f w)))
       = current (v w) :: callers (v w)
    /\ Invocations (ic (snd (contractCallExInternal h method args f w)))
       = <[u := int64_add (default 0 (Invocations (ic w) !! u)) 1]>
           (Invocations (ic w))
    /\ (- 2 ^ 63 <= default 0 (Invocations (ic w) !! u) < 2 ^ 63 - 1 ->
        Invocations (ic (snd (contractCallExInternal h method args f w))) !! u
        = Some (default 0 (Invocations (ic w) !! u) + 1))
    /\ estack (v (snd (contractCallExInternal h method args f w)))
       = method :: args :: estack (v w).
Proof.
  intros Hok.
  destruct (contractCall_success_inv w h method args f Hok)
    as (u & cs & bs & Hu & Hcs & _ & _ & ->).
  exists u, cs. simpl. repeat split; try (assumption || reflexivity).
  intros Hn. rewrite lookup_insert_eq, int64_add_small by lia. reflexivity.
Qed.

End Calls.

Section Notifications.

Context {ext : Externals}.

(** C8: [notify], run on a stack that holds an item, pops that one item and
    succeeds, and the notifications are the ones before followed by one more,
    tagged with the running script hash; its payload is the popped item
    itself when the item serializes (so the two serialize alike), and the
    byte string ["bad notification: "] followed by the serializer's error
    when it does not. *)
Theorem notify_appends_one (w : World) (x : Item) (rest : list Item) :
  estack (v w) = x :: rest ->
  exists payload,
    runtimeNotify w
    = (Ret tt,
       with_ic
         (with_Notifications
            (Notifications (ic w)
               ++ [{| ne_ScriptHash := f_scriptHash (current (v w));
                      ne_Item := payload |}])
            (ic w))
         (on_stack rest w))
    /\ (forall b, SerializeItem x = inr b ->
          payload = x /\ SerializeItem payload = inr b)
    /\ (forall err, SerializeItem x = inl err ->
          payload = ByteArray (list_byte_of_string ("bad notification: " ++ err))).
Proof.
  intros Hs. unfold runtimeNotify, GetCurrentScriptHash. run. rewrite Hs. simpl.
  destruct (SerializeItem x) as [err | b] eqn:Hser.
  - eexists. split; [reflexivity |]. split.
    + intros b Hb. discriminate.
    + intros err' Herr. injection Herr as ->. reflexivity.
  - exists x. split; [reflexivity |]. split.
    + intros b' Hb. split; [reflexivity |]. rewrite Hser. exact Hb.
    + intros err Herr. discriminate.
Qed.

End Notifications.

Section TransactionFromBlock.

Context {ext : Externals}.

(** X26: [getTransactionFromBlock], run on a block element that names a
    stored block and on an index item beneath it, with the index taken as
    the [int64] the handler reads from the item.  With the block traceable it
    pops the index: when that [int64] is within the block's transactions it
    pushes the 32 big-endian bytes of that transaction's hash, which is not
    the marshalled transaction array, and when that [int64] is negative or
    not below the number of transactions it fails.  With the block not
    traceable it pushes null and the index item stays on the stack, neither
    popped nor checked.  The [int64] read of an index is the index itself
    when it fits an [int64]. *)
Theorem getTransactionFromBlock_result
    (w : World) (e ie : Item) (rest : list Item)
    (hash : Uint256) (block : Block) (z : Z) :
  estack (v w) = e :: ie :: rest ->
  getBlockHashFromElement (Chain (ic w)) e = Ret hash ->
  dao_blocks (DAO (ic w)) !! hash = Some block ->
  TryInteger ie = Some z ->
  (isTraceableBlock (ic w) (b_Index block) = true ->
     (0 <= big_Int64 z < Z.of_nat (length (b_Transactions block)) ->
        exists tx,
          b_Transactions block !! Z.to_nat (big_Int64 z) = Some tx
          /\ bcGetTransactionFromBlock w
             = (Ret tt, on_stack (ByteArray (Uint256_BytesBE (tx_Hash tx)) :: rest) w)
          /\ length (Uint256_BytesBE (tx_Hash tx)) = 32%nat
          /\ be_value (Uint256_BytesBE (tx_Hash tx)) = tx_Hash tx mod 2 ^ 256
          /\ ByteArray (Uint256_BytesBE (tx_Hash tx)) <> transactionToStackItem tx)
     /\ (big_Int64 z < 0 \/ Z.of_nat (length (b_Transactions block)) <= big_Int64 z ->
          bcGetTransactionFromBlock w
          = (Err (errors_New "wrong transaction index"), on_stack rest w)))
  /\ (isTraceableBlock (ic w) (b_Index block) = false ->
        bcGetTransactionFromBlock w = (Ret tt, on_stack (Null :: ie :: rest) w))
  /\ (- 2 ^ 63 <= z < 2 ^ 63 -> big_Int64 z = z).
Proof.
  intros Hs Hhash Hblock Hz.
  split; [| split; [| apply big_Int64_small]].
  all: unfold bcGetTransactionFromBlock, DAO_GetBlock; run.
  all: rewrite Hs; simpl; rewrite Hhash, Hblock; simpl.
  all: [> intros Htr; split | intros Htr]; rewrite Htr; simpl.
  - intros Hidx. unfold Element_BigInt. rewrite Hz.
    destruct (Z.ltb_spec (big_Int64 z) 0) as [Hneg | _]; [lia |].
    destruct (Z.geb_spec (big_Int64 z) (Z.of_nat (length (b_Transactions block))))
      as [Hge | _]; [lia |].
    simpl.
    destruct (b_Transactions block !! Z.to_nat (big_Int64 z)) as [tx |] eqn:Htx.
    + exists tx. split; [reflexivity |]. split; [reflexivity |].
      split; [exact (length_be_bytes 32 (tx_Hash tx)) |].
      split; [| discriminate].
      unfold Uint256_BytesBE. rewrite be_value_be_bytes. reflexivity.
    + apply lookup_ge_None in Htx. lia.
  - intros Hidx. unfold Element_BigInt. rewrite Hz.
    destruct (Z.ltb_spec (big_Int64 z) 0) as [Hneg | Hpos]; [reflexivity |].
    destruct (Z.geb_spec (big_Int64 z) (Z.of_nat (length (b_Transactions block))))
      as [Hge | Hlt]; [reflexivity | lia].
  - reflexivity.
Qed.

(** C10: an index item outside the [int64] range.  The handler bounds-checks
    the [int64] it reads from the popped item, and [Int64] keeps the low 64
    bits only.  So on a traceable block an index item that differs from the
    position [i] of one of the block's transactions by a non-zero multiple of
    [2 ^ 64] -- an index that is negative, or at least the number of the
    block's transactions -- does not make the handler fail: it pushes the
    hash of transaction [i].  The number of transactions is a Go [int]. *)
Theorem getTransactionFromBlock_index_wraps
    (w : World) (e ie : Item) (rest : list Item)
    (hash : Uint256) (block : Block) (tx : Transaction) (i k : Z) :
  estack (v w) = e :: ie :: rest ->
  getBlockHashFromElement (Chain (ic w)) e = Ret hash ->
  dao_blocks (DAO (ic w)) !! hash = Some block ->
  isTraceableBlock (ic w) (b_Index block) = true ->
  Z.of_nat (length (b_Transactions block)) < 2 ^ 63 ->
  0 <= i ->
  b_Transactions block !! Z.to_nat i = Some tx ->
  k <> 0 ->
  TryInteger ie = Some (i + k * 2 ^ 64) ->
  (i + k * 2 ^ 64 < 0 \/ Z.of_nat (length (b_Transactions block)) <= i + k * 2 ^ 64)
  /\ bcGetTransactionFromBlock w
     = (Ret tt, on_stack (ByteArray (Uint256_BytesBE (tx_Hash tx)) :: rest) w).
Proof.
  intros Hs Hhash Hblock Htr Hlen Hi Htx Hk Hz.
  assert (Hlt : i < Z.of_nat (length (b_Transactions block))).
  { apply lookup_lt_Some in Htx. lia. }
  split; [lia |].
  unfold bcGetTransactionFromBlock, DAO_GetBlock; run.
  rewrite Hs; simpl; rewrite Hhash, Hblock; simpl.
  rewrite Htr; simpl.
  unfold Element_BigInt. rewrite Hz.
  rewrite big_Int64_period by lia.
  destruct (Z.ltb_spec i 0) as [Hneg | _]; [lia |].
  destruct (Z.geb_spec i (Z.of_nat (length (b_Transactions block))))
    as [Hge | _]; [lia |].
  simpl. rewrite Htx. reflexivity.
Qed.

End TransactionFromBlock.

(** ** The properties on the sample states *)

Section OnSamples.

#[local] Existing Instance reference.

(** The window of the predicate ends below the top of the [uint32] range. *)
Lemma isTraceableBlock_wraps_at_top_witness :
  0 < MaxTraceableBlocks < 2 ^ 32
  /\ BlockHeight (Chain (ic worldAtTop)) = MaxUint32
  /\ isTraceableBlock (ic worldAtTop) MaxUint32 = false
  /\ traceable MaxUint32 (BlockHeight (Chain (ic worldAtTop))).
Proof.
  assert (Hm : 0 < MaxTraceableBlocks < 2 ^ 32) by (cbn; lia).
  assert (Htip : BlockHeight (Chain (ic worldAtTop)) = MaxUint32) by reflexivity.
  split; [exact Hm |]. split; [exact Htip |].
  exact (isTraceableBlock_wraps_at_top (ic worldAtTop) Hm Htip).
Defined.

(** The sample block is one block ahead of tip 0: [getBlock] by its hash
    pushes null. *)
Lemma untraceable_lookup_result_witness :
  estack (v (worldBehind [blockElement])) = [blockElement]
  /\ target_height getBlock (worldBehind [blockElement]) blockElement = Some 1
  /\ isTraceableBlock (ic (worldBehind [blockElement])) 1 = false
  /\ run_lookup getBlock (worldBehind [blockElement])
     = (Ret tt, on_stack [Null] (worldBehind [blockElement])).
Proof.
  assert (Hs : estack (v (worldBehind [blockElement])) = [blockElement])
    by reflexivity.
  assert (Ht : target_height getBlock (worldBehind [blockElement]) blockElement = Some 1)
    by (vm_compute; reflexivity).
  assert (Hn : isTraceableBlock (ic (worldBehind [blockElement])) 1 = false)
    by (vm_compute; reflexivity).
  split; [exact Hs |]. split; [exact Ht |]. split; [exact Hn |].
  exact (untraceable_lookup_result getBlock (worldBehind [blockElement])
           blockElement [] 1 Hs Ht Hn).
Defined.

(** The sample transaction is one block ahead of tip 0, and
    [getTransactionHeight] pushes the integer [-1] for it, not a null item. *)
Lemma getTransactionHeight_untraceable_pushes_minus_one :
  estack (v (worldBehind [txElement])) = [txElement]
  /\ target_height getTransactionHeight (worldBehind [txElement]) txElement = Some 1
  /\ isTraceableBlock (ic (worldBehind [txElement])) 1 = false
  /\ fst (bcGetTransactionHeight (worldBehind [txElement])) = Ret tt
  /\ estack (v (snd (bcGetTransactionHeight (worldBehind [txElement]))))
     = [BigInteger (-1)]
  /\ estack (v (snd (bcGetTransactionHeight (worldBehind [txElement]))))
     <> [Null].
Proof.
  repeat split; try (vm_compute; reflexivity).
  vm_compute. discriminate.
Qed.

(** A put through the writable handle, with unlimited gas and nothing under
    the key, writes the value. *)
Lemma put_refused_or_written_witness :
  estack (v (storageWorld (put_stack false 0 (ByteArray keyK) (ByteArray valueV1) (BigInteger 0) []) (-1) ∅))
  = put_stack false 0 (ByteArray keyK) (ByteArray valueV1) (BigInteger 0) []
  /\ heap (storageWorld (put_stack false 0 (ByteArray keyK) (ByteArray valueV1) (BigInteger 0) []) (-1) ∅) !! 0%nat
     = Some {| sc_ID := 42; sc_ReadOnly := false |}
  /\ TryBytes (ByteArray keyK) = Some keyK
  /\ TryBytes (ByteArray valueV1) = Some valueV1
  /\ TryInteger (BigInteger 0) = Some 0
  /\ fst (put_handler false
            (storageWorld (put_stack false 0 (ByteArray keyK) (ByteArray valueV1) (BigInteger 0) []) (-1) ∅))
     = Ret tt
  /\ dao_storage (DAO (ic (snd (put_handler false
            (storageWorld (put_stack false 0 (ByteArray keyK) (ByteArray valueV1) (BigInteger 0) []) (-1) ∅)))))
     = <[(42, keyK) := {| si_Value := valueV1; si_IsConst := false |}]> ∅.
Proof.
  do 5 (split; [reflexivity |]).
  exact (put_refused_or_written false
           (storageWorld (put_stack false 0 (ByteArray keyK) (ByteArray valueV1) (BigInteger 0) []) (-1) ∅)
           0%nat {| sc_ID := 42; sc_ReadOnly := false |}
           (ByteArray keyK) (ByteArray valueV1) (BigInteger 0) [] keyK valueV1 0
           eq_refl eq_refl eq_refl eq_refl eq_refl).
Defined.

(** With a budget of zero the same put fails for the gas and stores
    nothing. *)
Example put_without_gas :
  fst (storagePut (storageWorld (put_stack false 0 (ByteArray keyK) (ByteArray valueV1) Null []) 0 ∅))
  = Err errGasLimitExceeded
  /\ stored (snd (storagePut (storageWorld (put_stack false 0 (ByteArray keyK) (ByteArray valueV1) Null []) 0 ∅)))
       42 keyK
     = None.
Proof. split; vm_compute; reflexivity. Qed.

(** A put through the read-only handle fails. *)
Example put_read_only :
  fst (storagePut (storageWorld (put_stack false 1 (ByteArray keyK) (ByteArray valueV1) Null []) (-1) ∅))
  = Err (errors_New "StorageContext is read only").
Proof. vm_compute. reflexivity. Qed.

(** A second write under a key marked constant fails and the first value
    stays. *)
Example put_over_constant :
  fst (storagePutEx
         (storageWorld (put_stack true 0 (ByteArray keyK) (ByteArray [x76; x32]) (BigInteger 0) [])
            (-1) {[ (42, keyK) := {| si_Value := valueV1; si_IsConst := true |} ]}))
  = Err (errors_New "storage item exists and is read-only")
  /\ stored (snd (storagePutEx
         (storageWorld (put_stack true 0 (ByteArray keyK) (ByteArray [x76; x32]) (BigInteger 0) [])
            (-1) {[ (42, keyK) := {| si_Value := valueV1; si_IsConst := true |} ]})))
       42 keyK
     = Some {| si_Value := valueV1; si_IsConst := true |}.
Proof. split; vm_compute; reflexivity. Qed.

(** Flag 3 has its lowest bit set, and [PutEx] with it writes an item that
    is not constant. *)
Lemma putEx_flag_three_is_not_const :
  Z.testbit 3 0 = true
  /\ fst (storagePutEx
            (storageWorld (put_stack true 0 (ByteArray keyK) (ByteArray valueV1) (BigInteger 3) []) (-1) ∅))
     = Ret tt
  /\ stored (snd (storagePutEx
            (storageWorld (put_stack true 0 (ByteArray keyK) (ByteArray valueV1) (BigInteger 3) []) (-1) ∅)))
       42 keyK
     = Some {| si_Value := valueV1; si_IsConst := false |}.
Proof. repeat split; vm_compute; reflexivity. Qed.

(** Flag 1 marks the item constant. *)
Lemma putEx_marks_const_iff_flag_is_one_witness :
  estack (v (storageWorld (put_stack true 0 (ByteArray keyK) (ByteArray valueV1) (BigInteger 1) []) (-1) ∅))
  = put_stack true 0 (ByteArray keyK) (ByteArray valueV1) (BigInteger 1) []
  /\ fst (storagePutEx
            (storageWorld (put_stack true 0 (ByteArray keyK) (ByteArray valueV1) (BigInteger 1) []) (-1) ∅))
     = Ret tt
  /\ exists si,
       stored (snd (storagePutEx
            (storageWorld (put_stack true 0 (ByteArray keyK) (ByteArray valueV1) (BigInteger 1) []) (-1) ∅)))
         42 keyK
       = Some si
       /\ si_Value si = valueV1
       /\ si_IsConst si = (big_Int64 1 =? 1)
       /\ (- 2 ^ 63 <= 1 < 2 ^ 63 -> (si_IsConst si = true <-> 1 = 1)).
Proof.
  assert (Hok : fst (storagePutEx
            (storageWorld (put_stack true 0 (ByteArray keyK) (ByteArray valueV1) (BigInteger 1) []) (-1) ∅))
          = Ret tt) by (vm_compute; reflexivity).
  split; [reflexivity |]. split; [exact Hok |].
  exact (putEx_marks_const_iff_flag_is_one
           (storageWorld (put_stack true 0 (ByteArray keyK) (ByteArray valueV1) (BigInteger 1) []) (-1) ∅)
           0%nat {| sc_ID := 42; sc_ReadOnly := false |}
           (ByteArray keyK) (ByteArray valueV1) (BigInteger 1) [] keyK valueV1 1
           eq_refl eq_refl eq_refl eq_refl eq_refl Hok).
Defined.

(** [asReadOnly] on the writable handle: a third record, read-only, and the
    first record as it was. *)
Lemma asReadOnly_derives_handle_witness :
  estack (v (storageWorld [Interop (VStorageContext 0)] (-1) ∅))
  = [Interop (VStorageContext 0)]
  /\ heap (storageWorld [Interop (VStorageContext 0)] (-1) ∅) !! 0%nat
     = Some {| sc_ID := 42; sc_ReadOnly := false |}
  /\ exists p' h',
       fst (storageContextAsReadOnly (storageWorld [Interop (VStorageContext 0)] (-1) ∅))
       = Ret tt
       /\ estack (v (snd (storageContextAsReadOnly
                            (storageWorld [Interop (VStorageContext 0)] (-1) ∅))))
          = [Interop (VStorageContext p')]
       /\ heap (snd (storageContextAsReadOnly
                       (storageWorld [Interop (VStorageContext 0)] (-1) ∅))) !! p'
          = Some h'
       /\ sc_ReadOnly h' = true
       /\ sc_ID h' = 42
       /\ heap (snd (storageContextAsReadOnly
                       (storageWorld [Interop (VStorageContext 0)] (-1) ∅))) !! 0%nat
          = Some {| sc_ID := 42; sc_ReadOnly := false |}
       /\ (false = false -> p' <> 0%nat).
Proof.
  split; [reflexivity |]. split; [reflexivity |].
  exact (asReadOnly_derives_handle
           (storageWorld [Interop (VStorageContext 0)] (-1) ∅)
           0%nat {| sc_ID := 42; sc_ReadOnly := false |} [] eq_refl eq_refl).
Defined.

(** The running contract of [callWorld] has no storage feature. *)
Lemma readOnlyContext_without_storage_witness :
  dao_contracts (DAO (ic (callWorld [] []))) !! f_scriptHash (current (v (callWorld [] [])))
  = Some (callerContract 0 [ {| p_Contract := Some 21; p_Methods := Some [] |} ])
  /\ HasStorage (callerContract 0 [ {| p_Contract := Some 21; p_Methods := Some [] |} ]) = false
  /\ storageGetReadOnlyContext (callWorld [] []) = (Ret tt, callWorld [] [])
  /\ storageGetContext (callWorld [] [])
     = (Err (errors_New "contract is not allowed to use storage"), callWorld [] []).
Proof.
  assert (Hc : dao_contracts (DAO (ic (callWorld [] []))) !! f_scriptHash (current (v (callWorld [] [])))
               = Some (callerContract 0 [ {| p_Contract := Some 21; p_Methods := Some [] |} ]))
    by (vm_compute; reflexivity).
  split; [exact Hc |]. split; [reflexivity |].
  exact (readOnlyContext_without_storage (callWorld [] []) _ Hc eq_refl).
Defined.

(** The caller may call [add] on the callee and nothing else: calling
    [secret] fails on the permission check and changes nothing. *)
Lemma contractCall_permission_check_witness :
  caller_state (callWorld [BigInteger 42] [methodAdd])
  = Some (callerContract 0 [ {| p_Contract := Some 21; p_Methods := Some [methodAdd] |} ])
  /\ Uint160DecodeBytesBE (Uint160_BytesBE 21) = Some 21
  /\ dao_contracts (DAO (ic (callWorld [BigInteger 42] [methodAdd]))) !! 21 = Some calleeContract
  /\ TryBytes (ByteArray methodSecret) = Some methodSecret
  /\ CanCall
       (c_Manifest (callerContract 0 [ {| p_Contract := Some 21; p_Methods := Some [methodAdd] |} ]))
       (c_Manifest calleeContract) methodSecret
     = false
  /\ contractCallExInternal (Uint160_BytesBE 21) (ByteArray methodSecret)
       (Array []) smartcontract_All (callWorld [BigInteger 42] [methodAdd])
     = (Err (errors_New "disallowed method call"), callWorld [BigInteger 42] [methodAdd]).
Proof.
  assert (Hcurr : caller_state (callWorld [BigInteger 42] [methodAdd])
                  = Some (callerContract 0
                            [ {| p_Contract := Some 21; p_Methods := Some [methodAdd] |} ]))
    by (vm_compute; reflexivity).
  assert (Hu : Uint160DecodeBytesBE (Uint160_BytesBE 21) = Some 21)
    by (vm_compute; reflexivity).
  assert (Hcs : dao_contracts (DAO (ic (callWorld [BigInteger 42] [methodAdd]))) !! 21
                = Some calleeContract)
    by (vm_compute; reflexivity).
  assert (Hcan : CanCall
       (c_Manifest (callerContract 0 [ {| p_Contract := Some 21; p_Methods := Some [methodAdd] |} ]))
       (c_Manifest calleeContract) methodSecret = false)
    by (vm_compute; reflexivity).
  split; [exact Hcurr |]. split; [exact Hu |]. split; [exact Hcs |].
  split; [reflexivity |]. split; [exact Hcan |].
  exact (proj1 (proj2 (contractCall_permission_check
                         (callWorld [BigInteger 42] [methodAdd])
                         (Uint160_BytesBE 21) (ByteArray methodSecret) (Array [])
                         smartcontract_All))
           _ 21 calleeContract methodSecret Hcurr Hu Hcs eq_refl Hcan).
Defined.

(** The permitted call of the tests: [add] with two arguments above the
    canary.  The caller's frame allows calls only (flag 4), and so does the
    callee's. *)
Lemma contractCall_effects_witness :
  fst (contractCallExInternal (Uint160_BytesBE 21) (ByteArray methodAdd)
         (Array [BigInteger 1; BigInteger 2]) smartcontract_All
         (callWorld [BigInteger 42] [methodAdd]))
  = Ret tt
  /\ exists u cs,
       Uint160DecodeBytesBE (Uint160_BytesBE 21) = Some u
       /\ dao_contracts (DAO (ic (callWorld [BigInteger 42] [methodAdd]))) !! u = Some cs
       /\ current (v (snd (contractCallExInternal (Uint160_BytesBE 21) (ByteArray methodAdd)
                             (Array [BigInteger 1; BigInteger 2]) smartcontract_All
                             (callWorld [BigInteger 42] [methodAdd]))))
          = {| f_script := c_Script cs; f_scriptHash := u;
               f_callFlag := Z.land 4 smartcontract_All |}
       /\ callers (v (snd (contractCallExInternal (Uint160_BytesBE 21) (ByteArray methodAdd)
                             (Array [BigInteger 1; BigInteger 2]) smartcontract_All
                             (callWorld [BigInteger 42] [methodAdd]))))
          = [ {| f_script := [x21]; f_scriptHash := 20; f_callFlag := 4 |} ]
       /\ Invocations (ic (snd (contractCallExInternal (Uint160_BytesBE 21) (ByteArray methodAdd)
                             (Array [BigInteger 1; BigInteger 2]) smartcontract_All
                             (callWorld [BigInteger 42] [methodAdd]))))
          = <[u := int64_add (default 0 ((∅ : gmap Z Z) !! u)) 1]> ∅
       /\ (- 2 ^ 63 <= default 0 ((∅ : gmap Z Z) !! u) < 2 ^ 63 - 1 ->
           Invocations (ic (snd (contractCallExInternal (Uint160_BytesBE 21) (ByteArray methodAdd)
                             (Array [BigInteger 1; BigInteger 2]) smartcontract_All
                             (callWorld [BigInteger 42] [methodAdd])))) !! u
           = Some (default 0 ((∅ : gmap Z Z) !! u) + 1))
       /\ estack (v (snd (contractCallExInternal (Uint160_BytesBE 21) (ByteArray methodAdd)
                             (Array [BigInteger 1; BigInteger 2]) smartcontract_All
                             (callWorld [BigInteger 42] [methodAdd]))))
          = [ByteArray methodAdd; Array [BigInteger 1; BigInteger 2]; BigInteger 42].
Proof.
  assert (Hok : fst (contractCallExInternal (Uint160_BytesBE 21) (ByteArray methodAdd)
                       (Array [BigInteger 1; BigInteger 2]) smartcontract_All
                       (callWorld [BigInteger 42] [methodAdd])) = Ret tt)
    by (vm_compute; reflexivity).
  split; [exact Hok |].
  exact (contractCall_effects (callWorld [BigInteger 42] [methodAdd])
           (Uint160_BytesBE 21) (ByteArray methodAdd)
           (Array [BigInteger 1; BigInteger 2]) smartcontract_All Hok).
Defined.

(** Called from a script that is no stored contract, [secret] goes
    through. *)
Example contractCall_from_entry_script :
  fst (contractCallExInternal (Uint160_BytesBE 21) (ByteArray methodSecret)
         (Array []) smartcontract_All (entryCallWorld []))
  = Ret tt.
Proof. vm_compute. reflexivity. Qed.

(** [contractCall] pops the hash, the method and the arguments, and leaves
    the method above the arguments above the canary. *)
Example contractCall_two_arguments :
  fst (contractCall
         (callWorld [ByteArray (Uint160_BytesBE 21); ByteArray methodAdd;
                     Array [BigInteger 1; BigInteger 2]; BigInteger 42]
            [methodAdd]))
  = Ret tt
  /\ estack (v (snd (contractCall
         (callWorld [ByteArray (Uint160_BytesBE 21); ByteArray methodAdd;
                     Array [BigInteger 1; BigInteger 2]; BigInteger 42]
            [methodAdd]))))
     = [ByteArray methodAdd; Array [BigInteger 1; BigInteger 2]; BigInteger 42].
Proof. split; vm_compute; reflexivity. Qed.

(** A notification of an array that serializes records the array. *)
Lemma notify_appends_one_witness :
  estack (v (worldAtTip [Array [BigInteger 1]; Null])) = Array [BigInteger 1] :: [Null]
  /\ exists payload,
       runtimeNotify (worldAtTip [Array [BigInteger 1]; Null])
       = (Ret tt,
          with_ic
            (with_Notifications
               ([] ++ [{| ne_ScriptHash := 20; ne_Item := payload |}])
               (ic (worldAtTip [Array [BigInteger 1]; Null])))
            (on_stack [Null] (worldAtTip [Array [BigInteger 1]; Null])))
       /\ (forall b, SerializeItem (Array [BigInteger 1]) = inr b ->
             payload = Array [BigInteger 1] /\ SerializeItem payload = inr b)
       /\ (forall err, SerializeItem (Array [BigInteger 1]) = inl err ->
             payload = ByteArray (list_byte_of_string ("bad notification: " ++ err))).
Proof.
  split; [reflexivity |].
  exact (notify_appends_one (worldAtTip [Array [BigInteger 1]; Null])
           (Array [BigInteger 1]) [Null] eq_refl).
Defined.

(** A notification of an interop item records the error text in its
    place. *)
Example notify_interop_item :
  fst (runtimeNotify (worldAtTip [Interop (VOther 0)])) = Ret tt
  /\ Notifications (ic (snd (runtimeNotify (worldAtTip [Interop (VOther 0)]))))
     = [ {| ne_ScriptHash := 20;
            ne_Item := ByteArray (list_byte_of_string "bad notification: not supported") |} ].
Proof. split; vm_compute; reflexivity. Qed.

(** The sample block is the tip: its transaction 0 is the sample
    transaction, and its hash is pushed. *)
Lemma getTransactionFromBlock_result_witness :
  estack (v (worldAtTip [blockElement; BigInteger 0])) = blockElement :: BigInteger 0 :: []
  /\ getBlockHashFromElement (Chain (ic (worldAtTip [blockElement; BigInteger 0]))) blockElement
     = Ret 9
  /\ dao_blocks (DAO (ic (worldAtTip [blockElement; BigInteger 0]))) !! 9 = Some (sampleBlock 1)
  /\ TryInteger (BigInteger 0) = Some 0
  /\ isTraceableBlock (ic (worldAtTip [blockElement; BigInteger 0])) (b_Index (sampleBlock 1)) = true
  /\ 0 <= big_Int64 0 < Z.of_nat (length (b_Transactions (sampleBlock 1)))
  /\ exists tx,
       b_Transactions (sampleBlock 1) !! Z.to_nat (big_Int64 0) = Some tx
       /\ bcGetTransactionFromBlock (worldAtTip [blockElement; BigInteger 0])
          = (Ret tt,
             on_stack [ByteArray (Uint256_BytesBE (tx_Hash tx))]
               (worldAtTip [blockElement; BigInteger 0]))
       /\ length (Uint256_BytesBE (tx_Hash tx)) = 32%nat
       /\ be_value (Uint256_BytesBE (tx_Hash tx)) = tx_Hash tx mod 2 ^ 256
       /\ ByteArray (Uint256_BytesBE (tx_Hash tx)) <> transactionToStackItem tx.
Proof.
  assert (Hh : getBlockHashFromElement
                 (Chain (ic (worldAtTip [blockElement; BigInteger 0]))) blockElement
               = Ret 9) by (vm_compute; reflexivity).
  assert (Hb : dao_blocks (DAO (ic (worldAtTip [blockElement; BigInteger 0]))) !! 9
               = Some (sampleBlock 1)) by (vm_compute; reflexivity).
  assert (Htr : isTraceableBlock (ic (worldAtTip [blockElement; BigInteger 0]))
                  (b_Index (sampleBlock 1)) = true) by (vm_compute; reflexivity).
  assert (Hidx : 0 <= big_Int64 0 < Z.of_nat (length (b_Transactions (sampleBlock 1))))
    by (vm_compute; split; [discriminate | reflexivity]).
  split; [reflexivity |]. split; [exact Hh |]. split; [exact Hb |].
  split; [reflexivity |]. split; [exact Htr |]. split; [exact Hidx |].
  exact (proj1 (proj1 (getTransactionFromBlock_result
                         (worldAtTip [blockElement; BigInteger 0])
                         blockElement (BigInteger 0) [] 9 (sampleBlock 1) 0
                         eq_refl Hh Hb eq_refl) Htr) Hidx).
Defined.

(** The index item [2 ^ 64] on the sample block, which holds one
    transaction: the index is out of the block, and the handler pushes the
    hash of transaction 0. *)
Lemma getTransactionFromBlock_index_wraps_witness :
  estack (v (worldAtTip [blockElement; BigInteger (2 ^ 64)]))
  = blockElement :: BigInteger (2 ^ 64) :: []
  /\ getBlockHashFromElement
       (Chain (ic (worldAtTip [blockElement; BigInteger (2 ^ 64)]))) blockElement
     = Ret 9
  /\ dao_blocks (DAO (ic (worldAtTip [blockElement; BigInteger (2 ^ 64)]))) !! 9
     = Some (sampleBlock 1)
  /\ isTraceableBlock (ic (worldAtTip [blockElement; BigInteger (2 ^ 64)]))
       (b_Index (sampleBlock 1)) = true
  /\ Z.of_nat (length (b_Transactions (sampleBlock 1))) < 2 ^ 63
  /\ 0 <= 0
  /\ b_Transactions (sampleBlock 1) !! Z.to_nat 0 = Some sampleTx
  /\ 1 <> 0
  /\ TryInteger (BigInteger (2 ^ 64)) = Some (0 + 1 * 2 ^ 64)
  /\ (0 + 1 * 2 ^ 64 < 0
      \/ Z.of_nat (length (b_Transactions (sampleBlock 1))) <= 0 + 1 * 2 ^ 64)
  /\ bcGetTransactionFromBlock (worldAtTip [blockElement; BigInteger (2 ^ 64)])
     = (Ret tt,
        on_stack [ByteArray (Uint256_BytesBE (tx_Hash sampleTx))]
          (worldAtTip [blockElement; BigInteger (2 ^ 64)])).
Proof.
  assert (Hh : getBlockHashFromElement
                 (Chain (ic (worldAtTip [blockElement; BigInteger (2 ^ 64)]))) blockElement
               = Ret 9) by (vm_compute; reflexivity).
  assert (Hb : dao_blocks (DAO (ic (worldAtTip [blockElement; BigInteger (2 ^ 64)]))) !! 9
               = Some (sampleBlock 1)) by (vm_compute; reflexivity).
  assert (Htr : isTraceableBlock (ic (worldAtTip [blockElement; BigInteger (2 ^ 64)]))
                  (b_Index (sampleBlock 1)) = true) by (vm_compute; reflexivity).
  assert (Hlen : Z.of_nat (length (b_Transactions (sampleBlock 1))) < 2 ^ 63)
    by (vm_compute; reflexivity).
  assert (Hi : 0 <= 0) by lia.
  assert (Htx : b_Transactions (sampleBlock 1) !! Z.to_nat 0 = Some sampleTx)
    by reflexivity.
  assert (Hk : 1 <> 0) by lia.
  assert (Hz : TryInteger (BigInteger (2 ^ 64)) = Some (0 + 1 * 2 ^ 64))
    by (vm_compute; reflexivity).
  split; [reflexivity |]. split; [exact Hh |]. split; [exact Hb |].
  split; [exact Htr |]. split; [exact Hlen |]. split; [exact Hi |].
  split; [exact Htx |]. split; [exact Hk |]. split; [exact Hz |].
  exact (getTransactionFromBlock_index_wraps
           (worldAtTip [blockElement; BigInteger (2 ^ 64)])
           blockElement (BigInteger (2 ^ 64)) [] 9 (sampleBlock 1) sampleTx 0 1
           eq_refl Hh Hb Htr Hlen Hi Htx Hk Hz).
Defined.

(** The same with the index item [- 2 ^ 64], a negative index. *)
Example getTransactionFromBlock_negative_index_accepted :
  bcGetTransactionFromBlock (worldAtTip [blockElement; BigInteger (- 2 ^ 64)])
  = (Ret tt,
     on_stack [ByteArray (Uint256_BytesBE (tx_Hash sampleTx))]
       (worldAtTip [blockElement; BigInteger (- 2 ^ 64)])).
Proof. vm_compute. reflexivity. Qed.

(** A negative index within the [int64] range does fail. *)
Example getTransactionFromBlock_negative_index :
  fst (bcGetTransactionFromBlock (worldAtTip [blockElement; BigInteger (- 1)]))
  = Err (errors_New "wrong transaction index").
Proof. vm_compute. reflexivity. Qed.

(** Index 1 is out of the sample block's single transaction. *)
Example getTransactionFromBlock_bad_index :
  fst (bcGetTransactionFromBlock (worldAtTip [blockElement; BigInteger 1]))
  = Err (errors_New "wrong transaction index").
Proof. vm_compute. reflexivity. Qed.

(** Ahead of the tip, the block gives null and the index item is still on
    the stack. *)
Example getTransactionFromBlock_untraceable :
  fst (bcGetTransactionFromBlock (worldBehind [blockElement; BigInteger 1])) = Ret tt
  /\ estack (v (snd (bcGetTransactionFromBlock (worldBehind [blockElement; BigInteger 1]))))
     = [Null; BigInteger 1].
Proof. split; vm_compute; reflexivity. Qed.

End OnSamples.

(** ** Further properties of the handlers *)

Section Hashes.

Lemma len_be_bytes (n : nat) (z : Z) : len (be_bytes n z) = Z.of_nat n.
Proof. unfold len. rewrite length_be_bytes. reflexivity. Qed.

(** A hash is read back from its big-endian bytes. *)
Lemma Uint256_roundtrip (h : Uint256) :
  0 <= h < 2 ^ 256 -> Uint256DecodeBytesBE (Uint256_BytesBE h) = Some h.
Proof.
  intros Hh. unfold Uint256DecodeBytesBE, Uint256_BytesBE.
  rewrite len_be_bytes, be_value_be_bytes.
  change (Z.of_nat 32 =? 32) with true. cbv iota.
  f_equal. change (256 ^ Z.of_nat 32) with (2 ^ 256). apply Z.mod_small. exact Hh.
Qed.

Lemma Uint160_roundtrip (h : Uint160) :
  0 <= h < 2 ^ 160 -> Uint160DecodeBytesBE (Uint160_BytesBE h) = Some h.
Proof.
  intros Hh. unfold Uint160DecodeBytesBE, Uint160_BytesBE.
  rewrite len_be_bytes, be_value_be_bytes.
  change (Z.of_nat 20 =? 20) with true. cbv iota.
  f_equal. change (256 ^ Z.of_nat 20) with (2 ^ 160). apply Z.mod_small. exact Hh.
Qed.

End Hashes.

Section Window.

Context {ext : Externals}.

(** X1: the window of [isTraceableBlock].  An index above the chain's height
    is never traceable, whatever the constant; and as long as the sum of the
    index and [MaxTraceableBlocks] fits a [uint32], an index is traceable
    exactly when it is at most the height and the height is less than that
    sum. *)
Theorem isTraceableBlock_window (c : InteropContext) (index : Z) :
  (BlockHeight (Chain c) < index -> isTraceableBlock c index = false)
  /\ (0 <= index ->
      0 <= MaxTraceableBlocks ->
      index + MaxTraceableBlocks < 2 ^ 32 ->
      (isTraceableBlock c index = true
       <-> index <= BlockHeight (Chain c)
           /\ BlockHeight (Chain c) < index + MaxTraceableBlocks)).
Proof.
  unfold isTraceableBlock. split.
  - intros Hgt. apply andb_false_iff. left. apply Z.leb_gt. exact Hgt.
  - intros Hi Hm Hsum. rewrite uint32_add_small by lia.
    rewrite andb_true_iff, Z.leb_le, Z.gtb_gt. lia.
Qed.

End Window.

Section BlockElements.

Context {ext : Externals}.

(** X2: [getBlockHashFromElement] on the three kinds of element.  The 32
    big-endian bytes of a hash give that hash, and the chain is not asked; a
    byte string of more than 5 bytes that is not of 32 bytes is an error; an
    integer whose bytes are at most 5 is a block index: a negative one or one
    above [MaxUint32] is the error "bad block index", any other is resolved
    by [GetHeaderHash]. *)
Theorem getBlockHashFromElement_cases (bc : Blockchainer) :
  (forall h, 0 <= h < 2 ^ 256 ->
     getBlockHashFromElement bc (ByteArray (Uint256_BytesBE h)) = Ret h)
  /\ (forall b, 5 < len b -> len b <> 32 ->
        getBlockHashFromElement bc (ByteArray b) = Err errBadHash)
  /\ (forall z, len (bigint_ToBytes z) <= 5 -> - 2 ^ 63 <= z < 2 ^ 63 ->
        getBlockHashFromElement bc (BigInteger z)
        = if (z <? 0) || (z >? MaxUint32)
          then Err (errors_New "bad block index")
          else Ret (GetHeaderHash bc z)).
Proof.
  split; [| split].
  - intros h Hh. unfold getBlockHashFromElement, Element_Bytes, TryBytes.
    unfold Uint256_BytesBE at 1. rewrite len_be_bytes.
    change (Z.of_nat 32 <=? 5) with false. cbv iota.
    fold (Uint256_BytesBE h). rewrite Uint256_roundtrip by exact Hh. reflexivity.
  - intros b Hlen Hne. unfold getBlockHashFromElement, Element_Bytes, TryBytes.
    destruct (Z.leb_spec (len b) 5) as [Hle | _]; [lia |].
    unfold Uint256DecodeBytesBE.
    destruct (Z.eqb_spec (len b) 32) as [Heq | _]; [contradiction | reflexivity].
  - intros z Hlen Hz.
    unfold getBlockHashFromElement, Element_Bytes, Element_BigInt, TryBytes, TryInteger.
    destruct (Z.leb_spec (len (bigint_ToBytes z)) 5) as [_ | Hgt]; [| lia].
    rewrite big_Int64_small by exact Hz. reflexivity.
Qed.

End BlockElements.

Section MoreLookups.

Context {ext : Externals}.

(** X3: [getBlock] on an element that names a block of the chain within the
    window pushes, in place of the element, an array of exactly 8 items: item
    0 is the 32 big-endian bytes of the block's hash, item 5 its index, item
    7 the number of its transactions. *)
Theorem getBlock_traceable
    (w : World) (e : Item) (rest : list Item) (hash : Uint256) (block : Block) :
  estack (v w) = e :: rest ->
  getBlockHashFromElement (Chain (ic w)) e = Ret hash ->
  chain_GetBlock (Chain (ic w)) hash = Some block ->
  isTraceableBlock (ic w) (b_Index block) = true ->
  exists items,
    bcGetBlock w = (Ret tt, on_stack (Array items :: rest) w)
    /\ length items = 8%nat
    /\ items !! 0%nat = Some (ByteArray (Uint256_BytesBE (b_Hash block)))
    /\ length (Uint256_BytesBE (b_Hash block)) = 32%nat
    /\ items !! 5%nat = Some (BigInteger (b_Index block))
    /\ items !! 7%nat = Some (BigInteger (Z.of_nat (length (b_Transactions block)))).
Proof.
  intros Hs Hh Hb Htr. unfold bcGetBlock. run. rewrite Hs. cbn [fst snd].
  change (ic (with_v (with_estack rest (v w)) w)) with (ic w).
  rewrite Hh, Hb, Htr. cbn [negb].
  eexists. split; [reflexivity |].
  split; [reflexivity |]. split; [reflexivity |].
  split; [exact (length_be_bytes 32 (b_Hash block)) |].
  split; reflexivity.
Qed.

(** X4: on an element that names a stored transaction whose height is within
    the window, [getTransaction] pushes an array of exactly 8 items (item 0
    the 32 bytes of the hash, item 3 the 20 bytes of the sender, item 7 the
    script) and [getTransactionHeight] pushes the height. *)
Theorem getTransaction_traceable
    (w : World) (e : Item) (rest : list Item) (hashbytes : Bytes)
    (hash : Uint256) (tx : Transaction) (h : Z) :
  estack (v w) = e :: rest ->
  TryBytes e = Some hashbytes ->
  Uint256DecodeBytesBE hashbytes = Some hash ->
  dao_transactions (DAO (ic w)) !! hash = Some (tx, h) ->
  isTraceableBlock (ic w) h = true ->
  (exists items,
     bcGetTransaction w = (Ret tt, on_stack (Array items :: rest) w)
     /\ length items = 8%nat
     /\ items !! 0%nat = Some (ByteArray (Uint256_BytesBE (tx_Hash tx)))
     /\ length (Uint256_BytesBE (tx_Hash tx)) = 32%nat
     /\ items !! 3%nat = Some (ByteArray (Uint160_BytesBE (tx_Sender tx)))
     /\ length (Uint160_BytesBE (tx_Sender tx)) = 20%nat
     /\ items !! 7%nat = Some (ByteArray (tx_Script tx)))
  /\ bcGetTransactionHeight w = (Ret tt, on_stack (BigInteger h :: rest) w).
Proof.
  intros Hs Hb Hd Htx Htr.
  unfold bcGetTransaction, bcGetTransactionHeight, getTransactionAndHeight,
    DAO_GetTransaction, Element_Bytes.
  run. rewrite Hs. cbn [fst snd]. rewrite Hb, Hd.
  change (DAO (ic (with_v (with_estack rest (v w)) w))) with (DAO (ic w)).
  rewrite Htx.
  change (ic (with_v (with_estack rest (v w)) w)) with (ic w).
  rewrite Htr. cbn [negb]. split; [| reflexivity].
  eexists. split; [reflexivity |].
  split; [reflexivity |]. split; [reflexivity |].
  split; [exact (length_be_bytes 32 (tx_Hash tx)) |].
  split; [reflexivity |].
  split; [exact (length_be_bytes 20 (tx_Sender tx)) | reflexivity].
Qed.

(** X5: a lookup whose element resolves to a hash under which nothing is
    found is no fault: it succeeds and reports the absence as data, null for
    [getBlock], [getTransaction] and [getTransactionFromBlock] and [-1] for
    [getTransactionHeight]; only the element is popped. *)
Theorem lookup_of_unknown_target
    (l : lookup) (w : World) (e : Item) (rest : list Item) :
  estack (v w) = e :: rest ->
  element_resolves l w e = true ->
  target_height l w e = None ->
  run_lookup l w = (Ret tt, on_stack (untraceable_result l :: rest) w).
Proof.
  intros Hs Hr Ht. destruct l; simpl in Hr, Ht |- *.
  - unfold bcGetBlock. run. rewrite Hs. simpl.
    destruct (getBlockHashFromElement _ e) as [hash |]; [| discriminate].
    destruct (chain_GetBlock _ hash) as [block |]; [discriminate | reflexivity].
  - unfold bcGetTransaction, getTransactionAndHeight, DAO_GetTransaction. run.
    rewrite Hs. simpl.
    destruct (Element_Bytes e) as [hashbytes |]; [| discriminate].
    destruct (Uint256DecodeBytesBE hashbytes) as [hash |]; [| reflexivity].
    simpl.
    destruct (dao_transactions _ !! hash) as [[tx h'] |]; [discriminate | reflexivity].
  - unfold bcGetTransactionFromBlock, DAO_GetBlock. run. rewrite Hs. simpl.
    destruct (getBlockHashFromElement _ e) as [hash |]; [| discriminate].
    destruct (dao_blocks _ !! hash) as [block |]; [discriminate | reflexivity].
  - unfold bcGetTransactionHeight, getTransactionAndHeight, DAO_GetTransaction. run.
    rewrite Hs. simpl.
    destruct (Element_Bytes e) as [hashbytes |]; [| discriminate].
    destruct (Uint256DecodeBytesBE hashbytes) as [hash |]; [| reflexivity].
    simpl.
    destruct (dao_transactions _ !! hash) as [[tx h'] |]; [discriminate | reflexivity].
Qed.

(** X6: the two transaction lookups never fault on an element that converts
    to bytes, whatever its length and whatever is stored: they pop it and
    push one item in its place, and change nothing else; what
    [getTransactionHeight] pushes is an integer. *)
Theorem transaction_lookups_never_fault
    (w : World) (e : Item) (rest : list Item) (hashbytes : Bytes) :
  estack (v w) = e :: rest ->
  TryBytes e = Some hashbytes ->
  (exists x, bcGetTransaction w = (Ret tt, on_stack (x :: rest) w))
  /\ (exists z, bcGetTransactionHeight w = (Ret tt, on_stack (BigInteger z :: rest) w)).
Proof.
  intros Hs Hb.
  unfold bcGetTransaction, bcGetTransactionHeight, getTransactionAndHeight,
    DAO_GetTransaction, Element_Bytes.
  run. rewrite Hs. cbn [fst snd]. rewrite Hb.
  destruct (Uint256DecodeBytesBE hashbytes) as [hash |].
  - change (DAO (ic (with_v (with_estack rest (v w)) w))) with (DAO (ic w)).
    destruct (dao_transactions (DAO (ic w)) !! hash) as [[tx h] |].
    + change (ic (with_v (with_estack rest (v w)) w)) with (ic w).
      destruct (isTraceableBlock (ic w) h); cbn [negb];
        split; eexists; reflexivity.
    + split; eexists; reflexivity.
  - split; eexists; reflexivity.
Qed.

End MoreLookups.

Section MoreStorage.

Context {ext : Externals}.

(** The state a put that is not refused leaves. *)
Lemma putWithContextAndFlags_written
    (w : World) (p : nat) (sc : StorageContext) (key value : Bytes) (isConst : bool) :
  heap w !! p = Some sc ->
  put_refused w sc key value = false ->
  putWithContextAndFlags p key value isConst w
  = (Ret tt,
     with_ic
       (with_DAO
          (with_storage
             (<[(sc_ID sc, key) := {| si_Value := value; si_IsConst := isConst |}]>
                (dao_storage (DAO (ic w))))
             (DAO (ic w)))
          (ic w))
       (with_v
          (with_gasConsumed
             (int64_add (gasConsumed (v w))
                (put_price (stored w (sc_ID sc) key) value))
             (v w))
          w)).
Proof.
  intros Hp. unfold put_refused, put_price, stored.
  unfold putWithContextAndFlags, deref, DAO_GetStorageItem, AddGas,
    DAO_PutStorageItem, MaxStorageKeyLen.
  run. rewrite Z.gtb_ltb.
  destruct (sc_ReadOnly sc) eqn:Hro; simpl; [intros Hx; discriminate Hx |].
  destruct (1024 <? len key) eqn:Hlen; simpl; [intros Hx; discriminate Hx |].
  rewrite Hp, Hro.
  destruct (dao_storage (DAO (ic w)) !! (sc_ID sc, key)) as [old |] eqn:Hold; simpl.
  - destruct (si_IsConst old) eqn:Hconst; simpl; [intros Hx; discriminate Hx |].
    replace (if len value >? len (si_Value old)
             then len value - len (si_Value old) else 1)
      with (Z.max 1 (len value - len (si_Value old)))
      by (destruct (Z.gtb_spec (len value) (len (si_Value old))); lia).
    destruct (gasFits _ _); simpl; [reflexivity | intros Hx; discriminate Hx].
  - change (len []) with 0.
    replace (if len value >? 0 then len value - 0 else 1)
      with (Z.max 1 (len value - 0))
      by (destruct (Z.gtb_spec (len value) 0); lia).
    destruct (gasFits _ _); simpl; [reflexivity | intros Hx; discriminate Hx].
Qed.

(** What [storageGet] does on a handle and a key. *)
Lemma storageGet_run
    (w : World) (p : nat) (sc : StorageContext) (ke : Item) (rest : list Item)
    (key : Bytes) :
  estack (v w) = Interop (VStorageContext p) :: ke :: rest ->
  heap w !! p = Some sc ->
  TryBytes ke = Some key ->
  storageGet w
  = (Ret tt,
     on_stack
       (match stored w (sc_ID sc) key with
        | Some si => ByteArray (si_Value si)
        | None => Null
        end :: rest) w).
Proof.
  intros Hs Hp Hk. unfold storageGet, deref, DAO_GetStorageItem, Element_Bytes, stored.
  run. rewrite Hs. simpl. rewrite Hk. simpl. rewrite Hp. simpl.
  destruct (dao_storage (DAO (ic w)) !! (sc_ID sc, key)); reflexivity.
Qed.

(** X7: [storageGet] pops a handle and a key and pushes the bytes stored
    under the key in the handle's contract, or null when nothing is stored
    there; it reads through a read-only handle as through a writable one and
    changes nothing but the stack.  An item that is no storage context in the
    handle's place is an error. *)
Theorem storageGet_reads
    (w : World) (e ke : Item) (rest : list Item) :
  estack (v w) = e :: ke :: rest ->
  (forall p sc key,
     e = Interop (VStorageContext p) ->
     heap w !! p = Some sc ->
     TryBytes ke = Some key ->
     storageGet w
     = (Ret tt,
        on_stack
          (match stored w (sc_ID sc) key with
           | Some si => ByteArray (si_Value si)
           | None => Null
           end :: rest) w))
  /\ (asStorageContext e = None ->
      storageGet w = (Err errNotStorageContext, on_stack (ke :: rest) w)).
Proof.
  intros Hs. split.
  - intros p sc key -> Hp Hk. exact (storageGet_run w p sc ke rest key Hs Hp Hk).
  - intros Hno. unfold storageGet. run. rewrite Hs. simpl. rewrite Hno.
    reflexivity.
Qed.

(** X8: what is put is what is got.  A put that is not refused, followed by
    a get through any handle of the same contract on the same key, succeeds
    and pushes the value just written. *)
Theorem put_then_get
    (ex : bool) (w : World) (p q : nat) (sc sc' : StorageContext)
    (ke ve fe ke' : Item) (rest : list Item) (key value : Bytes) (z : Z) :
  estack (v w)
  = put_stack ex p ke ve fe (Interop (VStorageContext q) :: ke' :: rest) ->
  heap w !! p = Some sc ->
  heap w !! q = Some sc' ->
  sc_ID sc' = sc_ID sc ->
  TryBytes ke = Some key ->
  TryBytes ve = Some value ->
  TryInteger fe = Some z ->
  TryBytes ke' = Some key ->
  put_refused w sc key value = false ->
  fst ((put_handler ex ;;; storageGet) w) = Ret tt
  /\ estack (v (snd ((put_handler ex ;;; storageGet) w))) = ByteArray value :: rest.
Proof.
  intros Hs Hp Hq Hid Hk Hv Hf Hk' Hnot.
  replace (put_handler ex) with (storagePutInternal ex)
    by (destruct ex; reflexivity).
  unfold bind.
  rewrite (storagePutInternal_args ex w p ke ve fe _ key value z Hs Hk Hv Hf).
  rewrite (putWithContextAndFlags_written
             (on_stack (Interop (VStorageContext q) :: ke' :: rest) w)
             p sc key value _ Hp Hnot).
  erewrite storageGet_run; [| reflexivity | exact Hq | exact Hk'].
  unfold stored. simpl. rewrite Hid, lookup_insert_eq. split; reflexivity.
Qed.

(** X9: [storageDelete] on a handle.  Through a read-only handle it fails
    before it pops the key.  Through a writable one it pops the key and fails
    when the item under it is constant; otherwise it succeeds and the key is
    gone, the other items are as they were, and a key that was not there is
    no error and no change. *)
Theorem storageDelete_cases
    (w : World) (p : nat) (sc : StorageContext) (rest : list Item) :
  estack (v w) = Interop (VStorageContext p) :: rest ->
  heap w !! p = Some sc ->
  (sc_ReadOnly sc = true ->
     storageDelete w
     = (Err (errors_New "StorageContext is read only"), on_stack rest w))
  /\ (forall ke rest' key,
        sc_ReadOnly sc = false ->
        rest = ke :: rest' ->
        TryBytes ke = Some key ->
        (forall si, stored w (sc_ID sc) key = Some si -> si_IsConst si = true ->
           storageDelete w
           = (Err (errors_New "storage item is constant"), on_stack rest' w))
        /\ ((forall si, stored w (sc_ID sc) key = Some si -> si_IsConst si = false) ->
            fst (storageDelete w) = Ret tt
            /\ estack (v (snd (storageDelete w))) = rest'
            /\ dao_storage (DAO (ic (snd (storageDelete w))))
               = delete (sc_ID sc, key) (dao_storage (DAO (ic w)))
            /\ stored (snd (storageDelete w)) (sc_ID sc) key = None
            /\ (stored w (sc_ID sc) key = None ->
                dao_storage (DAO (ic (snd (storageDelete w))))
                = dao_storage (DAO (ic w))))).
Proof.
  intros Hs Hp. split.
  - intros Hro. unfold storageDelete, deref. run. rewrite Hs. simpl.
    rewrite Hp, Hro. reflexivity.
  - intros ke rest' key Hro -> Hk.
    unfold storageDelete, deref, DAO_GetStorageItem, DAO_DeleteStorageItem,
      Element_Bytes, stored.
    run. rewrite Hs. simpl. rewrite Hp, Hro. simpl. rewrite Hk. simpl.
    destruct (dao_storage (DAO (ic w)) !! (sc_ID sc, key)) as [si |] eqn:Hsi.
    + split.
      * intros si' Hsi' Hc. injection Hsi' as <-. rewrite Hc. reflexivity.
      * intros Hnc. rewrite (Hnc si eq_refl). simpl.
        repeat split; try reflexivity.
        -- apply lookup_delete_eq.
        -- discriminate.
    + split.
      * intros si' Hsi'. discriminate.
      * intros _. simpl. repeat split; try reflexivity.
        -- apply lookup_delete_eq.
        -- intros _. apply delete_id. exact Hsi.
Qed.

End MoreStorage.

Section StorageInvariants.

Context {ext : Externals}.

(** A put either stops before it reaches [putWithContextAndFlags], and then
    it has failed and touched the stack only, or it is
    [putWithContextAndFlags] on the handle at the top of the stack, run on
    the state with the operands popped. *)
Lemma storagePutInternal_shape (ex : bool) (w : World) :
  (succeeded (storagePutInternal ex w) = false
   /\ ic (snd (storagePutInternal ex w)) = ic w)
  \/ (exists e s0 p key value c s,
        estack (v w) = e :: s0
        /\ asStorageContext e = Some p
        /\ storagePutInternal ex w
           = putWithContextAndFlags p key value c (on_stack s w)).
Proof.
  unfold storagePutInternal, Element_Bytes, Element_BigInt. run.
  destruct (estack (v w)) as [| e s1] eqn:Hs; simpl; [left; split; reflexivity |].
  destruct (asStorageContext e) as [p |] eqn:He; simpl;
    [| left; split; reflexivity].
  destruct s1 as [| ke s2]; simpl; [left; split; reflexivity |].
  destruct (TryBytes ke) as [key |]; simpl; [| left; split; reflexivity].
  destruct s2 as [| ve s3]; simpl; [left; split; reflexivity |].
  destruct (TryBytes ve) as [value |]; simpl; [| left; split; reflexivity].
  destruct ex; simpl.
  - destruct s3 as [| fe s4]; simpl; [left; split; reflexivity |].
    destruct (TryInteger fe) as [z |]; simpl; [| left; split; reflexivity].
    right. exists e, (ke :: ve :: fe :: s4), p, key, value, (big_Int64 z =? 1), s4.
    repeat split; reflexivity || assumption.
  - right. exists e, (ke :: ve :: s3), p, key, value, false, s3.
    repeat split; reflexivity || assumption.
Qed.

Lemma putWithContextAndFlags_keeps_const
    (w : World) (p : nat) (key' value : Bytes) (c : bool)
    (id : Z) (key : Bytes) (si : StorageItem) :
  stored w id key = Some si ->
  si_IsConst si = true ->
  stored (snd (putWithContextAndFlags p key' value c w)) id key = Some si.
Proof.
  intros Hst Hc. unfold stored in *.
  unfold putWithContextAndFlags, deref, DAO_GetStorageItem, AddGas, DAO_PutStorageItem.
  run.
  destruct (len key' >? MaxStorageKeyLen); simpl; [exact Hst |].
  destruct (heap w !! p) as [sc |]; simpl; [| exact Hst].
  destruct (sc_ReadOnly sc); simpl; [exact Hst |].
  destruct (decide ((sc_ID sc, key') = (id, key))) as [Heq | Hne].
  - rewrite Heq, Hst. simpl. rewrite Hc. simpl. exact Hst.
  - destruct (si_IsConst (default _ _)); simpl; [exact Hst |].
    destruct (gasFits _ _); simpl; [| exact Hst].
    rewrite lookup_insert_ne by exact Hne. exact Hst.
Qed.

Lemma storageDelete_keeps_const
    (w : World) (id : Z) (key : Bytes) (si : StorageItem) :
  stored w id key = Some si ->
  si_IsConst si = true ->
  stored (snd (storageDelete w)) id key = Some si.
Proof.
  intros Hst Hc. unfold stored in *.
  unfold storageDelete, deref, DAO_GetStorageItem, DAO_DeleteStorageItem, Element_Bytes.
  run.
  destruct (estack (v w)) as [| e s1]; simpl; [exact Hst |].
  destruct (asStorageContext e) as [p |]; simpl; [| exact Hst].
  destruct (heap w !! p) as [sc |]; simpl; [| exact Hst].
  destruct (sc_ReadOnly sc); simpl; [exact Hst |].
  destruct s1 as [| ke s2]; simpl; [exact Hst |].
  destruct (TryBytes ke) as [key' |]; simpl; [| exact Hst].
  destruct (decide ((sc_ID sc, key') = (id, key))) as [Heq | Hne].
  - rewrite Heq, Hst. rewrite Hc. simpl. exact Hst.
  - destruct (match dao_storage (DAO (ic w)) !! (sc_ID sc, key') with
              | Some i => si_IsConst i
              | None => false
              end); simpl; [exact Hst |].
    rewrite lookup_delete_ne by exact Hne. exact Hst.
Qed.

(** X10: an item marked constant stays as it is.  Whatever the stack and the
    handles, [Put], [PutEx] and [Delete], failing or not, leave every
    constant item stored with its value and its marker. *)
Theorem constant_items_stay
    (op : storage_write) (w : World) (id : Z) (key : Bytes) (si : StorageItem) :
  stored w id key = Some si ->
  si_IsConst si = true ->
  stored (snd (run_write op w)) id key = Some si.
Proof.
  intros Hst Hc.
  assert (Hput : forall ex, stored (snd (storagePutInternal ex w)) id key = Some si).
  { intros ex.
    destruct (storagePutInternal_shape ex w)
      as [[_ Hic] | (e & s0 & p & key' & value & c & s & _ & _ & ->)].
    - unfold stored. rewrite Hic. exact Hst.
    - apply putWithContextAndFlags_keeps_const; assumption. }
  destruct op; simpl.
  - exact (Hput false).
  - exact (Hput true).
  - apply storageDelete_keeps_const; assumption.
Qed.

(** A write through a handle whose record is read-only fails and leaves the
    DAO as it is. *)
Lemma read_only_write_fails
    (op : storage_write) (w : World) (p : nat) (sc : StorageContext) (rest : list Item) :
  estack (v w) = Interop (VStorageContext p) :: rest ->
  heap w !! p = Some sc ->
  sc_ReadOnly sc = true ->
  succeeded (run_write op w) = false
  /\ DAO (ic (snd (run_write op w))) = DAO (ic w).
Proof.
  intros Hs Hp Hro.
  assert (Hput : forall ex,
             succeeded (storagePutInternal ex w) = false
             /\ DAO (ic (snd (storagePutInternal ex w))) = DAO (ic w)).
  { intros ex.
    destruct (storagePutInternal_shape ex w)
      as [[Hf Hic] | (e & s0 & p' & key & value & c & s & Hs' & He & ->)].
    - split; [exact Hf | rewrite Hic; reflexivity].
    - rewrite Hs in Hs'. injection Hs' as <- _. simpl in He. injection He as <-.
      pose proof (putWithContextAndFlags_cases (on_stack s w) p sc key value c Hp)
        as Hcases.
      cbv zeta in Hcases. unfold put_refused in Hcases. rewrite Hro in Hcases.
      exact Hcases. }
  destruct op; simpl.
  - exact (Hput false).
  - exact (Hput true).
  - unfold storageDelete, deref. run. rewrite Hs. simpl. rewrite Hp, Hro.
    split; reflexivity.
Qed.

(** X11: through a read-only handle nothing is written.  With a handle to a
    read-only record at the top of the stack, [Put], [PutEx] and [Delete]
    fail, whatever lies beneath it, and the DAO is as it was. *)
Theorem read_only_handle_never_writes
    (op : storage_write) (w : World) (p : nat) (sc : StorageContext) (rest : list Item) :
  estack (v w) = Interop (VStorageContext p) :: rest ->
  heap w !! p = Some sc ->
  sc_ReadOnly sc = true ->
  succeeded (run_write op w) = false
  /\ DAO (ic (snd (run_write op w))) = DAO (ic w).
Proof. exact (read_only_write_fails op w p sc rest). Qed.

(** What [asReadOnly] leaves on a handle. *)
Lemma storageContextAsReadOnly_run
    (w : World) (p : nat) (h : StorageContext) (rest : list Item) :
  estack (v w) = Interop (VStorageContext p) :: rest ->
  heap w !! p = Some h ->
  exists p' h' w',
    storageContextAsReadOnly w = (Ret tt, w')
    /\ estack (v w') = Interop (VStorageContext p') :: rest
    /\ heap w' !! p' = Some h'
    /\ sc_ReadOnly h' = true
    /\ sc_ID h' = sc_ID h
    /\ ic w' = ic w.
Proof.
  intros Hs Hp. unfold storageContextAsReadOnly, deref, alloc. run.
  rewrite Hs. simpl. rewrite Hp.
  destruct (sc_ReadOnly h) eqn:Hro; simpl.
  - exists p, h. eexists. repeat split; try reflexivity; assumption.
  - exists (length (heap w)), {| sc_ID := sc_ID h; sc_ReadOnly := true |}.
    eexists. repeat split; try reflexivity.
    simpl. rewrite lookup_app_r by lia. rewrite Nat.sub_diag. reflexivity.
Qed.

(** X12: a handle passed through [asReadOnly] no longer writes.  [asReadOnly]
    followed by [Put], [PutEx] or [Delete] on the handle it leaves fails, and
    the DAO is as it was before the two. *)
Theorem asReadOnly_then_write_fails
    (op : storage_write) (w : World) (p : nat) (h : StorageContext) (rest : list Item) :
  estack (v w) = Interop (VStorageContext p) :: rest ->
  heap w !! p = Some h ->
  succeeded ((storageContextAsReadOnly ;;; run_write op) w) = false
  /\ DAO (ic (snd ((storageContextAsReadOnly ;;; run_write op) w))) = DAO (ic w).
Proof.
  intros Hs Hp.
  destruct (storageContextAsReadOnly_run w p h rest Hs Hp)
    as (p' & h' & w' & Hrun & Hs' & Hp' & Hro & _ & Hic).
  unfold bind. rewrite Hrun.
  destruct (read_only_write_fails op w' p' h' rest Hs' Hp' Hro) as [Hf Hd].
  split; [exact Hf |]. rewrite Hd, Hic. reflexivity.
Qed.

Lemma putWithContextAndFlags_other_id
    (w : World) (p : nat) (sc : StorageContext) (key' value : Bytes) (c : bool)
    (id : Z) (key : Bytes) :
  heap w !! p = Some sc ->
  id <> sc_ID sc ->
  stored (snd (putWithContextAndFlags p key' value c w)) id key = stored w id key.
Proof.
  intros Hp Hne. unfold stored.
  unfold putWithContextAndFlags, deref, DAO_GetStorageItem, AddGas, DAO_PutStorageItem.
  run.
  destruct (len key' >? MaxStorageKeyLen); simpl; [reflexivity |].
  rewrite Hp.
  destruct (sc_ReadOnly sc); simpl; [reflexivity |].
  destruct (si_IsConst (default _ _)); simpl; [reflexivity |].
  destruct (gasFits _ _); simpl; [| reflexivity].
  apply lookup_insert_ne. congruence.
Qed.

(** X13: a handle writes under its own contract id only.  Whatever lies
    beneath a handle on the stack, [Put], [PutEx] and [Delete] through it,
    failing or not, leave every item stored under another contract id as it
    was. *)
Theorem writes_stay_in_namespace
    (op : storage_write) (w : World) (p : nat) (sc : StorageContext)
    (rest : list Item) (id : Z) (key : Bytes) :
  estack (v w) = Interop (VStorageContext p) :: rest ->
  heap w !! p = Some sc ->
  id <> sc_ID sc ->
  stored (snd (run_write op w)) id key = stored w id key.
Proof.
  intros Hs Hp Hne.
  assert (Hput : forall ex, stored (snd (storagePutInternal ex w)) id key = stored w id key).
  { intros ex.
    destruct (storagePutInternal_shape ex w)
      as [[_ Hic] | (e & s0 & p' & key' & value & c & s & Hs' & He & ->)].
    - unfold stored. rewrite Hic. reflexivity.
    - rewrite Hs in Hs'. injection Hs' as <- _. simpl in He. injection He as <-.
      exact (putWithContextAndFlags_other_id (on_stack s w) p sc key' value c id key
               Hp Hne). }
  destruct op; simpl.
  - exact (Hput false).
  - exact (Hput true).
  - unfold stored.
    unfold storageDelete, deref, DAO_GetStorageItem, DAO_DeleteStorageItem, Element_Bytes.
    run. rewrite Hs. simpl. rewrite Hp.
    destruct (sc_ReadOnly sc); simpl; [reflexivity |].
    destruct rest as [| ke s2]; simpl; [reflexivity |].
    destruct (TryBytes ke) as [key' |]; simpl; [| reflexivity].
    destruct (match dao_storage (DAO (ic w)) !! (sc_ID sc, key') with
              | Some i => si_IsConst i
              | None => false
              end); simpl; [reflexivity |].
    apply lookup_delete_ne. congruence.
Qed.

End StorageInvariants.

Section Contexts.

Context {ext : Externals}.

(** What the two context getters leave under a contract with storage. *)
Lemma storageGetContext_run (w : World) (c : Contract) :
  caller_state w = Some c ->
  HasStorage c = true ->
  storageGetContext w
  = (Ret tt,
     on_stack (Interop (VStorageContext (length (heap w))) :: estack (v w))
       (with_heap (heap w ++ [{| sc_ID := c_ID c; sc_ReadOnly := false |}]) w))
  /\ storageGetReadOnlyContext w
     = (Ret tt,
        on_stack (Interop (VStorageContext (length (heap w))) :: estack (v w))
          (with_heap (heap w ++ [{| sc_ID := c_ID c; sc_ReadOnly := true |}]) w)).
Proof.
  intros Hc Hst. unfold caller_state in Hc.
  unfold storageGetContext, storageGetReadOnlyContext, GetCurrentScriptHash,
    DAO_GetContractState, alloc.
  run. rewrite Hc, Hst. simpl. split; reflexivity.
Qed.

(** X14: under a running contract that has the storage feature,
    [getContext] and [getReadOnlyContext] succeed and push a handle to a new
    record that carries the contract's id, writable for the first and
    read-only for the second; the records that existed are as they were.
    Under a running script with no contract state both fail and change
    nothing. *)
Theorem context_getters
    (w : World) :
  (forall c, caller_state w = Some c -> HasStorage c = true ->
     forall ro,
       let r := (if ro : bool then storageGetReadOnlyContext else storageGetContext) w in
       fst r = Ret tt
       /\ estack (v (snd r))
          = Interop (VStorageContext (length (heap w))) :: estack (v w)
       /\ heap (snd r) !! length (heap w)
          = Some {| sc_ID := c_ID c; sc_ReadOnly := ro |}
       /\ (forall q x, heap w !! q = Some x -> heap (snd r) !! q = Some x)
       /\ ic (snd r) = ic w)
  /\ (caller_state w = None ->
      storageGetContext w = (Err errKeyNotFound, w)
      /\ storageGetReadOnlyContext w = (Err errKeyNotFound, w)).
Proof.
  split.
  - intros c Hc Hst ro.
    destruct (storageGetContext_run w c Hc Hst) as [Hrw Hro].
    destruct ro; cbv zeta; [rewrite Hro | rewrite Hrw]; simpl.
    all: repeat split; try reflexivity.
    all: try (rewrite lookup_app_r by lia; rewrite Nat.sub_diag; reflexivity).
    all: intros q x Hq; apply lookup_app_l_Some; exact Hq.
  - intros Hc. unfold caller_state in Hc.
    unfold storageGetContext, storageGetReadOnlyContext, GetCurrentScriptHash,
      DAO_GetContractState.
    run. rewrite Hc. split; reflexivity.
Qed.

(** X15: the handle of [getContext] writes into the storage of the running
    contract.  With a key and a value on the stack, [getContext] followed by
    [Put] succeeds, when the put is not refused, and the value stands under
    the key and the id of the contract stored under the running script
    hash. *)
Theorem getContext_then_put
    (w : World) (c : Contract) (ke ve : Item) (rest : list Item) (key value : Bytes) :
  estack (v w) = ke :: ve :: rest ->
  caller_state w = Some c ->
  HasStorage c = true ->
  TryBytes ke = Some key ->
  TryBytes ve = Some value ->
  put_refused w {| sc_ID := c_ID c; sc_ReadOnly := false |} key value = false ->
  fst ((storageGetContext ;;; storagePut) w) = Ret tt
  /\ stored (snd ((storageGetContext ;;; storagePut) w)) (c_ID c) key
     = Some {| si_Value := value; si_IsConst := false |}
  /\ estack (v (snd ((storageGetContext ;;; storagePut) w))) = rest.
Proof.
  intros Hs Hc Hst Hk Hv Hnot.
  destruct (storageGetContext_run w c Hc Hst) as [Hrun _].
  unfold bind. rewrite Hrun. unfold storagePut.
  erewrite (storagePutInternal_args false _ (length (heap w)) ke ve (BigInteger 0)
              rest key value 0);
    [| simpl; rewrite Hs; reflexivity | exact Hk | exact Hv | reflexivity].
  erewrite putWithContextAndFlags_written;
    [| simpl; rewrite lookup_app_r by lia; rewrite Nat.sub_diag; reflexivity
     | exact Hnot].
  unfold stored. simpl. rewrite lookup_insert_eq.
  repeat split; reflexivity.
Qed.

End Contexts.

Section Destroy.

Context {ext : Externals}.

(** The map handed out for a contract has, under a key, what the storage has
    under the contract's id and the key. *)
Lemma storageItemsOf_lookup (id : Z) (st : gmap (Z * Bytes) StorageItem) (k : Bytes) :
  storageItemsOf id st !! k = st !! (id, k).
Proof.
  unfold storageItemsOf.
  apply (map_fold_weak_ind
           (fun acc (m : gmap (Z * Bytes) StorageItem) => acc !! k = m !! (id, k))).
  - rewrite !lookup_empty. reflexivity.
  - intros [i1 i2] x m r Hnone IH. simpl.
    destruct (decide (i1 = id)) as [-> | Hne].
    + destruct (decide (i2 = k)) as [-> | Hk].
      * rewrite !lookup_insert_eq. reflexivity.
      * rewrite !lookup_insert_ne by congruence. exact IH.
    + rewrite lookup_insert_ne by congruence. exact IH.
Qed.

Lemma elem_of_storageItemsOf_keys
    (id : Z) (st : gmap (Z * Bytes) StorageItem) (k : Bytes) :
  k ∈ (map_to_list (storageItemsOf id st)).*1 <-> is_Some (st !! (id, k)).
Proof.
  rewrite <- storageItemsOf_lookup. split.
  - intros Hin. apply list_elem_of_fmap in Hin as [[k' x] [-> Hin]].
    apply elem_of_map_to_list in Hin. simpl. eauto.
  - intros [x Hx]. apply list_elem_of_fmap. exists (k, x). split; [reflexivity |].
    apply elem_of_map_to_list. exact Hx.
Qed.

(** The loop of deletions, as one state. *)
Lemma for_each_delete (id : Z) (l : list Bytes) (w : World) :
  for_each l (fun k => DAO_DeleteStorageItem id k) w
  = (Ret tt,
     with_ic
       (with_DAO
          (with_storage
             (foldl (fun st k => delete (id, k) st) (dao_storage (DAO (ic w))) l)
             (DAO (ic w)))
          (ic w))
       w).
Proof.
  revert w. induction l as [| k l IH]; intros w.
  - destruct w as [[ch [bl tr co st] no inv] m hp]. reflexivity.
  - cbn [for_each]. unfold bind. unfold DAO_DeleteStorageItem at 1.
    rewrite IH. reflexivity.
Qed.

Lemma foldl_delete_lookup
    (id : Z) (l : list Bytes) (st : gmap (Z * Bytes) StorageItem) (x : Z * Bytes) :
  foldl (fun st k => delete (id, k) st) st l !! x
  = if decide (x.1 = id /\ x.2 ∈ l) then None else st !! x.
Proof.
  revert st. induction l as [| k l IH]; intros st; simpl.
  - destruct (decide _) as [[_ Hin] | _]; [| reflexivity].
    apply not_elem_of_nil in Hin. contradiction.
  - rewrite IH. destruct x as [i k']. simpl.
    destruct (decide (i = id /\ k' ∈ l)) as [[-> Hin] | Hno].
    + rewrite decide_True; [reflexivity |]. split; [reflexivity |].
      apply elem_of_cons. right. exact Hin.
    + destruct (decide ((id, k) = (i, k'))) as [Heq | Hne].
      * injection Heq as <- <-. rewrite lookup_delete_eq.
        rewrite decide_True; [reflexivity |]. split; [reflexivity |].
        apply elem_of_cons. left. reflexivity.
      * rewrite lookup_delete_ne by exact Hne.
        destruct (decide (i = id /\ k' ∈ k :: l)) as [[-> Hin] | _];
          [| reflexivity].
        apply elem_of_cons in Hin as [-> | Hin]; [congruence |].
        exfalso. apply Hno. split; [reflexivity | exact Hin].
Qed.

(** X16: [contractDestroy].  Under a running script with no contract state
    it succeeds and changes nothing.  Otherwise it succeeds and the contract
    state stored under the running script hash is gone; when the contract
    has the storage feature every item under its id is gone with it, the
    constant ones too, and the items of the other ids are as they were; when
    it has not, the storage is not touched.  The VM is left as it is. *)
Theorem contractDestroy_cases (w : World) :
  (caller_state w = None -> contractDestroy w = (Ret tt, w))
  /\ (forall c, caller_state w = Some c ->
        fst (contractDestroy w) = Ret tt
        /\ dao_contracts (DAO (ic (snd (contractDestroy w))))
           = delete (f_scriptHash (current (v w))) (dao_contracts (DAO (ic w)))
        /\ (HasStorage c = true ->
            forall id key,
              stored (snd (contractDestroy w)) id key
              = if decide (id = c_ID c) then None else stored w id key)
        /\ (HasStorage c = false ->
            dao_storage (DAO (ic (snd (contractDestroy w))))
            = dao_storage (DAO (ic w)))
        /\ v (snd (contractDestroy w)) = v w
        /\ heap (snd (contractDestroy w)) = heap w).
Proof.
  unfold caller_state. split.
  - intros Hc. unfold contractDestroy, GetCurrentScriptHash, DAO_GetContractState.
    run. rewrite Hc. reflexivity.
  - intros c Hc.
    unfold contractDestroy, GetCurrentScriptHash, DAO_GetContractState,
      DAO_DeleteContractState, DAO_GetStorageItems.
    run. rewrite Hc. simpl.
    destruct (HasStorage c) eqn:Hst.
    + rewrite for_each_delete. simpl.
      repeat split; try reflexivity; try discriminate.
      intros _ id key. unfold stored. simpl. rewrite foldl_delete_lookup. simpl.
      destruct (decide (id = c_ID c)) as [-> | Hne].
      * destruct (dao_storage (DAO (ic w)) !! (c_ID c, key)) as [si |] eqn:Hsi.
        -- rewrite decide_True; [reflexivity |]. split; [reflexivity |].
           apply elem_of_storageItemsOf_keys. rewrite Hsi. eauto.
        -- destruct (decide _); reflexivity.
      * rewrite decide_False; [reflexivity |]. intros [Heq _]. contradiction.
    + simpl. repeat split; try reflexivity; try discriminate.
Qed.

End Destroy.

Section MoreCalls.

Context {ext : Externals}.

Lemma last_cons_default {A : Type} (x d : A) (l : list A) :
  List.last (x :: l) d = List.last l x.
Proof.
  revert x d. induction l as [| y l IH]; intros x d; [reflexivity |].
  change (List.last (x :: y :: l) d) with (List.last (y :: l) d).
  rewrite IH. symmetry. apply IH.
Qed.

(** X17: a call that fails has done nothing: no invocation counter is
    incremented, no frame is mounted, no item is pushed; the state is the one
    the call found. *)
Theorem contractCall_failure_changes_nothing
    (w : World) (h : Bytes) (method args : Item) (f : Z) :
  succeeded (contractCallExInternal h method args f w) = false ->
  snd (contractCallExInternal h method args f w) = w.
Proof.
  unfold succeeded, contractCallExInternal, DAO_GetContractState,
    GetCurrentScriptHash, LoadScriptWithHash.
  run.
  destruct (Uint160DecodeBytesBE h) as [u |]; simpl; [| reflexivity].
  destruct (dao_contracts (DAO (ic w)) !! u) as [cs |]; simpl; [| reflexivity].
  destruct (TryBytes method) as [bs |]; simpl; [| reflexivity].
  destruct (dao_contracts (DAO (ic w)) !! f_scriptHash (current (v w)))
    as [curr |]; simpl.
  - destruct (CanCall (c_Manifest curr) (c_Manifest cs) bs); simpl;
      [discriminate | reflexivity].
  - discriminate.
Qed.

(** X18: a call that succeeds changes, besides the frames and the stack,
    one invocation counter only: the counters of the other script hashes, the
    DAO, the notifications, the heap and the gas meter are as they were. *)
Theorem contractCall_touches_one_counter
    (w : World) (h : Bytes) (method args : Item) (f : Z) :
  fst (contractCallExInternal h method args f w) = Ret tt ->
  exists u,
    Uint160DecodeBytesBE h = Some u
    /\ (forall u', u' <> u ->
          Invocations (ic (snd (contractCallExInternal h method args f w))) !! u'
          = Invocations (ic w) !! u')
    /\ DAO (ic (snd (contractCallExInternal h method args f w))) = DAO (ic w)
    /\ Notifications (ic (snd (contractCallExInternal h method args f w)))
       = Notifications (ic w)
    /\ heap (snd (contractCallExInternal h method args f w)) = heap w
    /\ gasConsumed (v (snd (contractCallExInternal h method args f w)))
       = gasConsumed (v w)
    /\ GasLimit (v (snd (contractCallExInternal h method args f w)))
       = GasLimit (v w).
Proof.
  intros Hok.
  destruct (contractCall_success_inv w h method args f Hok)
    as (u & cs & bs & Hu & _ & _ & _ & ->).
  exists u. simpl. repeat split; try reflexivity; try assumption.
  intros u' Hne. apply lookup_insert_ne. congruence.
Qed.

(** X19: call flags are only lost down the invocation stack.  After calls
    made one inside the other that all succeed, every flag bit of the running
    frame is a bit of the frame that made the first call; the invocation
    stack has grown by one frame for each call, and its outermost frame is
    the same. *)
Theorem call_chain_keeps_flags_within
    (l : list (Bytes * Item * Item * Z)) (w : World) :
  fst (call_chain l w) = Ret tt ->
  (forall i, Z.testbit (f_callFlag (current (v (snd (call_chain l w))))) i = true ->
             Z.testbit (f_callFlag (current (v w))) i = true)
  /\ length (callers (v (snd (call_chain l w))))
     = (length (callers (v w)) + length l)%nat
  /\ entry_frame (v (snd (call_chain l w))) = entry_frame (v w).
Proof.
  unfold call_chain. revert w. induction l as [| [[[h m] a] f] l IH]; intros w.
  - intros _. simpl. repeat split; auto.
  - cbn [for_each]. unfold bind at 1 2 3 4. cbn [fst snd].
    destruct (contractCallExInternal h m a f w) as [[[] | e] w1] eqn:Hcall;
      [| discriminate].
    intros Hrest.
    assert (Hok : fst (contractCallExInternal h m a f w) = Ret tt)
      by (rewrite Hcall; reflexivity).
    destruct (contractCall_success_inv w h m a f Hok)
      as (u & cs & bs & _ & _ & _ & _ & Hw1).
    rewrite Hcall in Hw1. simpl in Hw1.
    destruct (IH w1 Hrest) as (Hbits & Hlen & Hentry).
    split; [| split].
    + intros i Hi. apply Hbits in Hi. rewrite Hw1 in Hi. simpl in Hi.
      rewrite Z.land_spec in Hi. apply andb_true_iff in Hi as [Hi _]. exact Hi.
    + rewrite Hlen, Hw1. simpl. lia.
    + rewrite Hentry, Hw1. unfold entry_frame.
      cbn [v callers current]. apply last_cons_default.
Qed.

End MoreCalls.

Section MoreRuntime.

Context {ext : Externals}.

(** One notification of an item that serializes. *)
Lemma runtimeNotify_serializable (w : World) (x : Item) (rest : list Item) (b : Bytes) :
  estack (v w) = x :: rest ->
  SerializeItem x = inr b ->
  runtimeNotify w
  = (Ret tt,
     with_ic
       (with_Notifications
          (Notifications (ic w)
             ++ [{| ne_ScriptHash := f_scriptHash (current (v w)); ne_Item := x |}])
          (ic w))
       (on_stack rest w)).
Proof.
  intros Hs Hser. unfold runtimeNotify, GetCurrentScriptHash. run.
  rewrite Hs. simpl. rewrite Hser. reflexivity.
Qed.

(** X20: notifications are kept in the order of the calls.  Notifying, one
    after the other, the items at the top of the stack, all of which
    serialize, appends one event for each to the notifications there were,
    in the order in which the items were popped, each tagged with the running
    script hash; the items are popped and nothing else changes. *)
Theorem notifications_in_order (xs rest : list Item) (w : World) :
  estack (v w) = xs ++ rest ->
  Forall (fun x => exists b, SerializeItem x = inr b) xs ->
  notify_times (length xs) w
  = (Ret tt,
     with_ic
       (with_Notifications
          (Notifications (ic w)
             ++ map (fun x => {| ne_ScriptHash := f_scriptHash (current (v w));
                                 ne_Item := x |}) xs)
          (ic w))
       (on_stack rest w)).
Proof.
  unfold notify_times. revert w. induction xs as [| x xs IH]; intros w Hs Hall.
  - simpl in *. unfold ret. rewrite app_nil_r.
    destruct w as [[ch d no inv] [st cu ca g gl] hp]. simpl in Hs. subst st.
    reflexivity.
  - apply Forall_cons in Hall as [[b Hb] Hall].
    cbn [length replicate for_each]. unfold bind.
    rewrite (runtimeNotify_serializable w x (xs ++ rest) b Hs Hb).
    rewrite IH; [| reflexivity | exact Hall].
    simpl. rewrite <- app_assoc. reflexivity.
Qed.

Lemma lookup_entry_frame (c : Frame) (cs : list Frame) :
  (c :: cs) !! (length (c :: cs) - 1)%nat = Some (List.last cs c).
Proof.
  revert c. induction cs as [| d cs IH]; intros c; [reflexivity |].
  replace (length (c :: d :: cs) - 1)%nat with (S (length (d :: cs) - 1))
    by (simpl; lia).
  change ((d :: cs) !! (length (d :: cs) - 1)%nat = Some (List.last (d :: cs) c)).
  rewrite IH. f_equal. symmetry. apply last_cons_default.
Qed.

(** X21: the script hashes a callee sees.  After a call that succeeds, the
    executing script hash read by the callee is the target's, the calling
    script hash is the one of the frame that made the call, and the entry
    script hash is the one of the outermost frame, as it was before the call;
    each is pushed as its 20 big-endian bytes. *)
Theorem script_hashes_after_call
    (w : World) (h : Bytes) (method args : Item) (f : Z) :
  fst (contractCallExInternal h method args f w) = Ret tt ->
  exists u w',
    Uint160DecodeBytesBE h = Some u
    /\ snd (contractCallExInternal h method args f w) = w'
    /\ engineGetExecutingScriptHash w'
       = (Ret tt, on_stack (ByteArray (Uint160_BytesBE u) :: estack (v w')) w')
    /\ engineGetCallingScriptHash w'
       = (Ret tt,
          on_stack (ByteArray (Uint160_BytesBE (f_scriptHash (current (v w))))
                      :: estack (v w')) w')
    /\ engineGetEntryScriptHash w'
       = (Ret tt,
          on_stack (ByteArray (Uint160_BytesBE (f_scriptHash (entry_frame (v w))))
                      :: estack (v w')) w').
Proof.
  intros Hok.
  destruct (contractCall_success_inv w h method args f Hok)
    as (u & cs & bs & Hu & _ & _ & _ & Hw').
  exists u. eexists. split; [exact Hu |]. split; [exact Hw' |].
  unfold engineGetExecutingScriptHash, engineGetCallingScriptHash,
    engineGetEntryScriptHash, PushContextScriptHash.
  run. cbn [v current callers].
  split; [reflexivity |]. split; [reflexivity |].
  rewrite lookup_entry_frame. unfold entry_frame.
  rewrite last_cons_default. reflexivity.
Qed.

(** X22: [contractIsStandard] on a 20-byte hash.  A hash under which no
    contract is stored counts as standard: the handler pushes true; for a
    stored contract it pushes what the template test says of its script.
    Bytes that are no 20-byte hash are an error. *)
Theorem contractIsStandard_cases
    (isStandard : Bytes -> bool) (w : World) (he : Item) (rest : list Item) (h : Bytes) :
  estack (v w) = he :: rest ->
  TryBytes he = Some h ->
  (len h <> 20 ->
     contractIsStandard isStandard w = (Err errBadHash, on_stack rest w))
  /\ (forall u, Uint160DecodeBytesBE h = Some u ->
        (dao_contracts (DAO (ic w)) !! u = None ->
           contractIsStandard isStandard w
           = (Ret tt, on_stack (Bool true :: rest) w))
        /\ (forall c, dao_contracts (DAO (ic w)) !! u = Some c ->
              contractIsStandard isStandard w
              = (Ret tt, on_stack (Bool (isStandard (c_Script c)) :: rest) w))).
Proof.
  intros Hs Hh.
  unfold contractIsStandard, DAO_GetContractState, Element_Bytes. run.
  rewrite Hs. simpl. rewrite Hh. simpl. split.
  - intros Hlen. unfold Uint160DecodeBytesBE.
    destruct (Z.eqb_spec (len h) 20) as [Heq | _]; [contradiction | reflexivity].
  - intros u ->. simpl. split.
    + intros ->. reflexivity.
    + intros c ->. reflexivity.
Qed.

End MoreRuntime.

Section RPC.

(** X23: the confirmations of a header, a [uint32].  For a header at or
    below the chain's height [NewHeader] counts the blocks from it to the
    tip, the tip included, so that the tip itself has one confirmation; the
    one exception is the header of index 0 under the height [2 ^ 32 - 1],
    whose count of [2 ^ 32] wraps to zero.  For the header right above the
    height it counts zero; and for a header further above the [uint32]
    difference wraps around to a number just below [2 ^ 32]. *)
Theorem NewHeader_confirmations
    (GetVarSize : result.BlockHeader -> Z) (h : result.BlockHeader) (chain : Blockchainer) :
  0 <= result.h_Index h < 2 ^ 32 ->
  0 <= BlockHeight chain < 2 ^ 32 ->
  (result.h_Index h <= BlockHeight chain ->
     result.Confirmations (result.NewHeader GetVarSize h chain)
     = if (result.h_Index h =? 0) && (BlockHeight chain =? MaxUint32)
       then 0
       else BlockHeight chain - result.h_Index h + 1)
  /\ (result.h_Index h = BlockHeight chain + 1 ->
      result.Confirmations (result.NewHeader GetVarSize h chain) = 0)
  /\ (BlockHeight chain + 1 < result.h_Index h ->
      result.Confirmations (result.NewHeader GetVarSize h chain)
      = 2 ^ 32 - (result.h_Index h - BlockHeight chain - 1)).
Proof.
  intros Hi Hh. unfold result.NewHeader, result.Confirmations, wrap_unsigned, MaxUint32.
  split; [| split].
  - intros Hle.
    rewrite (Z.mod_small (BlockHeight chain - result.h_Index h)) by lia.
    destruct (Z.eqb_spec (result.h_Index h) 0) as [H0 | H0];
      [destruct (Z.eqb_spec (BlockHeight chain) 4294967295) as [Hm | Hm] |]; simpl.
    + rewrite H0, Hm. reflexivity.
    + apply Z.mod_small. lia.
    + apply Z.mod_small. lia.
  - intros ->.
    replace (BlockHeight chain - (BlockHeight chain + 1)) with (-1) by lia.
    reflexivity.
  - intros Hgt.
    replace (BlockHeight chain - result.h_Index h)
      with (2 ^ 32 - (result.h_Index h - BlockHeight chain) + (-1) * 2 ^ 32) by lia.
    rewrite Z_mod_plus_full.
    rewrite (Z.mod_small (2 ^ 32 - (result.h_Index h - BlockHeight chain))) by lia.
    rewrite Z.mod_small by lia. lia.
Qed.

Variable Uint160DecodeStringLE : string -> outcome Uint160.

(** X24: [GetUint160FromHex] takes a hash with or without the prefix "0x",
    and only a prefix in front of 40 characters is one: a string of 40
    characters decodes the same with "0x" in front of it, and in front of a
    string of another length "0x" is handed to the decoder with the rest. *)
Theorem GetUint160FromHex_prefix (t : Z) (s : string) :
  (String.length s = 40%nat ->
     request.GetUint160FromHex Uint160DecodeStringLE
       (request.mkParam t (request.VString ("0x" ++ s)))
     = Uint160DecodeStringLE s
     /\ request.GetUint160FromHex Uint160DecodeStringLE
          (request.mkParam t (request.VString s))
        = Uint160DecodeStringLE s)
  /\ (String.length s <> 40%nat ->
      request.GetUint160FromHex Uint160DecodeStringLE
        (request.mkParam t (request.VString ("0x" ++ s)))
      = Uint160DecodeStringLE ("0x" ++ s)).
Proof.
  unfold request.GetUint160FromHex, request.GetString, request.Uint160Size.
  change (String.append "0x" s) with (String "0"%char (String "x"%char s)).
  cbn [request.Value String.length].
  change (2 * 20 + 2)%nat with 42%nat.
  split.
  - intros Hlen. rewrite Hlen. split; [reflexivity |].
    destruct s as [| a [| b r]]; [discriminate Hlen | discriminate Hlen |].
    cbn [String.length] in Hlen |- *.
    destruct (Nat.eqb_spec (S (S (String.length r))) 42) as [Heq | _];
      [lia |].
    destruct a as [[] [] [] [] [] [] [] []]; try reflexivity.
    destruct b as [[] [] [] [] [] [] [] []]; reflexivity.
  - intros Hlen.
    destruct (Nat.eqb_spec (S (S (String.length s))) 42) as [Heq | _];
      [lia | reflexivity].
Qed.

Lemma uint160s_spec (a : list request.Param) (xs : list Uint160) :
  request.uint160s Uint160DecodeStringLE a = Ret xs
  <-> Forall2 (fun u x => request.GetUint160FromHex Uint160DecodeStringLE u = Ret x) a xs.
Proof.
  revert xs. induction a as [| u a IH]; intros xs; simpl.
  - split.
    + intros Heq. injection Heq as <-. constructor.
    + intros Hf. inversion Hf. reflexivity.
  - destruct (request.GetUint160FromHex Uint160DecodeStringLE u) as [x |] eqn:Hu.
    + destruct (request.uint160s Uint160DecodeStringLE a) as [ys |] eqn:Hr.
      * split.
        -- intros Heq. injection Heq as <-. constructor; [exact Hu |].
           apply IH. reflexivity.
        -- intros Hf. inversion Hf as [| ? y ? ys' Hy Hys]; subst.
           rewrite Hu in Hy. injection Hy as <-.
           apply IH in Hys. injection Hys as <-. reflexivity.
      * split; [discriminate |].
        intros Hf. inversion Hf as [| ? y ? ys' Hy Hys]; subst.
        apply IH in Hys. discriminate.
    + split; [discriminate |].
      intros Hf. inversion Hf as [| ? y ? ys' Hy Hys]; subst.
      rewrite Hu in Hy. discriminate.
Qed.

(** X25: [GetUint160Slice] is all or nothing.  On an array it returns the
    hashes exactly when every element decodes with [GetUint160FromHex], one
    hash for each element and in the order of the array; an element that
    does not decode after elements that all do makes it fail with that
    element's error.  On a value that is no array it fails. *)
Theorem GetUint160Slice_all_or_nothing (t : Z) (a : list request.Param) :
  (forall xs,
     request.GetUint160Slice Uint160DecodeStringLE (request.mkParam t (request.VArray a))
     = Ret xs
     <-> Forall2
           (fun u x => request.GetUint160FromHex Uint160DecodeStringLE u = Ret x) a xs)
  /\ (forall pre u post e xs,
        a = pre ++ u :: post ->
        Forall2
          (fun u x => request.GetUint160FromHex Uint160DecodeStringLE u = Ret x) pre xs ->
        request.GetUint160FromHex Uint160DecodeStringLE u = Err e ->
        request.GetUint160Slice Uint160DecodeStringLE (request.mkParam t (request.VArray a))
        = Err e)
  /\ (forall p,
        (forall a', request.Value p <> request.VArray a') ->
        request.GetUint160Slice Uint160DecodeStringLE p = Err (errors_New "not an array")).
Proof.
  unfold request.GetUint160Slice, request.GetArray. simpl. split; [| split].
  - intros xs. apply uint160s_spec.
  - intros pre u post e xs -> Hpre Hu.
    induction Hpre as [| v x pre xs Hv Hpre IH]; simpl.
    + rewrite Hu. reflexivity.
    + rewrite Hv, IH. reflexivity.
  - intros [t' x] Hp. destruct x; simpl; try reflexivity.
    exfalso. eapply Hp. reflexivity.
Qed.

End RPC.

(** ** The further properties on the sample states *)

Section OnMoreSamples.

#[local] Existing Instance reference.

(** The tip of a chain of height 1 is within the window. *)
Lemma isTraceableBlock_window_witness :
  0 <= 1
  /\ 0 <= MaxTraceableBlocks
  /\ 1 + MaxTraceableBlocks < 2 ^ 32
  /\ (isTraceableBlock (ic (worldAtTip [])) 1 = true
      <-> 1 <= BlockHeight (Chain (ic (worldAtTip [])))
          /\ BlockHeight (Chain (ic (worldAtTip []))) < 1 + MaxTraceableBlocks).
Proof.
  assert (H0 : 0 <= 1) by lia.
  assert (Hm : 0 <= MaxTraceableBlocks) by (cbn; lia).
  assert (Hs : 1 + MaxTraceableBlocks < 2 ^ 32) by (cbn; lia).
  split; [exact H0 |]. split; [exact Hm |]. split; [exact Hs |].
  exact (proj2 (isTraceableBlock_window (ic (worldAtTip [])) 1) H0 Hm Hs).
Defined.

(** The bytes of hash 9 are read back as 9; index 1 is resolved by the
    chain. *)
Lemma getBlockHashFromElement_cases_witness :
  0 <= 9 < 2 ^ 256
  /\ getBlockHashFromElement (sampleChain 1 ∅) (ByteArray (Uint256_BytesBE 9)) = Ret 9
  /\ len (bigint_ToBytes 1) <= 5
  /\ - 2 ^ 63 <= 1 < 2 ^ 63
  /\ getBlockHashFromElement (sampleChain 1 ∅) (BigInteger 1)
     = Ret (GetHeaderHash (sampleChain 1 ∅) 1).
Proof.
  assert (Hh : 0 <= 9 < 2 ^ 256) by lia.
  assert (Hl : len (bigint_ToBytes 1) <= 5) by (vm_compute; discriminate).
  assert (Hz : - 2 ^ 63 <= 1 < 2 ^ 63) by lia.
  split; [exact Hh |].
  split; [exact (proj1 (getBlockHashFromElement_cases (sampleChain 1 ∅)) 9 Hh) |].
  split; [exact Hl |]. split; [exact Hz |].
  exact (proj2 (proj2 (getBlockHashFromElement_cases (sampleChain 1 ∅))) 1 Hl Hz).
Defined.

(** The sample block is the tip: [getBlock] gives its 8 items. *)
Lemma getBlock_traceable_witness :
  estack (v (worldAtTip [blockElement])) = [blockElement]
  /\ getBlockHashFromElement (Chain (ic (worldAtTip [blockElement]))) blockElement = Ret 9
  /\ chain_GetBlock (Chain (ic (worldAtTip [blockElement]))) 9 = Some (sampleBlock 1)
  /\ isTraceableBlock (ic (worldAtTip [blockElement])) (b_Index (sampleBlock 1)) = true
  /\ exists items,
       bcGetBlock (worldAtTip [blockElement])
       = (Ret tt, on_stack [Array items] (worldAtTip [blockElement]))
       /\ length items = 8%nat
       /\ items !! 5%nat = Some (BigInteger 1).
Proof.
  assert (Hh : getBlockHashFromElement (Chain (ic (worldAtTip [blockElement]))) blockElement
               = Ret 9) by (vm_compute; reflexivity).
  assert (Hb : chain_GetBlock (Chain (ic (worldAtTip [blockElement]))) 9
               = Some (sampleBlock 1)) by (vm_compute; reflexivity).
  assert (Ht : isTraceableBlock (ic (worldAtTip [blockElement])) (b_Index (sampleBlock 1))
               = true) by (vm_compute; reflexivity).
  split; [reflexivity |]. split; [exact Hh |]. split; [exact Hb |]. split; [exact Ht |].
  destruct (getBlock_traceable (worldAtTip [blockElement]) blockElement [] 9
              (sampleBlock 1) eq_refl Hh Hb Ht)
    as (items & Hrun & Hlen & _ & _ & Hidx & _).
  exists items. split; [exact Hrun |]. split; [exact Hlen | exact Hidx].
Defined.

(** The timestamp of a block, a [uint64], is pushed as the [int64] of the
    same bits: the sample timestamp as it is, a timestamp from [2 ^ 63] on as
    a negative integer. *)
Example blockToStackItem_timestamp :
  (exists items, blockToStackItem (sampleBlock 1) = Array items
                 /\ items !! 4%nat = Some (BigInteger 1600000000))
  /\ wrap_signed 64 (2 ^ 63) = - 2 ^ 63
  /\ wrap_signed 64 (2 ^ 64 - 1) = - 1.
Proof.
  split; [| split; vm_compute; reflexivity].
  eexists. split; [reflexivity |]. vm_compute. reflexivity.
Qed.

(** The sample transaction, of height 1, under tip 1. *)
Lemma getTransaction_traceable_witness :
  estack (v (worldAtTip [txElement])) = [txElement]
  /\ TryBytes txElement = Some (Uint256_BytesBE 7)
  /\ Uint256DecodeBytesBE (Uint256_BytesBE 7) = Some 7
  /\ dao_transactions (DAO (ic (worldAtTip [txElement]))) !! 7 = Some (sampleTx, 1)
  /\ isTraceableBlock (ic (worldAtTip [txElement])) 1 = true
  /\ bcGetTransactionHeight (worldAtTip [txElement])
     = (Ret tt, on_stack [BigInteger 1] (worldAtTip [txElement])).
Proof.
  assert (Hd : Uint256DecodeBytesBE (Uint256_BytesBE 7) = Some 7)
    by (vm_compute; reflexivity).
  assert (Htx : dao_transactions (DAO (ic (worldAtTip [txElement]))) !! 7
                = Some (sampleTx, 1)) by (vm_compute; reflexivity).
  assert (Ht : isTraceableBlock (ic (worldAtTip [txElement])) 1 = true)
    by (vm_compute; reflexivity).
  split; [reflexivity |]. split; [reflexivity |]. split; [exact Hd |].
  split; [exact Htx |]. split; [exact Ht |].
  exact (proj2 (getTransaction_traceable (worldAtTip [txElement]) txElement []
                  (Uint256_BytesBE 7) 7 sampleTx 1 eq_refl eq_refl Hd Htx Ht)).
Defined.

(** No transaction is stored under hash 5. *)
Lemma lookup_of_unknown_target_witness :
  estack (v (worldAtTip [ByteArray (Uint256_BytesBE 5)])) = [ByteArray (Uint256_BytesBE 5)]
  /\ element_resolves getTransactionHeight (worldAtTip [ByteArray (Uint256_BytesBE 5)])
       (ByteArray (Uint256_BytesBE 5)) = true
  /\ target_height getTransactionHeight (worldAtTip [ByteArray (Uint256_BytesBE 5)])
       (ByteArray (Uint256_BytesBE 5)) = None
  /\ run_lookup getTransactionHeight (worldAtTip [ByteArray (Uint256_BytesBE 5)])
     = (Ret tt, on_stack [BigInteger (-1)] (worldAtTip [ByteArray (Uint256_BytesBE 5)])).
Proof.
  assert (Hr : element_resolves getTransactionHeight
                 (worldAtTip [ByteArray (Uint256_BytesBE 5)])
                 (ByteArray (Uint256_BytesBE 5)) = true) by reflexivity.
  assert (Ht : target_height getTransactionHeight
                 (worldAtTip [ByteArray (Uint256_BytesBE 5)])
                 (ByteArray (Uint256_BytesBE 5)) = None) by (vm_compute; reflexivity).
  split; [reflexivity |]. split; [exact Hr |]. split; [exact Ht |].
  exact (lookup_of_unknown_target getTransactionHeight
           (worldAtTip [ByteArray (Uint256_BytesBE 5)])
           (ByteArray (Uint256_BytesBE 5)) [] eq_refl Hr Ht).
Defined.

(** A single byte is no hash, and no fault either. *)
Lemma transaction_lookups_never_fault_witness :
  estack (v (worldAtTip [ByteArray [x01]])) = [ByteArray [x01]]
  /\ TryBytes (ByteArray [x01]) = Some [x01]
  /\ (exists x, bcGetTransaction (worldAtTip [ByteArray [x01]])
                = (Ret tt, on_stack [x] (worldAtTip [ByteArray [x01]])))
  /\ (exists z, bcGetTransactionHeight (worldAtTip [ByteArray [x01]])
                = (Ret tt, on_stack [BigInteger z] (worldAtTip [ByteArray [x01]]))).
Proof.
  split; [reflexivity |]. split; [reflexivity |].
  exact (transaction_lookups_never_fault (worldAtTip [ByteArray [x01]])
           (ByteArray [x01]) [] [x01] eq_refl eq_refl).
Defined.

(** A get through the read-only handle. *)
Lemma storageGet_reads_witness :
  estack (v (readWorld 1 storedItem)) = Interop (VStorageContext 1) :: ByteArray keyK :: []
  /\ heap (readWorld 1 storedItem) !! 1%nat = Some {| sc_ID := 42; sc_ReadOnly := true |}
  /\ TryBytes (ByteArray keyK) = Some keyK
  /\ storageGet (readWorld 1 storedItem)
     = (Ret tt, on_stack [ByteArray valueV1] (readWorld 1 storedItem)).
Proof.
  split; [reflexivity |]. split; [reflexivity |]. split; [reflexivity |].
  exact (proj1 (storageGet_reads (readWorld 1 storedItem)
                  (Interop (VStorageContext 1)) (ByteArray keyK) [] eq_refl)
           1%nat {| sc_ID := 42; sc_ReadOnly := true |} keyK eq_refl eq_refl eq_refl).
Defined.

Lemma put_then_get_witness :
  estack (v putGetWorld)
  = put_stack false 0 (ByteArray keyK) (ByteArray valueV1) (BigInteger 0)
      [Interop (VStorageContext 1); ByteArray keyK]
  /\ heap putGetWorld !! 0%nat = Some {| sc_ID := 42; sc_ReadOnly := false |}
  /\ heap putGetWorld !! 1%nat = Some {| sc_ID := 42; sc_ReadOnly := true |}
  /\ put_refused putGetWorld {| sc_ID := 42; sc_ReadOnly := false |} keyK valueV1 = false
  /\ fst ((put_handler false ;;; storageGet) putGetWorld) = Ret tt
  /\ estack (v (snd ((put_handler false ;;; storageGet) putGetWorld)))
     = [ByteArray valueV1].
Proof.
  assert (Hnot : put_refused putGetWorld {| sc_ID := 42; sc_ReadOnly := false |}
                   keyK valueV1 = false) by (vm_compute; reflexivity).
  split; [reflexivity |]. split; [reflexivity |]. split; [reflexivity |].
  split; [exact Hnot |].
  exact (put_then_get false putGetWorld 0%nat 1%nat
           {| sc_ID := 42; sc_ReadOnly := false |} {| sc_ID := 42; sc_ReadOnly := true |}
           (ByteArray keyK) (ByteArray valueV1) (BigInteger 0) (ByteArray keyK) []
           keyK valueV1 0
           eq_refl eq_refl eq_refl eq_refl eq_refl eq_refl eq_refl eq_refl Hnot).
Defined.

(** A delete of a constant item through the writable handle. *)
Lemma storageDelete_cases_witness :
  estack (v (readWorld 0 constItem)) = Interop (VStorageContext 0) :: [ByteArray keyK]
  /\ heap (readWorld 0 constItem) !! 0%nat = Some {| sc_ID := 42; sc_ReadOnly := false |}
  /\ stored (readWorld 0 constItem) 42 keyK = Some constItem
  /\ storageDelete (readWorld 0 constItem)
     = (Err (errors_New "storage item is constant"), on_stack [] (readWorld 0 constItem)).
Proof.
  assert (Hst : stored (readWorld 0 constItem) 42 keyK = Some constItem)
    by (vm_compute; reflexivity).
  split; [reflexivity |]. split; [reflexivity |]. split; [exact Hst |].
  exact (proj1 (proj2 (storageDelete_cases (readWorld 0 constItem) 0%nat
                         {| sc_ID := 42; sc_ReadOnly := false |} [ByteArray keyK]
                         eq_refl eq_refl)
                  (ByteArray keyK) [] keyK eq_refl eq_refl eq_refl)
           constItem Hst eq_refl).
Defined.

(** A delete that succeeds takes the item away. *)
Example storageDelete_removes :
  fst (storageDelete (readWorld 0 storedItem)) = Ret tt
  /\ stored (snd (storageDelete (readWorld 0 storedItem))) 42 keyK = None.
Proof. split; vm_compute; reflexivity. Qed.

Lemma constant_items_stay_witness :
  stored (readWorld 0 constItem) 42 keyK = Some constItem
  /\ si_IsConst constItem = true
  /\ stored (snd (run_write WriteDelete (readWorld 0 constItem))) 42 keyK = Some constItem.
Proof.
  assert (Hst : stored (readWorld 0 constItem) 42 keyK = Some constItem)
    by (vm_compute; reflexivity).
  split; [exact Hst |]. split; [reflexivity |].
  exact (constant_items_stay WriteDelete (readWorld 0 constItem) 42 keyK constItem
           Hst eq_refl).
Defined.

Lemma read_only_handle_never_writes_witness :
  estack (v (readWorld 1 storedItem)) = Interop (VStorageContext 1) :: [ByteArray keyK]
  /\ heap (readWorld 1 storedItem) !! 1%nat = Some {| sc_ID := 42; sc_ReadOnly := true |}
  /\ sc_ReadOnly {| sc_ID := 42; sc_ReadOnly := true |} = true
  /\ succeeded (run_write WriteDelete (readWorld 1 storedItem)) = false
  /\ DAO (ic (snd (run_write WriteDelete (readWorld 1 storedItem))))
     = DAO (ic (readWorld 1 storedItem)).
Proof.
  split; [reflexivity |]. split; [reflexivity |]. split; [reflexivity |].
  exact (read_only_handle_never_writes WriteDelete (readWorld 1 storedItem) 1%nat
           {| sc_ID := 42; sc_ReadOnly := true |} [ByteArray keyK]
           eq_refl eq_refl eq_refl).
Defined.

Lemma asReadOnly_then_write_fails_witness :
  estack (v (readWorld 0 storedItem)) = Interop (VStorageContext 0) :: [ByteArray keyK]
  /\ heap (readWorld 0 storedItem) !! 0%nat = Some {| sc_ID := 42; sc_ReadOnly := false |}
  /\ succeeded ((storageContextAsReadOnly ;;; run_write WriteDelete) (readWorld 0 storedItem))
     = false
  /\ DAO (ic (snd ((storageContextAsReadOnly ;;; run_write WriteDelete)
                     (readWorld 0 storedItem))))
     = DAO (ic (readWorld 0 storedItem)).
Proof.
  split; [reflexivity |]. split; [reflexivity |].
  exact (asReadOnly_then_write_fails WriteDelete (readWorld 0 storedItem) 0%nat
           {| sc_ID := 42; sc_ReadOnly := false |} [ByteArray keyK] eq_refl eq_refl).
Defined.

(** [getContext] under the contract with storage: the third record of the
    heap is its writable handle. *)
Lemma context_getters_witness :
  caller_state contextWorld = Some (callerContract 1 [])
  /\ HasStorage (callerContract 1 []) = true
  /\ fst (storageGetContext contextWorld) = Ret tt
  /\ estack (v (snd (storageGetContext contextWorld)))
     = Interop (VStorageContext 2) :: estack (v contextWorld)
  /\ heap (snd (storageGetContext contextWorld)) !! 2%nat
     = Some {| sc_ID := 42; sc_ReadOnly := false |}.
Proof.
  assert (Hc : caller_state contextWorld = Some (callerContract 1 []))
    by (vm_compute; reflexivity).
  split; [exact Hc |]. split; [reflexivity |].
  destruct (proj1 (context_getters contextWorld) (callerContract 1 []) Hc eq_refl false)
    as (Hok & Hst & Hhp & _).
  split; [exact Hok |]. split; [exact Hst | exact Hhp].
Defined.

Lemma getContext_then_put_witness :
  estack (v contextWorld) = ByteArray keyK :: ByteArray valueV1 :: []
  /\ caller_state contextWorld = Some (callerContract 1 [])
  /\ put_refused contextWorld {| sc_ID := c_ID (callerContract 1 []); sc_ReadOnly := false |}
       keyK valueV1 = false
  /\ fst ((storageGetContext ;;; storagePut) contextWorld) = Ret tt
  /\ stored (snd ((storageGetContext ;;; storagePut) contextWorld))
       (c_ID (callerContract 1 [])) keyK
     = Some {| si_Value := valueV1; si_IsConst := false |}
  /\ estack (v (snd ((storageGetContext ;;; storagePut) contextWorld))) = [].
Proof.
  assert (Hc : caller_state contextWorld = Some (callerContract 1 []))
    by (vm_compute; reflexivity).
  assert (Hnot : put_refused contextWorld
                   {| sc_ID := c_ID (callerContract 1 []); sc_ReadOnly := false |}
                   keyK valueV1 = false) by (vm_compute; reflexivity).
  split; [reflexivity |]. split; [exact Hc |]. split; [exact Hnot |].
  exact (getContext_then_put contextWorld (callerContract 1 [])
           (ByteArray keyK) (ByteArray valueV1) [] keyK valueV1
           eq_refl Hc eq_refl eq_refl eq_refl Hnot).
Defined.

(** The running contract is destroyed with its constant item; the item of
    id 7 stays. *)
Lemma contractDestroy_cases_witness :
  caller_state destroyWorld = Some (callerContract 1 [])
  /\ HasStorage (callerContract 1 []) = true
  /\ fst (contractDestroy destroyWorld) = Ret tt
  /\ stored (snd (contractDestroy destroyWorld)) 42 keyK = None
  /\ stored (snd (contractDestroy destroyWorld)) 7 keyK = stored destroyWorld 7 keyK.
Proof.
  assert (Hc : caller_state destroyWorld = Some (callerContract 1 []))
    by (vm_compute; reflexivity).
  split; [exact Hc |]. split; [reflexivity |].
  destruct (proj2 (contractDestroy_cases destroyWorld) (callerContract 1 []) Hc)
    as (Hok & _ & Hst & _).
  split; [exact Hok |].
  split; [exact (Hst eq_refl 42 keyK) | exact (Hst eq_refl 7 keyK)].
Defined.

Example contractDestroy_on_samples :
  stored destroyWorld 42 keyK = Some constItem
  /\ stored (snd (contractDestroy destroyWorld)) 42 keyK = None
  /\ stored (snd (contractDestroy destroyWorld)) 7 keyK = Some storedItem
  /\ dao_contracts (DAO (ic (snd (contractDestroy destroyWorld)))) !! 20 = None.
Proof. repeat split; vm_compute; reflexivity. Qed.

(** The call of [secret], which the caller's manifest does not allow. *)
Lemma contractCall_failure_changes_nothing_witness :
  succeeded (contractCallExInternal (Uint160_BytesBE 21) (ByteArray methodSecret)
               (Array []) smartcontract_All (callWorld [BigInteger 42] [methodAdd]))
  = false
  /\ snd (contractCallExInternal (Uint160_BytesBE 21) (ByteArray methodSecret)
            (Array []) smartcontract_All (callWorld [BigInteger 42] [methodAdd]))
     = callWorld [BigInteger 42] [methodAdd].
Proof.
  assert (Hf : succeeded (contractCallExInternal (Uint160_BytesBE 21)
                            (ByteArray methodSecret) (Array []) smartcontract_All
                            (callWorld [BigInteger 42] [methodAdd])) = false)
    by (vm_compute; reflexivity).
  split; [exact Hf |].
  exact (contractCall_failure_changes_nothing (callWorld [BigInteger 42] [methodAdd])
           (Uint160_BytesBE 21) (ByteArray methodSecret) (Array [])
           smartcontract_All Hf).
Defined.

Lemma contractCall_touches_one_counter_witness :
  fst (contractCallExInternal (Uint160_BytesBE 21) (ByteArray methodAdd)
         (Array []) smartcontract_All (callWorld [] [methodAdd]))
  = Ret tt
  /\ DAO (ic (snd (contractCallExInternal (Uint160_BytesBE 21) (ByteArray methodAdd)
                     (Array []) smartcontract_All (callWorld [] [methodAdd]))))
     = DAO (ic (callWorld [] [methodAdd]))
  /\ Invocations (ic (snd (contractCallExInternal (Uint160_BytesBE 21) (ByteArray methodAdd)
                     (Array []) smartcontract_All (callWorld [] [methodAdd])))) !! 20
     = Invocations (ic (callWorld [] [methodAdd])) !! 20.
Proof.
  assert (Hok : fst (contractCallExInternal (Uint160_BytesBE 21) (ByteArray methodAdd)
                       (Array []) smartcontract_All (callWorld [] [methodAdd]))
                = Ret tt) by (vm_compute; reflexivity).
  split; [exact Hok |].
  destruct (contractCall_touches_one_counter (callWorld [] [methodAdd])
              (Uint160_BytesBE 21) (ByteArray methodAdd) (Array [])
              smartcontract_All Hok)
    as (u & Hu & Hothers & Hdao & _).
  split; [exact Hdao |].
  apply Hothers. intros Heq. subst u.
  assert (Hu' : Uint160DecodeBytesBE (Uint160_BytesBE 21) = Some 21)
    by (vm_compute; reflexivity).
  rewrite Hu' in Hu. discriminate Hu.
Defined.

(** Two calls, one inside the other: the first keeps flag 4 of the caller's
    flags, the second cannot get back more. *)
Lemma call_chain_keeps_flags_within_witness :
  fst (call_chain twoCalls chainWorld) = Ret tt
  /\ (forall i, Z.testbit (f_callFlag (current (v (snd (call_chain twoCalls chainWorld))))) i
                = true ->
                Z.testbit (f_callFlag (current (v chainWorld))) i = true)
  /\ length (callers (v (snd (call_chain twoCalls chainWorld))))
     = (length (callers (v chainWorld)) + length twoCalls)%nat
  /\ entry_frame (v (snd (call_chain twoCalls chainWorld))) = entry_frame (v chainWorld).
Proof.
  assert (Hok : fst (call_chain twoCalls chainWorld) = Ret tt)
    by (vm_compute; reflexivity).
  split; [exact Hok |].
  exact (call_chain_keeps_flags_within twoCalls chainWorld Hok).
Defined.

(** Two items that serialize, notified one after the other. *)
Lemma notifications_in_order_witness :
  estack (v (worldAtTip [BigInteger 1; BigInteger 2; Null]))
  = [BigInteger 1; BigInteger 2] ++ [Null]
  /\ Forall (fun x => exists b, SerializeItem x = inr b) [BigInteger 1; BigInteger 2]
  /\ notify_times 2 (worldAtTip [BigInteger 1; BigInteger 2; Null])
     = (Ret tt,
        with_ic
          (with_Notifications
             ([] ++ [ {| ne_ScriptHash := 20; ne_Item := BigInteger 1 |};
                      {| ne_ScriptHash := 20; ne_Item := BigInteger 2 |} ])
             (ic (worldAtTip [BigInteger 1; BigInteger 2; Null])))
          (on_stack [Null] (worldAtTip [BigInteger 1; BigInteger 2; Null]))).
Proof.
  assert (Hall : Forall (fun x => exists b, SerializeItem x = inr b)
                   [BigInteger 1; BigInteger 2]).
  { repeat constructor; eexists; vm_compute; reflexivity. }
  split; [reflexivity |]. split; [exact Hall |].
  exact (notifications_in_order [BigInteger 1; BigInteger 2] [Null]
           (worldAtTip [BigInteger 1; BigInteger 2; Null]) eq_refl Hall).
Defined.

Lemma script_hashes_after_call_witness :
  fst (contractCallExInternal (Uint160_BytesBE 21) (ByteArray methodAdd)
         (Array []) smartcontract_All (callWorld [] [methodAdd]))
  = Ret tt
  /\ exists u w',
       Uint160DecodeBytesBE (Uint160_BytesBE 21) = Some u
       /\ snd (contractCallExInternal (Uint160_BytesBE 21) (ByteArray methodAdd)
                 (Array []) smartcontract_All (callWorld [] [methodAdd]))
          = w'
       /\ engineGetExecutingScriptHash w'
          = (Ret tt, on_stack (ByteArray (Uint160_BytesBE u) :: estack (v w')) w')
       /\ engineGetCallingScriptHash w'
          = (Ret tt, on_stack (ByteArray (Uint160_BytesBE 20) :: estack (v w')) w')
       /\ engineGetEntryScriptHash w'
          = (Ret tt, on_stack (ByteArray (Uint160_BytesBE 20) :: estack (v w')) w').
Proof.
  assert (Hok : fst (contractCallExInternal (Uint160_BytesBE 21) (ByteArray methodAdd)
                       (Array []) smartcontract_All (callWorld [] [methodAdd]))
                = Ret tt) by (vm_compute; reflexivity).
  split; [exact Hok |].
  exact (script_hashes_after_call (callWorld [] [methodAdd])
           (Uint160_BytesBE 21) (ByteArray methodAdd) (Array [])
           smartcontract_All Hok).
Defined.

(** No contract is stored under hash 99. *)
Lemma contractIsStandard_cases_witness :
  estack (v (worldAtTip [ByteArray (Uint160_BytesBE 99)])) = [ByteArray (Uint160_BytesBE 99)]
  /\ TryBytes (ByteArray (Uint160_BytesBE 99)) = Some (Uint160_BytesBE 99)
  /\ Uint160DecodeBytesBE (Uint160_BytesBE 99) = Some 99
  /\ dao_contracts (DAO (ic (worldAtTip [ByteArray (Uint160_BytesBE 99)]))) !! 99 = None
  /\ contractIsStandard (fun _ => false) (worldAtTip [ByteArray (Uint160_BytesBE 99)])
     = (Ret tt, on_stack [Bool true] (worldAtTip [ByteArray (Uint160_BytesBE 99)])).
Proof.
  assert (Hu : Uint160DecodeBytesBE (Uint160_BytesBE 99) = Some 99)
    by (vm_compute; reflexivity).
  assert (Hn : dao_contracts (DAO (ic (worldAtTip [ByteArray (Uint160_BytesBE 99)]))) !! 99
               = None) by (vm_compute; reflexivity).
  split; [reflexivity |]. split; [reflexivity |]. split; [exact Hu |]. split; [exact Hn |].
  exact (proj1 (proj2 (contractIsStandard_cases (fun _ => false)
                         (worldAtTip [ByteArray (Uint160_BytesBE 99)])
                         (ByteArray (Uint160_BytesBE 99)) [] (Uint160_BytesBE 99)
                         eq_refl eq_refl)
                  99 Hu)
           Hn).
Defined.

(** The header of the tip has one confirmation. *)
Lemma NewHeader_confirmations_witness :
  0 <= result.h_Index (sampleHeader 1) < 2 ^ 32
  /\ 0 <= BlockHeight (sampleChain 1 ∅) < 2 ^ 32
  /\ result.h_Index (sampleHeader 1) <= BlockHeight (sampleChain 1 ∅)
  /\ result.Confirmations (result.NewHeader (fun _ => 0) (sampleHeader 1) (sampleChain 1 ∅))
     = if (result.h_Index (sampleHeader 1) =? 0) && (BlockHeight (sampleChain 1 ∅) =? MaxUint32)
       then 0
       else BlockHeight (sampleChain 1 ∅) - result.h_Index (sampleHeader 1) + 1.
Proof.
  assert (Hi : 0 <= result.h_Index (sampleHeader 1) < 2 ^ 32) by (cbn; lia).
  assert (Hh : 0 <= BlockHeight (sampleChain 1 ∅) < 2 ^ 32) by (cbn; lia).
  assert (Hle : result.h_Index (sampleHeader 1) <= BlockHeight (sampleChain 1 ∅))
    by (cbn; lia).
  split; [exact Hi |]. split; [exact Hh |]. split; [exact Hle |].
  exact (proj1 (NewHeader_confirmations (fun _ => 0) (sampleHeader 1) (sampleChain 1 ∅)
                  Hi Hh) Hle).
Defined.

(** The header of index 0 under the last [uint32] height: the count wraps
    to zero. *)
Example NewHeader_count_wraps_at_top :
  result.Confirmations
    (result.NewHeader (fun _ => 0) (sampleHeader 0) (sampleChain MaxUint32 ∅)) = 0.
Proof. vm_compute. reflexivity. Qed.

(** The nonce of a header is its consensus data in lower-case hex. *)
Example NewHeader_nonce :
  result.Nonce (result.NewHeader (fun _ => 0) (sampleHeader 1) (sampleChain 1 ∅)) = "ff"
  /\ result.FormatUint16 0 = "0"
  /\ result.FormatUint16 4096 = "1000"
  /\ result.FormatUint16 (2 ^ 64 - 1) = "ffffffffffffffff".
Proof. repeat split; vm_compute; reflexivity. Qed.

Lemma GetUint160FromHex_prefix_witness :
  String.length sampleHex = 40%nat
  /\ request.GetUint160FromHex sampleDecode
       (request.mkParam 1 (request.VString ("0x" ++ sampleHex)))
     = sampleDecode sampleHex
  /\ request.GetUint160FromHex sampleDecode (request.mkParam 1 (request.VString sampleHex))
     = sampleDecode sampleHex.
Proof.
  assert (Hl : String.length sampleHex = 40%nat) by reflexivity.
  split; [exact Hl |].
  exact (proj1 (GetUint160FromHex_prefix sampleDecode 1 sampleHex) Hl).
Defined.

(** An array whose second element is no hash. *)
Lemma GetUint160Slice_all_or_nothing_witness :
  [request.mkParam 1 (request.VString sampleHex); request.mkParam 1 (request.VString "zz")]
  = [request.mkParam 1 (request.VString sampleHex)]
      ++ request.mkParam 1 (request.VString "zz") :: []
  /\ Forall2 (fun u x => request.GetUint160FromHex sampleDecode u = Ret x)
       [request.mkParam 1 (request.VString sampleHex)] [1]
  /\ request.GetUint160FromHex sampleDecode (request.mkParam 1 (request.VString "zz"))
     = Err errBadHash
  /\ request.GetUint160Slice sampleDecode
       (request.mkParam 3
          (request.VArray [request.mkParam 1 (request.VString sampleHex);
                           request.mkParam 1 (request.VString "zz")]))
     = Err errBadHash.
Proof.
  assert (Hpre : Forall2 (fun u x => request.GetUint160FromHex sampleDecode u = Ret x)
                   [request.mkParam 1 (request.VString sampleHex)] [1])
    by (repeat constructor).
  split; [reflexivity |]. split; [exact Hpre |]. split; [reflexivity |].
  exact (proj1 (proj2 (GetUint160Slice_all_or_nothing sampleDecode 3
                         [request.mkParam 1 (request.VString sampleHex);
                          request.mkParam 1 (request.VString "zz")]))
           [request.mkParam 1 (request.VString sampleHex)]
           (request.mkParam 1 (request.VString "zz")) [] errBadHash [1]
           eq_refl Hpre eq_refl).
Defined.

(** A delete through the handle of id 42 leaves the item of id 7. *)
Lemma writes_stay_in_namespace_witness :
  estack (v (on_stack [Interop (VStorageContext 0); ByteArray keyK] destroyWorld))
  = Interop (VStorageContext 0) :: [ByteArray keyK]
  /\ heap (on_stack [Interop (VStorageContext 0); ByteArray keyK] destroyWorld) !! 0%nat
     = Some {| sc_ID := 42; sc_ReadOnly := false |}
  /\ 7 <> sc_ID {| sc_ID := 42; sc_ReadOnly := false |}
  /\ stored (snd (run_write WriteDelete
                    (on_stack [Interop (VStorageContext 0); ByteArray keyK] destroyWorld)))
       7 keyK
     = stored (on_stack [Interop (VStorageContext 0); ByteArray keyK] destroyWorld) 7 keyK.
Proof.
  assert (Hne : 7 <> sc_ID {| sc_ID := 42; sc_ReadOnly := false |})
    by (simpl; lia).
  split; [reflexivity |]. split; [reflexivity |]. split; [exact Hne |].
  exact (writes_stay_in_namespace WriteDelete
           (on_stack [Interop (VStorageContext 0); ByteArray keyK] destroyWorld)
           0%nat {| sc_ID := 42; sc_ReadOnly := false |} [ByteArray keyK] 7 keyK
           eq_refl eq_refl Hne).
Defined.

End OnMoreSamples.
